(** * Chess.com Anti-Cheat extension: the risk scoring engine

    A shallow embedding of [src/config.js], [src/risk-score.js],
    [src/metrics.js] and [background/background.js] of the Firefox
    extension, followed by the properties of the scoring engine.

    Modelling conventions.
    - A JavaScript number is a rational ([Q]), compared with [==]
      ([Qeq]).  Division is only meaningful where the divisor is not
      zero (the code divides by [n + WEIGHTING_K] and by positive
      configuration constants).
    - risk-score.js is embedded twice.  In [RiskScore] the arithmetic is
      that of [Q], so that the rounding of IEEE doubles is idealised
      away: the formulas, the bounds and the monotonicity of the scores
      are stated there.  In [WithArithmetic] the operations [+], [-],
      [*] and [/] are a parameter [A]: with [Number.exact] the functions
      are those of [RiskScore], with [Binary64.arithmetic] every
      operation rounds to the nearest double as in the engine, a number
      then being the rational that a double denotes.  What depends on
      the last place of a score, the rounding of the headline to a
      whole number and the ranking of the formats, is stated there, for
      every arithmetic.
    - The one field that the code tests with [isNaN],
      [accuracy.highAccuracyPercentage], is a [jsnum]: a rational or
      [NaN], with every comparison against [NaN] false.
    - [window.ChessAntiCheat.config] is read afresh by every function, so
      the configuration is an explicit argument [cfg].
    - The module-level [weightCache] is threaded through the scoring
      functions by a state monad [M]; its keys are number values
      (canonical rationals).
    - [Object.entries] of the formats object is an association list in
      insertion order.
    - [new Date().toISOString()] is an argument [now]. *)

From Stdlib Require Import QArith Qabs Qround Qcanon Qminmax Lqa Lia ZArith Bool.
From Stdlib Require Import Ascii String Sorted Permutation.
From Stdlib Require SpecFloat.
From stdpp Require Import base option list gmap strings.

Local Open Scope Q_scope.

(** ** JavaScript numbers *)

Abbreviation number := Q (only parsing).

(** [a < b] on numbers, as a boolean; [a > b] is [Qltb b a]. *)
Definition Qltb (a b : Q) : bool := negb (Qle_bool b a).

Definition Math_floor (x : Q) : Q := inject_Z (Qfloor x).

(** [Math.round] rounds to the nearest integer, halves upwards. *)
Definition Math_round (x : Q) : Q := inject_Z (Qfloor (x + 0.5)).

Definition Math_min (a b : Q) : Q := Qmin a b.

(** A number that may be [NaN]. *)
Inductive jsnum : Type :=
  | Num (q : Q)
  | NaN.

Definition isNaN (x : jsnum) : bool :=
  match x with Num _ => false | NaN => true end.

(** [x <= k], [x < k] and [x > k] for a possibly-NaN [x]. *)
Definition js_leb (x : jsnum) (k : Q) : bool :=
  match x with Num q => Qle_bool q k | NaN => false end.
Definition js_ltb (x : jsnum) (k : Q) : bool :=
  match x with Num q => Qltb q k | NaN => false end.
Definition js_gtb (x : jsnum) (k : Q) : bool :=
  match x with Num q => Qltb k q | NaN => false end.

(** ** config.js *)

Module Config.

Record AccuracyTier := {
  threshold : Q;
  requiredAccuracy : Q
}.

Record AccuracyThresholds := {
  LOW_RATING : AccuracyTier;
  HIGH_RATING : AccuracyTier
}.

Record Weights := {
  OVERALL_WINRATE : Q;
  RECENT_WINRATE : Q;
  HIGH_ACCURACY : Q
}.

Record Thresholds := {
  ACCOUNT_AGE_DAYS : Q;
  WEIGHTING_K : Q;
  MIN_GAMES : Q;
  ACCOUNT_AGE_MULTIPLIER : Q
}.

Record WinrateThresholds := {
  LOW_WINRATE_THRESHOLD : Q;
  MEDIUM_WINRATE_THRESHOLD : Q;
  HIGH_WINRATE_THRESHOLD : Q;
  BASE_SCORE : Q;
  EXTENDED_SCORE : Q;
  SCALE_FACTOR : Q
}.

Record HighAccuracyThresholds := {
  MODERATE_SUSPICION_THRESHOLD : Q;
  HIGH_SUSPICION_THRESHOLD : Q;
  EXTREME_SUSPICION_THRESHOLD : Q;
  MODERATE_MAX_SCORE : Q;
  HIGH_MAX_SCORE : Q;
  EXTREME_SCORE_INCREMENT : Q;
  EXTREME_SCORE_STEP : Q
}.

Record RiskLevel := {
  rl_min : Q;
  rl_max : Q;
  rl_color : string;
  rl_label : string
}.

Record RiskLevels := {
  LOW : RiskLevel;
  MODERATE : RiskLevel;
  HIGH : RiskLevel;
  VERY_HIGH : RiskLevel
}.

Record DefaultSettings := {
  RATED_ONLY : bool
}.

Record t := {
  ACCURACY_THRESHOLDS : AccuracyThresholds;
  WEIGHTS : Weights;
  THRESHOLDS : Thresholds;
  WINRATE_THRESHOLDS : WinrateThresholds;
  HIGH_ACCURACY_THRESHOLDS : HighAccuracyThresholds;
  DEFAULT_SETTINGS : DefaultSettings;
  RISK_LEVELS : RiskLevels
}.

(** The constants of config.js. *)
Definition config : t := {|
  ACCURACY_THRESHOLDS := {|
    LOW_RATING := {| threshold := 1500; requiredAccuracy := 80 |};
    HIGH_RATING := {| threshold := 1500; requiredAccuracy := 90 |} |};
  WEIGHTS := {|
    OVERALL_WINRATE := 0.35;
    RECENT_WINRATE := 0.35;
    HIGH_ACCURACY := 0.30 |};
  THRESHOLDS := {|
    ACCOUNT_AGE_DAYS := 60;
    WEIGHTING_K := 20;
    MIN_GAMES := 5;
    ACCOUNT_AGE_MULTIPLIER := 1.5 |};
  WINRATE_THRESHOLDS := {|
    LOW_WINRATE_THRESHOLD := 0.5;
    MEDIUM_WINRATE_THRESHOLD := 0.6;
    HIGH_WINRATE_THRESHOLD := 0.7;
    BASE_SCORE := 50;
    EXTENDED_SCORE := 100;
    SCALE_FACTOR := 0.1 |};
  HIGH_ACCURACY_THRESHOLDS := {|
    MODERATE_SUSPICION_THRESHOLD := 10;
    HIGH_SUSPICION_THRESHOLD := 20;
    EXTREME_SUSPICION_THRESHOLD := 30;
    MODERATE_MAX_SCORE := 50;
    HIGH_MAX_SCORE := 100;
    EXTREME_SCORE_INCREMENT := 50;
    EXTREME_SCORE_STEP := 5 |};
  DEFAULT_SETTINGS := {| RATED_ONLY := true |};
  RISK_LEVELS := {|
    LOW := {| rl_min := 0; rl_max := 30;
              rl_color := "#4CAF50"; rl_label := "Low Risk" |};
    MODERATE := {| rl_min := 31; rl_max := 50;
                   rl_color := "#FFC107"; rl_label := "Moderate Risk" |};
    HIGH := {| rl_min := 51; rl_max := 70;
               rl_color := "#FF9800"; rl_label := "High Risk" |};
    VERY_HIGH := {| rl_min := 71; rl_max := 100;
                    rl_color := "#F44336"; rl_label := "Very High Risk" |} |}
|}.

(** The same configuration with another confidence constant. *)
Definition with_K (cfg : t) (K : Q) : t := {|
  ACCURACY_THRESHOLDS := ACCURACY_THRESHOLDS cfg;
  WEIGHTS := WEIGHTS cfg;
  THRESHOLDS := {|
    ACCOUNT_AGE_DAYS := ACCOUNT_AGE_DAYS (THRESHOLDS cfg);
    WEIGHTING_K := K;
    MIN_GAMES := MIN_GAMES (THRESHOLDS cfg);
    ACCOUNT_AGE_MULTIPLIER := ACCOUNT_AGE_MULTIPLIER (THRESHOLDS cfg) |};
  WINRATE_THRESHOLDS := WINRATE_THRESHOLDS cfg;
  HIGH_ACCURACY_THRESHOLDS := HIGH_ACCURACY_THRESHOLDS cfg;
  DEFAULT_SETTINGS := DEFAULT_SETTINGS cfg;
  RISK_LEVELS := RISK_LEVELS cfg
|}.

End Config.

Import Config.
Abbreviation Config := Config.t.

(** ** The weight cache and its monad *)

(** [weightCache]: a [Map] from the number [n] to the weight stored for it. *)
Abbreviation WeightCache := (gmap Qc Q).

Definition M (A : Type) : Type := WeightCache -> A * WeightCache.

Definition ret {A} (a : A) : M A := fun cache => (a, cache).

Definition bind {A B} (m : M A) (k : A -> M B) : M B :=
  fun cache => let (a, cache') := m cache in k a cache'.

Notation "'let*' x := m 'in' k" := (bind m (fun x => k))
  (at level 10, x name, m at level 100, k at level 200).

Definition evalM {A} (m : M A) (cache : WeightCache) : A := fst (m cache).
Definition execM {A} (m : M A) (cache : WeightCache) : WeightCache :=
  snd (m cache).

(** ** The data model (metrics.js builds it, risk-score.js consumes it) *)

Record GamesCounts := {
  gc_total : Q;
  gc_wins : Q;
  gc_losses : Q;
  gc_draws : Q
}.

Record RecentGames := {
  rg_total : Q;
  rg_wins : Q;
  rg_losses : Q;
  rg_draws : Q;
  rg_winrate : Q
}.

Record Accuracy := {
  gamesWithAccuracy : Q;
  highAccuracyGames : Q;
  highAccuracyPercentage : jsnum
}.

Record FormatStats := {
  currentRating : Q;
  overallWinrate : Q;
  gamesCounts : GamesCounts;
  recentGames : RecentGames;
  accuracy : Accuracy
}.

Record PlayerMetrics := {
  accountAge : Q;
  formats : list (string * FormatStats);
  pm_username : string;
  pm_timestamp : string
}.

(** ** risk-score.js *)

(** The functions in the arithmetic of [Q]; [WithArithmetic] below has
    them in any arithmetic, that of doubles included. *)
Module RiskScore.

(** [{ score, debug: { baseScore, sampleWeight, reason } }] *)
Record AccuracyDebug := {
  baseScore : Q;
  sampleWeight : Q;
  reason : option string
}.

Record AccuracyResult := {
  ar_score : Q;
  ar_debug : AccuracyDebug
}.

Record WinRateFactor := {
  wf_raw : Q;
  wf_score : Q;
  wf_weight : Q;
  wf_weighted : Q;
  wf_games : Q
}.

(** [af_debug] stands for the spread [...accuracyResult.debug]. *)
Record AccuracyFactor := {
  af_raw : jsnum;
  af_debug : AccuracyDebug;
  af_weight : Q;
  af_weighted : Q;
  af_gamesWithAccuracy : Q;
  af_highAccuracyGames : Q;
  af_playerRating : Q
}.

Record FormatDebug := {
  fd_overallWinRate : WinRateFactor;
  fd_recentWinRate : WinRateFactor;
  fd_accuracy : AccuracyFactor;
  fd_weightedSum : Q
}.

(** The value of [calculateFormatRiskScore]: the bare number when
    [debug] is false ([fr_debug = None]), [{ score, debug }] otherwise. *)
Record FormatRisk := {
  fr_score : Q;
  fr_debug : option FormatDebug
}.

Record Calculation := {
  calc_weightedSum : Q;
  calc_accountAgeFactor : Q;
  beforeCap : Q;
  afterCap : Q
}.

Record Factors := {
  f_debug : FormatDebug;
  f_accountAgeFactor : Q;
  calculation : Calculation
}.

Record FormatScore := {
  format : string;
  score : Q;
  factors : option Factors
}.

Record MaxScore := {
  value : Q;
  ms_format : option string;
  ms_factors : option Factors;
  ms_reason : option string
}.

Record RiskScoreResult := {
  maxScore : MaxScore;
  otherFormats : list FormatScore;
  accountAgeScore : Q;
  accountAgeDays : Q;
  username : string;
  timestamp : string
}.

Section WithConfig.

Variable cfg : Config.

(** Calculate weighted score based on sample size. *)
Definition calculateWeight (n : Q) : M Q := fun weightCache =>
  let cacheKey := Q2Qc n in
  match weightCache !! cacheKey with
  | Some w => (w, weightCache)
  | None =>
      let weight := n / (n + WEIGHTING_K (THRESHOLDS cfg)) in
      (weight, <[cacheKey := weight]> weightCache)
  end.

(** Calculate account age factor. *)
Definition calculateAccountAgeFactor (accountAgeDays : Q) : Q :=
  if Qle_bool accountAgeDays (ACCOUNT_AGE_DAYS (THRESHOLDS cfg))
  then ACCOUNT_AGE_MULTIPLIER (THRESHOLDS cfg)
  else 1.

(** The local [score] of [calculateWinRateScore] once the chain of
    [if]/[else if] has run (it starts at 0). *)
Definition winRateBaseScore (winRate : Q) : Q :=
  let W := WINRATE_THRESHOLDS cfg in
  if Qltb (HIGH_WINRATE_THRESHOLD W) winRate then
    EXTENDED_SCORE W +
    ((winRate - HIGH_WINRATE_THRESHOLD W) / SCALE_FACTOR W) *
    EXTENDED_SCORE W
  else if Qltb (MEDIUM_WINRATE_THRESHOLD W) winRate then
    BASE_SCORE W +
    ((winRate - MEDIUM_WINRATE_THRESHOLD W) /
     (HIGH_WINRATE_THRESHOLD W - MEDIUM_WINRATE_THRESHOLD W)) *
    BASE_SCORE W
  else if Qltb (LOW_WINRATE_THRESHOLD W) winRate then
    ((winRate - LOW_WINRATE_THRESHOLD W) /
     (MEDIUM_WINRATE_THRESHOLD W - LOW_WINRATE_THRESHOLD W)) *
    BASE_SCORE W
  else 0.

(** Calculate win rate score with weighting. *)
Definition calculateWinRateScore (winRate totalGames : Q) : M Q :=
  if Qle_bool winRate (LOW_WINRATE_THRESHOLD (WINRATE_THRESHOLDS cfg))
  then ret 0
  else
    let score := winRateBaseScore winRate in
    let* weight := calculateWeight totalGames in
    ret (score * weight).

(** The local [baseScore] of [calculateHighAccuracyScore], for a
    percentage that is a number above the moderate threshold. *)
Definition accuracyBaseScore (pct : Q) : Q :=
  let H := HIGH_ACCURACY_THRESHOLDS cfg in
  if Qltb (EXTREME_SUSPICION_THRESHOLD H) pct then
    HIGH_MAX_SCORE H +
    Math_floor ((pct - EXTREME_SUSPICION_THRESHOLD H) /
                EXTREME_SCORE_STEP H) *
    EXTREME_SCORE_INCREMENT H
  else if Qltb (HIGH_SUSPICION_THRESHOLD H) pct then
    let progressInRange :=
      (pct - HIGH_SUSPICION_THRESHOLD H) /
      (EXTREME_SUSPICION_THRESHOLD H - HIGH_SUSPICION_THRESHOLD H) in
    MODERATE_MAX_SCORE H + progressInRange * MODERATE_MAX_SCORE H
  else
    let progressInRange :=
      (pct - MODERATE_SUSPICION_THRESHOLD H) /
      (HIGH_SUSPICION_THRESHOLD H - MODERATE_SUSPICION_THRESHOLD H) in
    progressInRange * MODERATE_MAX_SCORE H.

(** Calculate high accuracy games score.  After the first test the
    percentage is a number; the [NaN] branch of the [match] is never
    taken and repeats the first return. *)
Definition calculateHighAccuracyScore (accuracyData : Accuracy)
    (playerRating : Q) : M AccuracyResult :=
  let H := HIGH_ACCURACY_THRESHOLDS cfg in
  let gamesWithAccuracy := gamesWithAccuracy accuracyData in
  let highAccuracyPercentage := highAccuracyPercentage accuracyData in
  if Qeq_bool gamesWithAccuracy 0 || isNaN highAccuracyPercentage then
    ret {| ar_score := 0;
           ar_debug := {| baseScore := 0; sampleWeight := 0;
                          reason := Some "no_accuracy_data" |} |}
  else if js_leb highAccuracyPercentage (MODERATE_SUSPICION_THRESHOLD H) then
    ret {| ar_score := 0;
           ar_debug := {| baseScore := 0; sampleWeight := 0;
                          reason := Some "below_threshold" |} |}
  else
    match highAccuracyPercentage with
    | Num pct =>
        let* sampleWeight := calculateWeight gamesWithAccuracy in
        let baseScore := accuracyBaseScore pct in
        ret {| ar_score := baseScore * sampleWeight;
               ar_debug := {| baseScore := baseScore;
                              sampleWeight := sampleWeight;
                              reason := None |} |}
    | NaN =>
        ret {| ar_score := 0;
               ar_debug := {| baseScore := 0; sampleWeight := 0;
                              reason := Some "no_accuracy_data" |} |}
    end.

(** Calculate format risk score. *)
Definition calculateFormatRiskScore (formatMetrics : FormatStats)
    (debug : bool) : M FormatRisk :=
  let W := WEIGHTS cfg in
  let gamesCounts := gamesCounts formatMetrics in
  let recentGames := recentGames formatMetrics in
  let accuracy := accuracy formatMetrics in
  let* overallWinRateScore :=
    calculateWinRateScore (overallWinrate formatMetrics / 100)
                          (gc_total gamesCounts) in
  let* recentWinRateScore :=
    calculateWinRateScore (rg_winrate recentGames / 100)
                          (rg_total recentGames) in
  let* accuracyResult :=
    calculateHighAccuracyScore accuracy (currentRating formatMetrics) in
  let highAccuracyScore := ar_score accuracyResult in
  let weightedSum :=
    OVERALL_WINRATE W * overallWinRateScore +
    RECENT_WINRATE W * recentWinRateScore +
    HIGH_ACCURACY W * highAccuracyScore in
  if negb debug then ret {| fr_score := weightedSum; fr_debug := None |}
  else
    ret {| fr_score := weightedSum;
           fr_debug := Some {|
             fd_overallWinRate := {|
               wf_raw := overallWinrate formatMetrics;
               wf_score := overallWinRateScore;
               wf_weight := OVERALL_WINRATE W;
               wf_weighted := OVERALL_WINRATE W * overallWinRateScore;
               wf_games := gc_total gamesCounts |};
             fd_recentWinRate := {|
               wf_raw := rg_winrate recentGames;
               wf_score := recentWinRateScore;
               wf_weight := RECENT_WINRATE W;
               wf_weighted := RECENT_WINRATE W * recentWinRateScore;
               wf_games := rg_total recentGames |};
             fd_accuracy := {|
               af_raw := highAccuracyPercentage accuracy;
               af_debug := ar_debug accuracyResult;
               af_weight := HIGH_ACCURACY W;
               af_weighted := HIGH_ACCURACY W * ar_score accuracyResult;
               af_gamesWithAccuracy := gamesWithAccuracy accuracy;
               af_highAccuracyGames := highAccuracyGames accuracy;
               af_playerRating := currentRating formatMetrics |};
             fd_weightedSum := weightedSum |} |}.

(** [Array.prototype.sort] with the comparator
    [(a, b) => b.score - a.score]: a stable sort into descending score.
    [insertByScore x l] puts [x] in front of the first element whose
    score is not greater than that of [x], so that [x], which preceded
    the elements of [l] in the array, stays in front of its equals. *)
Fixpoint insertByScore (x : FormatScore) (l : list FormatScore)
    : list FormatScore :=
  match l with
  | [] => [x]
  | y :: l' =>
      if Qle_bool (score y) (score x) then x :: y :: l'
      else y :: insertByScore x l'
  end.

Definition sortByScore (l : list FormatScore) : list FormatScore :=
  foldr insertByScore [] l.

(** One turn of the loop of [calculateRiskScore] for a format that
    passed the [MIN_GAMES] test: the entry pushed on [formatScores]. *)
Definition formatScoreEntry (accountAgeFactor : Q) (debug : bool)
    (format : string) (formatMetrics : FormatStats) : M FormatScore :=
  let* result := calculateFormatRiskScore formatMetrics debug in
  let rawScore := fr_score result in
  let finalFormatScore := Math_min 100 (accountAgeFactor * rawScore) in
  ret {| format := format;
         score := finalFormatScore;
         factors :=
           match fr_debug result with
           | Some d =>
               Some {| f_debug := d;
                       f_accountAgeFactor := accountAgeFactor;
                       calculation := {|
                         calc_weightedSum := rawScore;
                         calc_accountAgeFactor := accountAgeFactor;
                         beforeCap := accountAgeFactor * rawScore;
                         afterCap := finalFormatScore |} |}
           | None => None
           end |}.

(** The loop over [Object.entries(metrics.formats)]; the result is
    [formatScores] in push order. *)
Fixpoint collectFormatScores (accountAgeFactor : Q) (debug : bool)
    (entries : list (string * FormatStats)) : M (list FormatScore) :=
  match entries with
  | [] => ret []
  | (format, formatMetrics) :: rest =>
      if Qltb (rg_total (recentGames formatMetrics))
              (MIN_GAMES (THRESHOLDS cfg))
      then collectFormatScores accountAgeFactor debug rest
      else
        let* entry :=
          formatScoreEntry accountAgeFactor debug format formatMetrics in
        let* formatScores :=
          collectFormatScores accountAgeFactor debug rest in
        ret (entry :: formatScores)
  end.

(** Calculate final risk score for a player. *)
Definition calculateRiskScore (now : string) (metrics : PlayerMetrics)
    (debug : bool) : M RiskScoreResult :=
  let accountAgeFactor := calculateAccountAgeFactor (accountAge metrics) in
  let* formatScores :=
    collectFormatScores accountAgeFactor debug (formats metrics) in
  match formatScores with
  | [] =>
      ret {| maxScore := {| value := 0; ms_format := None;
                            ms_factors := None;
                            ms_reason := Some "no_rated_games" |};
             otherFormats := [];
             accountAgeScore := accountAgeFactor;
             accountAgeDays := accountAge metrics;
             username := pm_username metrics;
             timestamp := now |}
  | first :: _ =>
      let sorted := sortByScore formatScores in
      let highest := hd first sorted in
      ret {| maxScore := {| value := Math_round (score highest);
                            ms_format := Some (format highest);
                            ms_factors := factors highest;
                            ms_reason := None |};
             otherFormats := tl sorted;
             accountAgeScore := accountAgeFactor;
             accountAgeDays := accountAge metrics;
             username := pm_username metrics;
             timestamp := now |}
  end.

(** Get risk level from score. *)
Definition getRiskLevel (score : Q) : RiskLevel :=
  let R := RISK_LEVELS cfg in
  if Qle_bool score (rl_max (LOW R)) then LOW R
  else if Qle_bool score (rl_max (MODERATE R)) then MODERATE R
  else if Qle_bool score (rl_max (HIGH R)) then HIGH R
  else VERY_HIGH R.

End WithConfig.

End RiskScore.

(** ** The arithmetic of numbers *)

(** The four operations on numbers as the engine performs them.  The
    numbers are rationals: those that the finite doubles denote, when
    the operations are those of doubles. *)
Module Number.

Record Arithmetic := {
  add : Q -> Q -> Q;
  sub : Q -> Q -> Q;
  mul : Q -> Q -> Q;
  div : Q -> Q -> Q
}.

(** The arithmetic of the rationals. *)
Definition exact : Arithmetic :=
  {| add := Qplus; sub := Qminus; mul := Qmult; div := Qdiv |}.

End Number.

Abbreviation Arithmetic := Number.Arithmetic.

(** The arithmetic of IEEE 754 doubles (binary64, rounding to the nearest
    double, ties to the even one), by the operations of [SpecFloat]. *)
Module Binary64.

Import SpecFloat.

Definition prec : Z := 53.
Definition emax : Z := 1024.

(** [Some k] when the denominator is [2^k]. *)
Fixpoint log2_exact (p : positive) : option Z :=
  match p with
  | xH => Some 0%Z
  | xO p' => option_map Z.succ (log2_exact p')
  | xI _ => None
  end.

(** The double of a number: the number itself when it is a double (its
    denominator is then a power of two), and otherwise the quotient of
    the doubles of its numerator and denominator, which is the double
    nearest to it when both are below [2^53], as for the decimal
    constants of config.js. *)
Definition of_number (q : Q) : spec_float :=
  match log2_exact (Qden q) with
  | Some k => binary_normalize prec emax (Qnum q) (- k) false
  | None =>
      SFdiv prec emax
        (binary_normalize prec emax (Qnum q) 0 false)
        (binary_normalize prec emax (Zpos (Qden q)) 0 false)
  end.

(** The number that a finite double denotes, in lowest terms.  The
    scores never are infinite or [NaN] (the divisors are positive);
    such a double is given the value 0, as [Q] gives one to a division
    by zero. *)
Definition to_number (x : spec_float) : Q :=
  match x with
  | S754_finite s m e =>
      let m := if s then Zneg m else Zpos m in
      Qred match e with
           | Zneg k => m # (2 ^ k)
           | _ => inject_Z (m * 2 ^ e)
           end
  | _ => 0
  end.

Definition add (a b : Q) : Q :=
  to_number (SFadd prec emax (of_number a) (of_number b)).
Definition sub (a b : Q) : Q :=
  to_number (SFsub prec emax (of_number a) (of_number b)).
Definition mul (a b : Q) : Q :=
  to_number (SFmul prec emax (of_number a) (of_number b)).
Definition div (a b : Q) : Q :=
  to_number (SFdiv prec emax (of_number a) (of_number b)).

Definition arithmetic : Arithmetic :=
  {| Number.add := add; Number.sub := sub;
     Number.mul := mul; Number.div := div |}.

(** The double that a numeric literal of the source denotes. *)
Definition literal (q : Q) : Q := to_number (of_number q).

Definition literalLevel (level : RiskLevel) : RiskLevel :=
  {| rl_min := literal (rl_min level); rl_max := literal (rl_max level);
     rl_color := rl_color level; rl_label := rl_label level |}.

Definition literalTier (tier : AccuracyTier) : AccuracyTier :=
  {| threshold := literal (threshold tier);
     requiredAccuracy := literal (requiredAccuracy tier) |}.

(** A configuration as the engine holds it: every constant is the
    double of its literal. *)
Definition literals (cfg : Config) : Config := {|
  ACCURACY_THRESHOLDS := {|
    LOW_RATING := literalTier (LOW_RATING (ACCURACY_THRESHOLDS cfg));
    HIGH_RATING := literalTier (HIGH_RATING (ACCURACY_THRESHOLDS cfg)) |};
  WEIGHTS := {|
    OVERALL_WINRATE := literal (OVERALL_WINRATE (WEIGHTS cfg));
    RECENT_WINRATE := literal (RECENT_WINRATE (WEIGHTS cfg));
    HIGH_ACCURACY := literal (HIGH_ACCURACY (WEIGHTS cfg)) |};
  THRESHOLDS := {|
    ACCOUNT_AGE_DAYS := literal (ACCOUNT_AGE_DAYS (THRESHOLDS cfg));
    WEIGHTING_K := literal (WEIGHTING_K (THRESHOLDS cfg));
    MIN_GAMES := literal (MIN_GAMES (THRESHOLDS cfg));
    ACCOUNT_AGE_MULTIPLIER :=
      literal (ACCOUNT_AGE_MULTIPLIER (THRESHOLDS cfg)) |};
  WINRATE_THRESHOLDS :=
    let W := WINRATE_THRESHOLDS cfg in {|
    LOW_WINRATE_THRESHOLD := literal (LOW_WINRATE_THRESHOLD W);
    MEDIUM_WINRATE_THRESHOLD := literal (MEDIUM_WINRATE_THRESHOLD W);
    HIGH_WINRATE_THRESHOLD := literal (HIGH_WINRATE_THRESHOLD W);
    BASE_SCORE := literal (BASE_SCORE W);
    EXTENDED_SCORE := literal (EXTENDED_SCORE W);
    SCALE_FACTOR := literal (SCALE_FACTOR W) |};
  HIGH_ACCURACY_THRESHOLDS :=
    let H := HIGH_ACCURACY_THRESHOLDS cfg in {|
    MODERATE_SUSPICION_THRESHOLD := literal (MODERATE_SUSPICION_THRESHOLD H);
    HIGH_SUSPICION_THRESHOLD := literal (HIGH_SUSPICION_THRESHOLD H);
    EXTREME_SUSPICION_THRESHOLD := literal (EXTREME_SUSPICION_THRESHOLD H);
    MODERATE_MAX_SCORE := literal (MODERATE_MAX_SCORE H);
    HIGH_MAX_SCORE := literal (HIGH_MAX_SCORE H);
    EXTREME_SCORE_INCREMENT := literal (EXTREME_SCORE_INCREMENT H);
    EXTREME_SCORE_STEP := literal (EXTREME_SCORE_STEP H) |};
  DEFAULT_SETTINGS := DEFAULT_SETTINGS cfg;
  RISK_LEVELS := {|
    LOW := literalLevel (LOW (RISK_LEVELS cfg));
    MODERATE := literalLevel (MODERATE (RISK_LEVELS cfg));
    HIGH := literalLevel (HIGH (RISK_LEVELS cfg));
    VERY_HIGH := literalLevel (VERY_HIGH (RISK_LEVELS cfg)) |}
|}.

(** The constants of config.js as doubles. *)
Definition config : Config := Eval vm_compute in literals Config.config.

End Binary64.

(** ** risk-score.js with its arithmetic spelled out *)

(** The functions of risk-score.js once more, the operations [+], [-],
    [*] and [/] being those of an arithmetic [A].  Comparisons,
    [Math.min], [Math.floor] and [Math.round] are exact on doubles and
    need no rounding; so is the sign of the difference by which the
    scores are sorted. *)
Module WithArithmetic.

Import RiskScore.

Section Engine.

Variable A : Arithmetic.
Variable cfg : Config.

Local Notation "x ⊕ y" := (Number.add A x y)
  (at level 50, left associativity).
Local Notation "x ⊖ y" := (Number.sub A x y)
  (at level 50, left associativity).
Local Notation "x ⊗ y" := (Number.mul A x y)
  (at level 40, left associativity).
Local Notation "x ⊘ y" := (Number.div A x y)
  (at level 40, left associativity).

(** Calculate weighted score based on sample size. *)
Definition calculateWeight (n : Q) : M Q := fun weightCache =>
  let cacheKey := Q2Qc n in
  match weightCache !! cacheKey with
  | Some w => (w, weightCache)
  | None =>
      let weight := n ⊘ (n ⊕ WEIGHTING_K (THRESHOLDS cfg)) in
      (weight, <[cacheKey := weight]> weightCache)
  end.

(** The local [score] of [calculateWinRateScore] once the chain of
    [if]/[else if] has run (it starts at 0). *)
Definition winRateBaseScore (winRate : Q) : Q :=
  let W := WINRATE_THRESHOLDS cfg in
  if Qltb (HIGH_WINRATE_THRESHOLD W) winRate then
    EXTENDED_SCORE W ⊕
    ((winRate ⊖ HIGH_WINRATE_THRESHOLD W) ⊘ SCALE_FACTOR W) ⊗
    EXTENDED_SCORE W
  else if Qltb (MEDIUM_WINRATE_THRESHOLD W) winRate then
    BASE_SCORE W ⊕
    ((winRate ⊖ MEDIUM_WINRATE_THRESHOLD W) ⊘
     (HIGH_WINRATE_THRESHOLD W ⊖ MEDIUM_WINRATE_THRESHOLD W)) ⊗
    BASE_SCORE W
  else if Qltb (LOW_WINRATE_THRESHOLD W) winRate then
    ((winRate ⊖ LOW_WINRATE_THRESHOLD W) ⊘
     (MEDIUM_WINRATE_THRESHOLD W ⊖ LOW_WINRATE_THRESHOLD W)) ⊗
    BASE_SCORE W
  else 0.

(** Calculate win rate score with weighting. *)
Definition calculateWinRateScore (winRate totalGames : Q) : M Q :=
  if Qle_bool winRate (LOW_WINRATE_THRESHOLD (WINRATE_THRESHOLDS cfg))
  then ret 0
  else
    let score := winRateBaseScore winRate in
    let* weight := calculateWeight totalGames in
    ret (score ⊗ weight).

(** The local [baseScore] of [calculateHighAccuracyScore], for a
    percentage that is a number above the moderate threshold. *)
Definition accuracyBaseScore (pct : Q) : Q :=
  let H := HIGH_ACCURACY_THRESHOLDS cfg in
  if Qltb (EXTREME_SUSPICION_THRESHOLD H) pct then
    HIGH_MAX_SCORE H ⊕
    Math_floor ((pct ⊖ EXTREME_SUSPICION_THRESHOLD H) ⊘
                EXTREME_SCORE_STEP H) ⊗
    EXTREME_SCORE_INCREMENT H
  else if Qltb (HIGH_SUSPICION_THRESHOLD H) pct then
    let progressInRange :=
      (pct ⊖ HIGH_SUSPICION_THRESHOLD H) ⊘
      (EXTREME_SUSPICION_THRESHOLD H ⊖ HIGH_SUSPICION_THRESHOLD H) in
    MODERATE_MAX_SCORE H ⊕ progressInRange ⊗ MODERATE_MAX_SCORE H
  else
    let progressInRange :=
      (pct ⊖ MODERATE_SUSPICION_THRESHOLD H) ⊘
      (HIGH_SUSPICION_THRESHOLD H ⊖ MODERATE_SUSPICION_THRESHOLD H) in
    progressInRange ⊗ MODERATE_MAX_SCORE H.

(** Calculate high accuracy games score. *)
Definition calculateHighAccuracyScore (accuracyData : Accuracy)
    (playerRating : Q) : M AccuracyResult :=
  let H := HIGH_ACCURACY_THRESHOLDS cfg in
  let gamesWithAccuracy := gamesWithAccuracy accuracyData in
  let highAccuracyPercentage := highAccuracyPercentage accuracyData in
  if Qeq_bool gamesWithAccuracy 0 || isNaN highAccuracyPercentage then
    ret {| ar_score := 0;
           ar_debug := {| baseScore := 0; sampleWeight := 0;
                          reason := Some "no_accuracy_data" |} |}
  else if js_leb highAccuracyPercentage (MODERATE_SUSPICION_THRESHOLD H) then
    ret {| ar_score := 0;
           ar_debug := {| baseScore := 0; sampleWeight := 0;
                          reason := Some "below_threshold" |} |}
  else
    match highAccuracyPercentage with
    | Num pct =>
        let* sampleWeight := calculateWeight gamesWithAccuracy in
        let baseScore := accuracyBaseScore pct in
        ret {| ar_score := baseScore ⊗ sampleWeight;
               ar_debug := {| baseScore := baseScore;
                              sampleWeight := sampleWeight;
                              reason := None |} |}
    | NaN =>
        ret {| ar_score := 0;
               ar_debug := {| baseScore := 0; sampleWeight := 0;
                              reason := Some "no_accuracy_data" |} |}
    end.

(** Calculate format risk score. *)
Definition calculateFormatRiskScore (formatMetrics : FormatStats)
    (debug : bool) : M FormatRisk :=
  let W := WEIGHTS cfg in
  let gamesCounts := gamesCounts formatMetrics in
  let recentGames := recentGames formatMetrics in
  let accuracy := accuracy formatMetrics in
  let* overallWinRateScore :=
    calculateWinRateScore (overallWinrate formatMetrics ⊘ 100)
                          (gc_total gamesCounts) in
  let* recentWinRateScore :=
    calculateWinRateScore (rg_winrate recentGames ⊘ 100)
                          (rg_total recentGames) in
  let* accuracyResult :=
    calculateHighAccuracyScore accuracy (currentRating formatMetrics) in
  let highAccuracyScore := ar_score accuracyResult in
  let weightedSum :=
    OVERALL_WINRATE W ⊗ overallWinRateScore ⊕
    RECENT_WINRATE W ⊗ recentWinRateScore ⊕
    HIGH_ACCURACY W ⊗ highAccuracyScore in
  if negb debug then ret {| fr_score := weightedSum; fr_debug := None |}
  else
    ret {| fr_score := weightedSum;
           fr_debug := Some {|
             fd_overallWinRate := {|
               wf_raw := overallWinrate formatMetrics;
               wf_score := overallWinRateScore;
               wf_weight := OVERALL_WINRATE W;
               wf_weighted := OVERALL_WINRATE W ⊗ overallWinRateScore;
               wf_games := gc_total gamesCounts |};
             fd_recentWinRate := {|
               wf_raw := rg_winrate recentGames;
               wf_score := recentWinRateScore;
               wf_weight := RECENT_WINRATE W;
               wf_weighted := RECENT_WINRATE W ⊗ recentWinRateScore;
               wf_games := rg_total recentGames |};
             fd_accuracy := {|
               af_raw := highAccuracyPercentage accuracy;
               af_debug := ar_debug accuracyResult;
               af_weight := HIGH_ACCURACY W;
               af_weighted := HIGH_ACCURACY W ⊗ ar_score accuracyResult;
               af_gamesWithAccuracy := gamesWithAccuracy accuracy;
               af_highAccuracyGames := highAccuracyGames accuracy;
               af_playerRating := currentRating formatMetrics |};
             fd_weightedSum := weightedSum |} |}.

(** One turn of the loop of [calculateRiskScore] for a format that
    passed the [MIN_GAMES] test: the entry pushed on [formatScores]. *)
Definition formatScoreEntry (accountAgeFactor : Q) (debug : bool)
    (format : string) (formatMetrics : FormatStats) : M FormatScore :=
  let* result := calculateFormatRiskScore formatMetrics debug in
  let rawScore := fr_score result in
  let finalFormatScore := Math_min 100 (accountAgeFactor ⊗ rawScore) in
  ret {| format := format;
         score := finalFormatScore;
         factors :=
           match fr_debug result with
           | Some d =>
               Some {| f_debug := d;
                       f_accountAgeFactor := accountAgeFactor;
                       calculation := {|
                         calc_weightedSum := rawScore;
                         calc_accountAgeFactor := accountAgeFactor;
                         beforeCap := accountAgeFactor ⊗ rawScore;
                         afterCap := finalFormatScore |} |}
           | None => None
           end |}.

(** The loop over [Object.entries(metrics.formats)]; the result is
    [formatScores] in push order. *)
Fixpoint collectFormatScores (accountAgeFactor : Q) (debug : bool)
    (entries : list (string * FormatStats)) : M (list FormatScore) :=
  match entries with
  | [] => ret []
  | (format, formatMetrics) :: rest =>
      if Qltb (rg_total (recentGames formatMetrics))
              (MIN_GAMES (THRESHOLDS cfg))
      then collectFormatScores accountAgeFactor debug rest
      else
        let* entry :=
          formatScoreEntry accountAgeFactor debug format formatMetrics in
        let* formatScores :=
          collectFormatScores accountAgeFactor debug rest in
        ret (entry :: formatScores)
  end.

(** Calculate final risk score for a player. *)
Definition calculateRiskScore (now : string) (metrics : PlayerMetrics)
    (debug : bool) : M RiskScoreResult :=
  let accountAgeFactor :=
    RiskScore.calculateAccountAgeFactor cfg (accountAge metrics) in
  let* formatScores :=
    collectFormatScores accountAgeFactor debug (formats metrics) in
  match formatScores with
  | [] =>
      ret {| maxScore := {| value := 0; ms_format := None;
                            ms_factors := None;
                            ms_reason := Some "no_rated_games" |};
             otherFormats := [];
             accountAgeScore := accountAgeFactor;
             accountAgeDays := accountAge metrics;
             username := pm_username metrics;
             timestamp := now |}
  | first :: _ =>
      let sorted := sortByScore formatScores in
      let highest := hd first sorted in
      ret {| maxScore := {| value := Math_round (score highest);
                            ms_format := Some (format highest);
                            ms_factors := factors highest;
                            ms_reason := None |};
             otherFormats := tl sorted;
             accountAgeScore := accountAgeFactor;
             accountAgeDays := accountAge metrics;
             username := pm_username metrics;
             timestamp := now |}
  end.

End Engine.

End WithArithmetic.

(** ** metrics.js *)

Module Metrics.

Inductive GameResult := win | loss | draw.

Record GameRecord := {
  result : GameResult;
  timeClass : string;
  playerRating : Q;
  game_accuracy : option Q;
  rated : bool
}.

(** The [formatStats] object handed to [calculateFormatMetrics]. *)
Record RawStats := {
  rs_timeClass : string;
  rs_rating : Q;
  rs_wins : Q;
  rs_losses : Q;
  rs_draws : Q
}.

Record ResultCounts := {
  rc_wins : Q;
  rc_losses : Q;
  rc_draws : Q
}.

(** Calculate winrate from game record. *)
Definition calculateWinrate (record : ResultCounts) : Q :=
  let total := rc_wins record + rc_losses record + rc_draws record in
  if Qltb 0 total then (rc_wins record / total) * 100 else 0.

Section WithConfig.

Variable cfg : Config.

(** The predicate of the [highAccuracyGames] filter. *)
Definition isHighAccuracyGame (game : GameRecord) : bool :=
  let A := ACCURACY_THRESHOLDS cfg in
  let threshold :=
    if Qltb (playerRating game) (threshold (LOW_RATING A))
    then requiredAccuracy (LOW_RATING A)
    else requiredAccuracy (HIGH_RATING A) in
  match game_accuracy game with
  | Some a => Qle_bool threshold a
  | None => false
  end.

Definition countResult (acc : ResultCounts) (game : GameRecord)
    : ResultCounts :=
  match result game with
  | win => {| rc_wins := rc_wins acc + 1; rc_losses := rc_losses acc;
              rc_draws := rc_draws acc |}
  | loss => {| rc_wins := rc_wins acc; rc_losses := rc_losses acc + 1;
               rc_draws := rc_draws acc |}
  | draw => {| rc_wins := rc_wins acc; rc_losses := rc_losses acc;
               rc_draws := rc_draws acc + 1 |}
  end.

Definition array_length {A} (l : list A) : Q := inject_Z (Z.of_nat (length l)).

(** Calculate metrics for a specific game format.  The stored user
    settings are the argument [ratedOnly]; [stats.rating || 0] is the
    rating itself, a number; both [return]s of the source build the same
    object, the first with the accuracy sample zeroed. *)
Definition calculateFormatMetrics (ratedOnly : bool) (stats : RawStats)
    (recentGames : list GameRecord) : FormatStats :=
  let formatGames :=
    List.filter (fun game =>
      String.eqb (timeClass game) (rs_timeClass stats) &&
      (if ratedOnly then rated game else true)) recentGames in
  let recentStats :=
    fold_left countResult formatGames
      {| rc_wins := 0; rc_losses := 0; rc_draws := 0 |} in
  let gamesWithAccuracy :=
    List.filter (fun game =>
      match game_accuracy game with Some _ => true | None => false end)
      formatGames in
  let highAccuracyGames := List.filter isHighAccuracyGame gamesWithAccuracy in
  {| currentRating := rs_rating stats;
     overallWinrate :=
       calculateWinrate {| rc_wins := rs_wins stats;
                           rc_losses := rs_losses stats;
                           rc_draws := rs_draws stats |};
     gamesCounts := {|
       gc_total := rs_wins stats + rs_losses stats + rs_draws stats;
       gc_wins := rs_wins stats;
       gc_losses := rs_losses stats;
       gc_draws := rs_draws stats |};
     recentGames := {|
       rg_total := rc_wins recentStats + rc_losses recentStats +
                   rc_draws recentStats;
       rg_wins := rc_wins recentStats;
       rg_losses := rc_losses recentStats;
       rg_draws := rc_draws recentStats;
       rg_winrate := calculateWinrate recentStats |};
     accuracy :=
       match gamesWithAccuracy with
       | [] => {| gamesWithAccuracy := 0; highAccuracyGames := 0;
                  highAccuracyPercentage := Num 0 |}
       | _ => {| gamesWithAccuracy := array_length gamesWithAccuracy;
                 highAccuracyGames := array_length highAccuracyGames;
                 highAccuracyPercentage :=
                   Num ((array_length highAccuracyGames /
                         array_length gamesWithAccuracy) * 100) |}
       end |}.

End WithConfig.

(** The body of the loop of [validateMetrics] for one format.  The
    fields are typed, so the [typeof ... !== 'number'] tests never fire
    and no access throws. *)
Definition validateFormat (formatMetrics : FormatStats) : bool :=
  if Qltb (overallWinrate formatMetrics) 0
     || Qltb 100 (overallWinrate formatMetrics) then false
  else
    let counts := gamesCounts formatMetrics in
    if negb (Qeq_bool (gc_total counts)
                      (gc_wins counts + gc_losses counts + gc_draws counts))
    then false
    else
      let acc := accuracy formatMetrics in
      if Qltb (gamesWithAccuracy acc) (highAccuracyGames acc) then false
      else if js_ltb (highAccuracyPercentage acc) 0
              || js_gtb (highAccuracyPercentage acc) 100 then false
      else true.

(** Validate calculated metrics.  [!metrics.accountAge] is true of the
    number 0; [Object.keys(metrics.formats).length] is the number of
    entries. *)
Definition validateMetrics (metrics : PlayerMetrics) : bool :=
  if Qeq_bool (accountAge metrics) 0 || Qltb (accountAge metrics) 0
  then false
  else if Nat.eqb (length (formats metrics)) 0 then false
  else forallb (fun entry => validateFormat (snd entry)) (formats metrics).

End Metrics.

(** ** background.js *)

Module Background.

Import RiskScore.

(** [String.prototype.toLowerCase], on the ASCII letters (Chess.com
    usernames are ASCII). *)
Definition lower_ascii (c : ascii) : ascii :=
  let n := N_of_ascii c in
  if ((65 <=? n) && (n <=? 90))%N then ascii_of_N (n + 32) else c.

Fixpoint toLowerCase (s : string) : string :=
  match s with
  | EmptyString => EmptyString
  | String c s' => String (lower_ascii c) (toLowerCase s')
  end.

(** [currentOpponentData]: the risk score result extended with
    [riskLevel] and [analyzedAt]. *)
Record OpponentData := {
  od_result : RiskScoreResult;
  od_riskLevel : RiskLevel;
  od_analyzedAt : string
}.

Record HistoryEntry := {
  he_username : string;
  he_score : Q;
  he_format : option string;
  he_riskLevel : RiskLevel;
  he_analyzedAt : string
}.

Definition historyEntryOf (opponentData : OpponentData) : HistoryEntry :=
  {| he_username := username (od_result opponentData);
     he_score := value (maxScore (od_result opponentData));
     he_format := ms_format (maxScore (od_result opponentData));
     he_riskLevel := od_riskLevel opponentData;
     he_analyzedAt := od_analyzedAt opponentData |}.

(** The key under which an entry is looked up. *)
Definition historyKey (h : HistoryEntry) : string :=
  toLowerCase (he_username h).

(** Add opponent to history: the new value of [opponentHistory] (which is
    also what is written to storage). *)
Definition addToHistory (opponentData : OpponentData)
    (opponentHistory : list HistoryEntry) : list HistoryEntry :=
  let existingIndex :=
    list_find (fun h => toLowerCase (he_username h) =
                        toLowerCase (username (od_result opponentData)))
              opponentHistory in
  let historyEntry := historyEntryOf opponentData in
  match existingIndex with
  | Some (existingIndex, _) =>
      <[existingIndex := historyEntry]> opponentHistory
  | None =>
      let unshifted := historyEntry :: opponentHistory in
      if (50 <? length unshifted)%nat then take 50 unshifted else unshifted
  end.

(** The histories the extension can hold: it starts empty (and
    [clearHistory] empties it), and changes only by [addToHistory]. *)
Inductive reachable : list HistoryEntry -> Prop :=
  | reachable_empty : reachable []
  | reachable_add opponentData h :
      reachable h -> reachable (addToHistory opponentData h).

End Background.

(** ** Strings *)

(** [s.includes(needle)]. *)
Fixpoint includes (needle s : string) : bool :=
  if String.prefix needle s then true
  else match s with
       | EmptyString => false
       | String _ s' => includes needle s'
       end.

(** [s.replace(pattern, replacement)] for a string pattern: the first
    occurrence only. *)
Fixpoint replace (pattern replacement s : string) : string :=
  if String.prefix pattern s
  then (replacement ++
        String.substring (String.length pattern)
                         (String.length s - String.length pattern) s)%string
  else match s with
       | EmptyString => EmptyString
       | String c s' => String c (replace pattern replacement s')
       end.

(** [String.prototype.toUpperCase], on the ASCII letters. *)
Definition upper_ascii (c : ascii) : ascii :=
  let n := N_of_ascii c in
  if ((97 <=? n) && (n <=? 122))%N then ascii_of_N (n - 32) else c.

Fixpoint toUpperCase (s : string) : string :=
  match s with
  | EmptyString => EmptyString
  | String c s' => String (upper_ascii c) (toUpperCase s')
  end.

(** [s.charAt(0)] and [s.slice(1)]. *)
Definition charAt0 (s : string) : string :=
  match s with
  | EmptyString => EmptyString
  | String c _ => String c EmptyString
  end.

Definition slice1 (s : string) : string :=
  match s with
  | EmptyString => EmptyString
  | String _ s' => s'
  end.

(** ** metrics.js: building the player metrics *)

Module Normalizer.

Import Metrics.

(** [GAME_FORMATS] of config.js. *)
Definition GAME_FORMATS : list string :=
  ["chess_rapid"; "chess_bullet"; "chess_blitz"].

(** Calculate account age in days; [now] is [Date.now()], in
    milliseconds, and [joinedTimestamp] is in seconds, a whole number as
    the API gives it (so that the [Date] built from it holds exactly
    [joinedTimestamp * 1000]). *)
Definition calculateAccountAge (now joinedTimestamp : Q) : Q :=
  let joinedDate := joinedTimestamp * 1000 in
  Math_floor ((now - joinedDate) / (1000 * 60 * 60 * 24)).

(** One entry of the [stats] object built by [fetchPlayerStats]. *)
Record StatsEntry := {
  se_rating : Q;
  se_wins : Q;
  se_losses : Q;
  se_draws : Q
}.

Record Profile := {
  joined : Q;
  profile_username : string
}.

Record PlayerData := {
  profile : Profile;
  stats : gmap string StatsEntry;
  pd_recentGames : list GameRecord
}.

(** Calculate all metrics for a player.  The formats are visited in the
    order of [GAME_FORMATS]; [ratedOnly] is the stored setting read by
    [calculateFormatMetrics], [now] and [nowIso] are the clock. *)
Definition calculatePlayerMetrics (cfg : Config) (ratedOnly : bool)
    (now : Q) (nowIso : string) (playerData : PlayerData) : PlayerMetrics :=
  let accountAge := calculateAccountAge now (joined (profile playerData)) in
  let formatMetrics :=
    omap (fun format =>
            match stats playerData !! format with
            | Some entry =>
                let formatStats := {|
                  rs_timeClass := replace "chess_" "" format;
                  rs_rating := se_rating entry;
                  rs_wins := se_wins entry;
                  rs_losses := se_losses entry;
                  rs_draws := se_draws entry |} in
                Some (format,
                      calculateFormatMetrics cfg ratedOnly formatStats
                        (pd_recentGames playerData))
            | None => None
            end)
         GAME_FORMATS in
  {| accountAge := accountAge;
     formats := formatMetrics;
     pm_username := profile_username (profile playerData);
     pm_timestamp := nowIso |}.

End Normalizer.

(** ** popup.js *)

Module Popup.

(** Update gauge visualization: the new [strokeDashoffset] and [stroke]
    of the gauge. *)
Definition updateGauge (score : Q) (color : string) : Q * string :=
  let offset := 126 - (score / 100 * 126) in
  (offset, color).

(** Get CSS class for risk level. *)
Definition getRiskClass (score : Q) : string :=
  if Qle_bool score 30 then "low"
  else if Qle_bool score 50 then "moderate"
  else if Qle_bool score 70 then "high"
  else "very-high".

(** Format game format name; [None] is [null]. *)
Definition formatName (format : option string) : string :=
  match format with
  | None => "Unknown"
  | Some EmptyString => "Unknown"
  | Some format =>
      (toUpperCase (charAt0 (replace "chess_" "" format)) ++
       slice1 (replace "chess_" "" format))%string
  end.

End Popup.

(** ** background.js: the analysis cache and the analysis of an opponent *)

Module Analysis.

Import RiskScore Background.

(** Result cache (5 minute TTL). *)
Definition ANALYSIS_CACHE_TTL_MS : Z := 5 * 60 * 1000.

(** [{ data, timestamp }]; times are [Date.now()], in milliseconds. *)
Record CacheEntry := {
  ce_data : OpponentData;
  ce_timestamp : Z
}.

(** [analysisCache]: a [Map] from lower-cased usernames. *)
Abbreviation AnalysisCache := (gmap string CacheEntry).

(** Get cached analysis or null if expired/missing; the second component
    is the cache after the call, from which an expired entry is gone. *)
Definition getCachedAnalysis (now : Z) (username : string)
    (analysisCache : AnalysisCache) : option OpponentData * AnalysisCache :=
  let key := toLowerCase username in
  match analysisCache !! key with
  | None => (None, analysisCache)
  | Some cached =>
      if (ANALYSIS_CACHE_TTL_MS <? now - ce_timestamp cached)%Z
      then (None, delete key analysisCache)
      else (Some (ce_data cached), analysisCache)
  end.

(** Store analysis in cache. *)
Definition setCachedAnalysis (now : Z) (username : string)
    (data : OpponentData) (analysisCache : AnalysisCache) : AnalysisCache :=
  <[toLowerCase username := {| ce_data := data; ce_timestamp := now |}]>
    analysisCache.

(** The text of the badge: "...", a score printed by [toString], or "!". *)
Inductive BadgeText :=
  | BadgeLoading
  | BadgeScore (value : Q)
  | BadgeError.

Record Badge := {
  badge_text : BadgeText;
  badge_color : string
}.

(** The state of the background script. *)
Record State := {
  currentOpponentData : option OpponentData;
  opponentHistory : list HistoryEntry;
  analysisCache : AnalysisCache;
  badge : option Badge
}.

(** What [analyzeOpponent] resolves to: [{ error }] or the data. *)
Inductive Response :=
  | Failed (message : string)
  | Analysed (data : OpponentData).

(** What a call to the browser does: it returns, or it fails with an
    error that carries a message. *)
Inductive Call :=
  | Returns
  | Throws (message : string).

(** The calls to the browser made inside the [try] block of
    [analyzeOpponent], in the order of the code: the badge set to "...",
    the badge set to the score, and [browser.storage.local.set] awaited
    at the end of [addToHistory]. *)
Record Browser := {
  badgeLoading : Call;
  badgeScore : Call;
  storageSet : Call
}.

(** A browser every call to which returns. *)
Definition responsive : Browser :=
  {| badgeLoading := Returns; badgeScore := Returns; storageSet := Returns |}.

(** The badge after the [catch] clause. *)
Definition errorBadge : Badge :=
  {| badge_text := BadgeError; badge_color := "#F44336" |}.

(** Analyze an opponent and calculate risk score.
    [upstream] is what the code from the test of the risk score module
    to the test of the result does: it throws an error with a message
    (the module is not loaded, [calculateRiskScoreFromUsername(username,
    true)] rejects, or the result is invalid) or gives a result;
    [browser] is what the calls to the browser inside the [try] block
    do; [now] is the clock at the cache lookup, [nowStored] the clock
    when the result is cached, [nowIso] the time written to
    [analyzedAt].  An error thrown inside the [try] block ends it where
    it stands: what was assigned before stays assigned, the [catch]
    clause sets the badge to "!" and the answer is the error.  The badge
    calls outside the [try] block (on a cache hit and in the [catch]
    clause) return.  The badge is the one set last. *)
Definition analyzeOpponent (cfg : Config) (now nowStored : Z)
    (nowIso : string) (upstream : string + RiskScoreResult)
    (browser : Browser) (username : string) (st : State)
    : Response * State :=
  match username with
  | EmptyString => (Failed "No username provided", st)
  | _ =>
      match getCachedAnalysis now username (analysisCache st) with
      | (Some cached, cache) =>
          (Analysed cached,
           {| currentOpponentData := Some cached;
              opponentHistory := opponentHistory st;
              analysisCache := cache;
              badge := Some {|
                badge_text := BadgeScore (value (maxScore (od_result cached)));
                badge_color := rl_color (od_riskLevel cached) |} |})
      | (None, cache) =>
          match badgeLoading browser, upstream with
          | Throws message, _ | Returns, inl message =>
              (Failed message,
               {| currentOpponentData := currentOpponentData st;
                  opponentHistory := opponentHistory st;
                  analysisCache := cache;
                  badge := Some errorBadge |})
          | Returns, inr result =>
              let riskLevel := getRiskLevel cfg (value (maxScore result)) in
              let data := {| od_result := result;
                             od_riskLevel := riskLevel;
                             od_analyzedAt := nowIso |} in
              match badgeScore browser with
              | Throws message =>
                  (Failed message,
                   {| currentOpponentData := Some data;
                      opponentHistory := opponentHistory st;
                      analysisCache := cache;
                      badge := Some errorBadge |})
              | Returns =>
                  let cache := setCachedAnalysis nowStored username data cache in
                  let history := addToHistory data (opponentHistory st) in
                  match storageSet browser with
                  | Throws message =>
                      (Failed message,
                       {| currentOpponentData := Some data;
                          opponentHistory := history;
                          analysisCache := cache;
                          badge := Some errorBadge |})
                  | Returns =>
                      (Analysed data,
                       {| currentOpponentData := Some data;
                          opponentHistory := history;
                          analysisCache := cache;
                          badge := Some {|
                            badge_text := BadgeScore (value (maxScore result));
                            badge_color := rl_color riskLevel |} |})
                  end
              end
          end
      end
  end.

(** The [clearHistory] action of [handleMessage]: the history is emptied
    before the write to storage is awaited, so also when that fails. *)
Definition clearHistory (st : State) : State :=
  {| currentOpponentData := currentOpponentData st;
     opponentHistory := [];
     analysisCache := analysisCache st;
     badge := badge st |}.

(** The state when the script is loaded with nothing in storage. *)
Definition initial : State :=
  {| currentOpponentData := None; opponentHistory := [];
     analysisCache := ∅; badge := None |}.

(** The messages that change the state, with what the environment
    supplies to them. *)
Inductive Event :=
  | AnalyzeOpponent (now nowStored : Z) (nowIso : string)
      (upstream : string + RiskScoreResult) (browser : Browser)
      (username : string)
  | ClearHistory.

Definition step (cfg : Config) (st : State) (ev : Event) : State :=
  match ev with
  | AnalyzeOpponent now nowStored nowIso upstream browser username =>
      snd (analyzeOpponent cfg now nowStored nowIso upstream browser
             username st)
  | ClearHistory => clearHistory st
  end.

Definition run (cfg : Config) (events : list Event) : State :=
  fold_left (step cfg) events initial.

End Analysis.

(** ** utils.js *)

Module Utils.

(** What one call of [fetch] does: it resolves to a response with a
    status, or rejects with an error message. *)
Inductive FetchOutcome :=
  | Responds (status : Z)
  | Rejects (message : string).

(** The errors caught in [fetchWithRetry]: the one it throws itself for
    a status of 500 and above or 429, whose message starts "Retryable
    error", and those of [fetch]. *)
Inductive FetchError :=
  | RetryableStatus (status : Z)
  | FetchRejected (message : string).

(** [error.message.includes('Retryable error') ||
     error.message.includes('Failed to fetch')] *)
Definition retryable (error : FetchError) : bool :=
  match error with
  | RetryableStatus _ => true
  | FetchRejected message =>
      includes "Retryable error" message || includes "Failed to fetch" message
  end.

(** The outcome of [fetchWithRetry], with the delays it slept, in
    order. *)
Record Fetched := {
  outcome : FetchError + Z;
  delays : list Z
}.

Definition slept (delay : Z) (r : Fetched) : Fetched :=
  {| outcome := outcome r; delays := delay :: delays r |}.

(** The loop of [fetchWithRetry] from [attempt] on, with
    [remaining = maxRetries - attempt]; [fetch i] is what the call of
    [fetch] in attempt [i] does. *)
Fixpoint fetchFrom (fetch : nat -> FetchOutcome) (baseDelay : Z)
    (attempt remaining : nat) : Fetched :=
  let caught (error : FetchError) : Fetched :=
    if negb (retryable error)
    then {| outcome := inl error; delays := [] |}
    else
      match remaining with
      | O => {| outcome := inl error; delays := [] |}
      | S remaining' =>
          let delay := (baseDelay * 2 ^ Z.of_nat attempt)%Z in
          slept delay (fetchFrom fetch baseDelay (S attempt) remaining')
      end in
  match fetch attempt with
  | Responds status =>
      if ((500 <=? status) || (status =? 429))%Z
      then caught (RetryableStatus status)
      else {| outcome := inr status; delays := [] |}
  | Rejects message => caught (FetchRejected message)
  end.

(** Fetch with retry and exponential backoff. *)
Definition fetchWithRetry (fetch : nat -> FetchOutcome)
    (maxRetries : nat) (baseDelay : Z) : Fetched :=
  fetchFrom fetch baseDelay 0 maxRetries.

(** [GAME_RESULTS] of config.js, on its own keys. *)
Definition GAME_RESULTS : list (string * Metrics.GameResult) :=
  [("win", Metrics.win);
   ("agreed", Metrics.draw); ("repetition", Metrics.draw);
   ("stalemate", Metrics.draw); ("insufficient", Metrics.draw);
   ("50move", Metrics.draw); ("timevsinsufficient", Metrics.draw);
   ("checkmated", Metrics.loss); ("timeout", Metrics.loss);
   ("resigned", Metrics.loss); ("lose", Metrics.loss);
   ("abandoned", Metrics.loss)].

Fixpoint lookupResult (table : list (string * Metrics.GameResult))
    (rawResult : string) : option Metrics.GameResult :=
  match table with
  | [] => None
  | (code, r) :: table' =>
      if String.eqb code rawResult then Some r
      else lookupResult table' rawResult
  end.

(** One side of a game of the monthly archive. *)
Record RawPlayer := {
  rp_username : string;
  rp_rating : Q;
  rp_result : string
}.

(** A game of the monthly archive. *)
Record RawGame := {
  rules : string;
  time_class : string;
  raw_rated : bool;
  white : RawPlayer;
  black : RawPlayer;
  accuracies : option (option Q * option Q);
  end_time : Q
}.

Inductive Color := White | Black.

(** A game as [fetchRecentGames] returns it. *)
Record RecentGame := {
  playerColor : Color;
  fetched_timestamp : Q;
  game : Metrics.GameRecord
}.

(** The filter on the games of the archive. *)
Definition keepGame (ratedOnly : bool) (g : RawGame) : bool :=
  String.eqb (rules g) "chess" &&
  existsb (String.eqb (time_class g)) ["rapid"; "bullet"; "blitz"] &&
  (if ratedOnly then raw_rated g else true).

(** The [map] step: the game from the side of [username], or [None] for
    a result code that is not in [GAME_RESULTS] (the result 'unknown',
    dropped by the last filter). *)
Definition toRecentGame (username : string) (g : RawGame)
    : option RecentGame :=
  let playerColor :=
    if String.eqb (Background.toLowerCase (rp_username (white g)))
                  (Background.toLowerCase username)
    then White else Black in
  let player := match playerColor with White => white g | Black => black g end in
  let rawResult := rp_result player in
  match lookupResult GAME_RESULTS rawResult with
  | None => None
  | Some r =>
      Some {| playerColor := playerColor;
              fetched_timestamp := end_time g;
              game := {|
                Metrics.result := r;
                Metrics.timeClass := time_class g;
                Metrics.playerRating := rp_rating player;
                Metrics.game_accuracy :=
                  match accuracies g with
                  | Some (w, b) =>
                      match playerColor with White => w | Black => b end
                  | None => None
                  end;
                Metrics.rated := raw_rated g |} |}
  end.

(** The games of [fetchRecentGames], from the games of the fetched
    months. *)
Definition recentGamesOf (ratedOnly : bool) (username : string)
    (games : list RawGame) : list RecentGame :=
  omap (toRecentGame username) (List.filter (keepGame ratedOnly) games).

End Utils.

(** ** content.js *)

Module Content.

(** Check for opponent on current page: [extracted] is what
    [extractOpponentUsername] returns; the result is the new
    [lastOpponent] and the username sent for analysis, if any. *)
Definition checkForOpponent (extracted : option string)
    (lastOpponent : option string) : option string * option string :=
  match extracted with
  | None => (lastOpponent, None)
  | Some EmptyString => (lastOpponent, None)
  | Some opponentUsername =>
      if decide (Some opponentUsername = lastOpponent)
      then (lastOpponent, None)
      else (Some opponentUsername, Some opponentUsername)
  end.

(** What happens on the page: a run of [checkForOpponent] (from the
    mutation observer or from the timer set after a change of URL), at
    which the username extracted is [extracted], or a change of URL,
    which forgets the last opponent. *)
Inductive PageEvent :=
  | Check (extracted : option string)
  | UrlChange.

(** The usernames sent for analysis over a sequence of events, oldest
    first. *)
Fixpoint analysed (events : list PageEvent) (lastOpponent : option string)
    : list string :=
  match events with
  | [] => []
  | Check extracted :: events' =>
      match checkForOpponent extracted lastOpponent with
      | (lastOpponent', Some username) =>
          username :: analysed events' lastOpponent'
      | (lastOpponent', None) => analysed events' lastOpponent'
      end
  | UrlChange :: events' => analysed events' None
  end.

End Content.

(** ** Specification-level definitions *)

Import RiskScore.

(** The confidence weight of a sample of size [n]: [n / (n + K)]. *)
Definition weight (K n : Q) : Q := n / (n + K).

(** A cache all of whose entries were computed with the constant [K]. *)
Definition cache_for (K : Q) (cache : WeightCache) : Prop :=
  forall (k : Qc) (w : Q), cache !! k = Some w -> w == weight K k.

(** [m] run from a cache filled under [K] returns a value satisfying
    [P] and leaves a cache filled under [K]. *)
Definition returns {A} (K : Q) (m : M A) (P : A -> Prop) : Prop :=
  forall cache, cache_for K cache ->
    P (evalM m cache) /\ cache_for K (execM m cache).

(** The straight line through [(a, lo)] and [(b, hi)]. *)
Definition ramp (a b lo hi x : Q) : Q := lo + (x - a) / (b - a) * (hi - lo).

(** The raw win-rate score in the words of the specification. *)
Definition winRateRaw_spec (winRate : Q) : Q :=
  if Qle_bool winRate 0.5 then 0
  else if Qle_bool winRate 0.6 then ramp 0.5 0.6 0 50 winRate
  else if Qle_bool winRate 0.7 then ramp 0.6 0.7 50 100 winRate
  else 100 + ((winRate - 0.7) / 0.1) * 100.

Definition winRateScore_spec (K winRate totalGames : Q) : Q :=
  winRateRaw_spec winRate * weight K totalGames.

(** The raw high-accuracy score in the words of the specification. *)
Definition accuracyRaw_spec (pct : Q) : Q :=
  if Qle_bool pct 10 then 0
  else if Qle_bool pct 20 then ramp 10 20 0 50 pct
  else if Qle_bool pct 30 then ramp 20 30 50 100 pct
  else 100 + inject_Z (Qfloor ((pct - 30) / 5)) * 50.

Definition accuracyScore_spec (K : Q) (accuracyData : Accuracy) : Q :=
  match highAccuracyPercentage accuracyData with
  | NaN => 0
  | Num pct =>
      if Qeq_bool (gamesWithAccuracy accuracyData) 0 then 0
      else accuracyRaw_spec pct * weight K (gamesWithAccuracy accuracyData)
  end.

(** The weighted sum of a format in the words of the specification. *)
Definition weightedSum_spec (K : Q) (formatMetrics : FormatStats) : Q :=
  0.35 * winRateScore_spec K (overallWinrate formatMetrics / 100)
                           (gc_total (gamesCounts formatMetrics)) +
  0.35 * winRateScore_spec K (rg_winrate (recentGames formatMetrics) / 100)
                           (rg_total (recentGames formatMetrics)) +
  0.30 * accuracyScore_spec K (accuracy formatMetrics).

Definition is_integer (q : Q) : Prop := inject_Z (Qfloor q) == q.

(** A percentage that is a number between 0 and 100. *)
Definition is_percentage (x : jsnum) : Prop :=
  match x with Num q => 0 <= q <= 100 | NaN => False end.

(** The invariants of FormatStats in the data model. *)
Record validFormatStats (fm : FormatStats) : Prop := {
  valid_rating : is_integer (currentRating fm) /\ 0 <= currentRating fm;
  valid_overallWinrate : 0 <= overallWinrate fm <= 100;
  valid_counts :
    0 <= gc_wins (gamesCounts fm) /\ 0 <= gc_losses (gamesCounts fm) /\
    0 <= gc_draws (gamesCounts fm);
  valid_total :
    gc_total (gamesCounts fm)
      == gc_wins (gamesCounts fm) + gc_losses (gamesCounts fm) +
         gc_draws (gamesCounts fm);
  valid_recent :
    0 <= rg_total (recentGames fm) /\
    0 <= rg_winrate (recentGames fm) <= 100;
  valid_accuracy :
    0 <= highAccuracyGames (accuracy fm) <= gamesWithAccuracy (accuracy fm);
  valid_percentage : is_percentage (highAccuracyPercentage (accuracy fm))
}.

(** The formats that pass the [MIN_GAMES] test, in input order. *)
Definition eligible (cfg : Config) (entries : list (string * FormatStats))
    : list (string * FormatStats) :=
  List.filter
    (fun entry => negb (Qltb (rg_total (recentGames (snd entry)))
                             (MIN_GAMES (THRESHOLDS cfg))))
    entries.

(** [a] may stand in front of [b] in a ranking by descending score. *)
Definition score_ge (a b : FormatScore) : Prop := score b <= score a.

(** The entries with score [q], in their order of appearance. *)
Definition with_score (q : Q) (l : list FormatScore) : list FormatScore :=
  List.filter (fun x => Qeq_bool (score x) q) l.

(** The entry pushed for an eligible format: its name and capped score. *)
Definition scored_as (accountAgeFactor : Q) (fs : FormatScore)
    (entry : string * FormatStats) : Prop :=
  format fs = fst entry /\
  score fs == Qmin 100 (accountAgeFactor * weightedSum_spec 20 (snd entry)).

(** The entry that the loop of [calculateRiskScore] pushes for an
    eligible format: it bears the name of the format, and its score and
    factors are those computed for the format in the arithmetic [A],
    from the weight cache as it stood at that turn of the loop. *)
Definition pushed_for (A : Arithmetic) (cfg : Config)
    (accountAgeFactor : Q) (debug : bool) (fs : FormatScore)
    (entry : string * FormatStats) : Prop :=
  format fs = fst entry /\
  exists cache,
    fs = evalM (WithArithmetic.formatScoreEntry A cfg accountAgeFactor debug
                  (fst entry) (snd entry)) cache.

(** The format and statistics of the scenario of the specification. *)
Definition scenario_format : FormatStats := {|
  currentRating := 1500;
  overallWinrate := 80;
  gamesCounts := {| gc_total := 20; gc_wins := 16; gc_losses := 4;
                    gc_draws := 0 |};
  recentGames := {| rg_total := 20; rg_wins := 16; rg_losses := 4;
                    rg_draws := 0; rg_winrate := 80 |};
  accuracy := {| gamesWithAccuracy := 0; highAccuracyGames := 0;
                 highAccuracyPercentage := Num 0 |}
|}.

Definition scenario_metrics : PlayerMetrics := {|
  accountAge := 30;
  formats := [("chess_blitz", scenario_format)];
  pm_username := "opponent";
  pm_timestamp := "2024-01-01T00:00:00.000Z"
|}.

(** Two formats with the same statistics, hence the same score. *)
Definition tie_metrics : PlayerMetrics := {|
  accountAge := 400;
  formats := [("chess_rapid", scenario_format);
              ("chess_bullet", scenario_format)];
  pm_username := "opponent";
  pm_timestamp := "2024-01-01T00:00:00.000Z"
|}.

(** A score half a point from a whole number: 60 % of 30 games won, 50 %
    of the 10 recent ones, 4 of the 10 recent games at high accuracy.
    The weighted sum is [0.35 * 30 + 0.35 * 0 + 0.30 * (200 * (10 / 30))]. *)
Definition half_point_metrics : PlayerMetrics := {|
  accountAge := 400;
  formats :=
    [("chess_blitz",
      {| currentRating := 1500;
         overallWinrate := 60;
         gamesCounts := {| gc_total := 30; gc_wins := 18; gc_losses := 12;
                           gc_draws := 0 |};
         recentGames := {| rg_total := 10; rg_wins := 5; rg_losses := 5;
                           rg_draws := 0; rg_winrate := 50 |};
         accuracy := {| gamesWithAccuracy := 10; highAccuracyGames := 4;
                        highAccuracyPercentage := Num 40 |} |})];
  pm_username := "opponent";
  pm_timestamp := "2024-01-01T00:00:00.000Z"
|}.

(** Two formats whose scores are both 28 in the rationals: rapid with 70 %
    of 80 games won, [0.35 * (100 * (80 / 100))], and bullet with all of
    the 5 recent games won, [0.35 * (400 * (5 / 25))]. *)
Definition close_metrics : PlayerMetrics := {|
  accountAge := 400;
  formats :=
    [("chess_rapid",
      {| currentRating := 1500;
         overallWinrate := 70;
         gamesCounts := {| gc_total := 80; gc_wins := 56; gc_losses := 24;
                           gc_draws := 0 |};
         recentGames := {| rg_total := 10; rg_wins := 5; rg_losses := 5;
                           rg_draws := 0; rg_winrate := 50 |};
         accuracy := {| gamesWithAccuracy := 0; highAccuracyGames := 0;
                        highAccuracyPercentage := Num 0 |} |});
     ("chess_bullet",
      {| currentRating := 1500;
         overallWinrate := 50;
         gamesCounts := {| gc_total := 40; gc_wins := 20; gc_losses := 20;
                           gc_draws := 0 |};
         recentGames := {| rg_total := 5; rg_wins := 5; rg_losses := 0;
                           rg_draws := 0; rg_winrate := 100 |};
         accuracy := {| gamesWithAccuracy := 0; highAccuracyGames := 0;
                        highAccuracyPercentage := Num 0 |} |})];
  pm_username := "opponent";
  pm_timestamp := "2024-01-01T00:00:00.000Z"
|}.

(** Every format below [MIN_GAMES]: three recent games, all won. *)
Definition few_games_metrics : PlayerMetrics := {|
  accountAge := 10;
  formats :=
    [("chess_blitz",
      {| currentRating := 1500;
         overallWinrate := 100;
         gamesCounts := {| gc_total := 500; gc_wins := 500; gc_losses := 0;
                           gc_draws := 0 |};
         recentGames := {| rg_total := 3; rg_wins := 3; rg_losses := 0;
                           rg_draws := 0; rg_winrate := 100 |};
         accuracy := {| gamesWithAccuracy := 3; highAccuracyGames := 3;
                        highAccuracyPercentage := Num 100 |} |})];
  pm_username := "opponent";
  pm_timestamp := "2024-01-01T00:00:00.000Z"
|}.

(** The invariants of PlayerMetrics in the data model. *)
Record validPlayerMetrics (metrics : PlayerMetrics) : Prop := {
  valid_accountAge :
    is_integer (accountAge metrics) /\ 0 <= accountAge metrics;
  valid_some_format : formats metrics <> [];
  valid_formats :
    Forall (fun entry => validFormatStats (snd entry)) (formats metrics)
}.

(** The metrics of an account created today. *)
Definition new_account_metrics : PlayerMetrics := {|
  accountAge := 0;
  formats := [("chess_blitz", scenario_format)];
  pm_username := "opponent";
  pm_timestamp := "2024-01-01T00:00:00.000Z"
|}.

(** An analysis result for [name] with headline [value], analysed at
    [analyzedAt]. *)
Definition analysis (name : string) (value : Q) (analyzedAt : string)
    : Background.OpponentData := {|
  Background.od_result := {|
    maxScore := {| RiskScore.value := value;
                   ms_format := Some "chess_blitz";
                   ms_factors := None; ms_reason := None |};
    otherFormats := [];
    accountAgeScore := 1;
    accountAgeDays := 400;
    username := name;
    timestamp := analyzedAt |};
  Background.od_riskLevel := getRiskLevel config value;
  Background.od_analyzedAt := analyzedAt
|}.

(** The entry written by the latest call stands first. *)
Definition latest_first (opponentData : Background.OpponentData)
    (history : list Background.HistoryEntry) : Prop :=
  head history = Some (Background.historyEntryOf opponentData).

(** ** Further specification-level definitions *)

(** The recent games that [calculateFormatMetrics] counts for a format:
    those of its time class and, with [ratedOnly], rated. *)
Definition countedGames (ratedOnly : bool) (timeClass : string)
    (games : list Metrics.GameRecord) : list Metrics.GameRecord :=
  List.filter
    (fun game => String.eqb (Metrics.timeClass game) timeClass &&
                 (if ratedOnly then Metrics.rated game else true))
    games.

Definition has_result (r : Metrics.GameResult) (game : Metrics.GameRecord)
    : bool :=
  match Metrics.result game, r with
  | Metrics.win, Metrics.win => true
  | Metrics.loss, Metrics.loss => true
  | Metrics.draw, Metrics.draw => true
  | _, _ => false
  end.

Definition has_accuracy (game : Metrics.GameRecord) : bool :=
  match Metrics.game_accuracy game with Some _ => true | None => false end.

(** A player with 25 blitz games, for the examples. *)
Definition sample_player : Normalizer.PlayerData := {|
  Normalizer.profile := {| Normalizer.joined := 1600000000;
                           Normalizer.profile_username := "opponent" |};
  Normalizer.stats :=
    {[ "chess_blitz" := {| Normalizer.se_rating := 1500;
                           Normalizer.se_wins := 16;
                           Normalizer.se_losses := 8;
                           Normalizer.se_draws := 1 |} ]};
  Normalizer.pd_recentGames := []
|}.

(** What a ranking entry says without its explanation. *)
Definition scoreOnly (fs : RiskScore.FormatScore) : string * Q :=
  (RiskScore.format fs, RiskScore.score fs).

(** A computation that only adds to the cache and, run again from any
    cache containing the one it left, returns the same value without
    touching that cache. *)
Definition cache_stable {A} (m : M A) : Prop :=
  forall cache,
    cache ⊆ execM m cache /\
    forall cache', execM m cache ⊆ cache' ->
                   m cache' = (evalM m cache, cache').

(** The state after a first, successful analysis of alice. *)
Definition after_alice : Analysis.State :=
  snd (Analysis.analyzeOpponent config 1700000000000 1700000002000
         "2023-11-14T22:13:22.000Z"
         (inr (Background.od_result
                 (analysis "alice" 40 "2023-11-14T22:13:22.000Z")))
         Analysis.responsive "alice" Analysis.initial).

(** A browser whose storage refuses the write of the history. *)
Definition full_storage : Analysis.Browser :=
  {| Analysis.badgeLoading := Analysis.Returns;
     Analysis.badgeScore := Analysis.Returns;
     Analysis.storageSet := Analysis.Throws "QuotaExceededError" |}.

(** An attempt of [fetch] that [fetchWithRetry] answers by trying again:
    a status of 500 and above or 429, or a rejection whose message holds
    "Retryable error" or "Failed to fetch". *)
Definition failsRetryably (o : Utils.FetchOutcome) : bool :=
  match o with
  | Utils.Responds status => ((500 <=? status) || (status =? 429))%Z
  | Utils.Rejects message =>
      includes "Retryable error" message || includes "Failed to fetch" message
  end.

(** The error caught for an attempt that fails. *)
Definition errorOf (o : Utils.FetchOutcome) : Utils.FetchError :=
  match o with
  | Utils.Responds status => Utils.RetryableStatus status
  | Utils.Rejects message => Utils.FetchRejected message
  end.

(** What an attempt that is not tried again gives: its response, or its
    error thrown on. *)
Definition decisive (o : Utils.FetchOutcome) : Utils.FetchError + Z :=
  match o with
  | Utils.Responds status => inr status
  | Utils.Rejects message => inl (Utils.FetchRejected message)
  end.

(** The delays before the attempts [first + 1 .. first + k]:
    [baseDelay * 2 ^ i] for [i] from [first]. *)
Definition backoff (baseDelay : Z) (first k : nat) : list Z :=
  List.map (fun i => (baseDelay * 2 ^ Z.of_nat i)%Z) (seq first k).

Definition total (l : list Z) : Z := fold_right Z.add 0%Z l.

(** No two neighbours of the list are equal. *)
Definition adjacent_distinct (l : list string) : Prop :=
  forall i x y, l !! i = Some x -> l !! S i = Some y -> x <> y.

Definition is_check (ev : Content.PageEvent) : Prop :=
  match ev with Content.Check _ => True | Content.UrlChange => False end.

(** Two games of a monthly archive: a rated blitz win of alice with
    White, and an unrated rapid game she lost with Black. *)
Definition sample_archive : list Utils.RawGame :=
  [{| Utils.rules := "chess"; Utils.time_class := "blitz";
      Utils.raw_rated := true;
      Utils.white := {| Utils.rp_username := "Alice";
                        Utils.rp_rating := 1510;
                        Utils.rp_result := "win" |};
      Utils.black := {| Utils.rp_username := "bob";
                        Utils.rp_rating := 1490;
                        Utils.rp_result := "resigned" |};
      Utils.accuracies := Some (Some 91.5, Some 70.2);
      Utils.end_time := 1700000000 |};
   {| Utils.rules := "chess"; Utils.time_class := "rapid";
      Utils.raw_rated := false;
      Utils.white := {| Utils.rp_username := "carol";
                        Utils.rp_rating := 1600;
                        Utils.rp_result := "win" |};
      Utils.black := {| Utils.rp_username := "alice";
                        Utils.rp_rating := 1500;
                        Utils.rp_result := "checkmated" |};
      Utils.accuracies := None;
      Utils.end_time := 1700003600 |}].

(** * Properties *)

(** ** Booleans on numbers *)

Lemma Qle_bool_true (a b : Q) : Qle_bool a b = true -> a <= b.
Proof. apply Qle_bool_iff. Qed.

Lemma Qle_bool_false (a b : Q) : Qle_bool a b = false -> b < a.
Proof.
  intros E. apply Qnot_le_lt. intros L.
  apply Qle_bool_iff in L. congruence.
Qed.

Lemma Qltb_true (a b : Q) : Qltb a b = true -> a < b.
Proof.
  unfold Qltb. intros E. apply negb_true_iff in E.
  now apply Qle_bool_false.
Qed.

Lemma Qltb_false (a b : Q) : Qltb a b = false -> b <= a.
Proof.
  unfold Qltb. intros E. apply negb_false_iff in E.
  now apply Qle_bool_true.
Qed.

Lemma Qle_bool_intro (a b : Q) : a <= b -> Qle_bool a b = true.
Proof. apply Qle_bool_iff. Qed.

Lemma Qle_bool_elim (a b : Q) : b < a -> Qle_bool a b = false.
Proof.
  intros L. destruct (Qle_bool a b) eqn:E; [|reflexivity].
  apply Qle_bool_true in E. lra.
Qed.

Lemma Qltb_intro (a b : Q) : a < b -> Qltb a b = true.
Proof. intros L. unfold Qltb. now rewrite Qle_bool_elim. Qed.

Lemma Qltb_elim (a b : Q) : b <= a -> Qltb a b = false.
Proof. intros L. unfold Qltb. now rewrite Qle_bool_intro. Qed.

(** Case analysis on the first number test of the goal. *)
Ltac case_Q :=
  match goal with
  | |- context [Qle_bool ?a ?b] =>
      let E := fresh "E" in
      destruct (Qle_bool a b) eqn:E;
      [apply Qle_bool_true in E | apply Qle_bool_false in E]
  | |- context [Qltb ?a ?b] =>
      let E := fresh "E" in
      destruct (Qltb a b) eqn:E;
      [apply Qltb_true in E | apply Qltb_false in E]
  end.

(** Reading the constants of [config], and nothing else. *)
Ltac read_config :=
  cbn [config ACCURACY_THRESHOLDS WEIGHTS THRESHOLDS WINRATE_THRESHOLDS
       HIGH_ACCURACY_THRESHOLDS DEFAULT_SETTINGS RISK_LEVELS
       LOW_RATING HIGH_RATING threshold requiredAccuracy
       OVERALL_WINRATE RECENT_WINRATE HIGH_ACCURACY
       ACCOUNT_AGE_DAYS WEIGHTING_K MIN_GAMES ACCOUNT_AGE_MULTIPLIER
       LOW_WINRATE_THRESHOLD MEDIUM_WINRATE_THRESHOLD HIGH_WINRATE_THRESHOLD
       BASE_SCORE EXTENDED_SCORE SCALE_FACTOR
       MODERATE_SUSPICION_THRESHOLD HIGH_SUSPICION_THRESHOLD
       EXTREME_SUSPICION_THRESHOLD MODERATE_MAX_SCORE HIGH_MAX_SCORE
       EXTREME_SCORE_INCREMENT EXTREME_SCORE_STEP
       LOW MODERATE HIGH VERY_HIGH rl_min rl_max RATED_ONLY] in *.

(** ** The confidence weight *)

Section Weight.

Variable K : Q.
Hypothesis K_pos : 0 < K.

Lemma weight_0 : weight K 0 == 0.
Proof. unfold weight. field. lra. Qed.

Lemma weight_nonneg (n : Q) : 0 <= n -> 0 <= weight K n.
Proof.
  intros Hn. unfold weight. apply Qle_shift_div_l; lra.
Qed.

Lemma weight_lt_1 (n : Q) : 0 <= n -> weight K n < 1.
Proof.
  intros Hn. unfold weight. apply Qlt_shift_div_r; lra.
Qed.

Lemma weight_increasing (n m : Q) :
  0 <= n -> n < m -> weight K n < weight K m.
Proof.
  intros Hn Hnm. unfold weight.
  apply Qlt_shift_div_l; [lra|].
  assert (E : n / (n + K) * (m + K) == (n * (m + K)) / (n + K))
    by (field; lra).
  rewrite E. apply Qlt_shift_div_r; [lra|]. nra.
Qed.

Lemma weight_tends_to_1 (eps : Q) :
  0 < eps ->
  exists N, forall n, N <= n -> 1 - eps < weight K n /\ weight K n < 1.
Proof.
  intros Heps. exists (K / eps). intros n Hn.
  assert (HN : 0 < K / eps) by (apply Qlt_shift_div_l; lra).
  assert (Hle : K <= n * eps).
  { assert (E : K == K / eps * eps) by (field; lra).
    rewrite E. apply Qmult_le_compat_r; lra. }
  split; [|apply weight_lt_1; lra].
  unfold weight. apply Qlt_shift_div_l; [lra|]. nra.
Qed.

End Weight.

(** ** The weight cache *)

Lemma cache_for_empty (K : Q) : cache_for K ∅.
Proof. intros k w H. rewrite lookup_empty in H. discriminate. Qed.

Lemma Q2Qc_value (n : Q) : (Q2Qc n : Q) == n.
Proof. simpl. apply Qred_correct. Qed.

Lemma weight_Q2Qc (K n : Q) : weight K (Q2Qc n) == weight K n.
Proof. unfold weight. now rewrite Q2Qc_value. Qed.

Section Cache.

Variable cfg : Config.
Let K := WEIGHTING_K (THRESHOLDS cfg).

Lemma calculateWeight_value (n : Q) (cache : WeightCache) :
  cache_for K cache -> evalM (calculateWeight cfg n) cache == weight K n.
Proof.
  intros Hc. unfold evalM, calculateWeight.
  destruct (cache !! Q2Qc n) as [w|] eqn:E; simpl.
  - rewrite (Hc _ _ E). apply weight_Q2Qc.
  - reflexivity.
Qed.

Lemma calculateWeight_cache (n : Q) (cache : WeightCache) :
  cache_for K cache -> cache_for K (execM (calculateWeight cfg n) cache).
Proof.
  intros Hc. unfold execM, calculateWeight.
  destruct (cache !! Q2Qc n) as [w|] eqn:E; simpl; [exact Hc|].
  intros k w Hk. destruct (decide (Q2Qc n = k)) as [<-|Hne].
  - rewrite lookup_insert_eq in Hk. injection Hk as <-.
    symmetry. apply weight_Q2Qc.
  - rewrite lookup_insert_ne in Hk by exact Hne. eauto.
Qed.

(** A second call with the same [n] returns the very same number and
    leaves the cache as it is. *)
Lemma calculateWeight_again (n : Q) (cache : WeightCache) :
  let (w, cache') := calculateWeight cfg n cache in
  calculateWeight cfg n cache' = (w, cache').
Proof.
  unfold calculateWeight.
  destruct (cache !! Q2Qc n) as [w|] eqn:E.
  - now rewrite E.
  - now rewrite lookup_insert_eq.
Qed.

End Cache.

(** C4 (as stated): the cache is keyed by [n] alone, so a weight stored
    under one constant [K] is returned under another.  After
    [calculateWeight(20)] with [K = 20], the call [calculateWeight(20)]
    with [K = 40] returns [20/(20+20)], not [20/(20+40)]. *)
Lemma calculateWeight_leaks_across_K :
  let cache := execM (calculateWeight config 20) ∅ in
  evalM (calculateWeight (with_K config 40) 20) cache == 1 # 2 /\
  ~ evalM (calculateWeight (with_K config 40) 20) cache == weight 40 20.
Proof.
  vm_compute. split; [reflexivity | discriminate].
Qed.

(** C4 (amended): while the configured constant [K] stays the same, that
    is for a cache filled under the current [K] (the empty cache
    included), [calculateWeight n] is [n / (n + K)] and leaves such a
    cache behind, so memoization does not alter the result; the weight of
    0 is 0, the weight is strictly increasing on [n >= 0] and tends to 1. *)
Theorem calculateWeight_spec (cfg : Config) (cache : WeightCache)
    (K_pos : 0 < WEIGHTING_K (THRESHOLDS cfg))
    (Hcache : cache_for (WEIGHTING_K (THRESHOLDS cfg)) cache) :
  (forall n, 0 <= n ->
     evalM (calculateWeight cfg n) cache
       == n / (n + WEIGHTING_K (THRESHOLDS cfg)) /\
     cache_for (WEIGHTING_K (THRESHOLDS cfg))
               (execM (calculateWeight cfg n) cache)) /\
  evalM (calculateWeight cfg 0) cache == 0 /\
  (forall n m, 0 <= n -> n < m ->
     evalM (calculateWeight cfg n) cache
       < evalM (calculateWeight cfg m) cache) /\
  (forall eps, 0 < eps -> exists N, forall n, N <= n ->
     1 - eps < evalM (calculateWeight cfg n) cache /\
     evalM (calculateWeight cfg n) cache < 1).
Proof.
  refine (conj _ (conj _ (conj _ _))).
  - intros n _. split.
    + now apply calculateWeight_value.
    + now apply calculateWeight_cache.
  - rewrite calculateWeight_value by assumption. now apply weight_0.
  - intros n m Hn Hnm. rewrite !calculateWeight_value by assumption.
    now apply weight_increasing.
  - intros eps Heps.
    destruct (weight_tends_to_1 _ K_pos eps Heps) as [N HN].
    exists N. intros n Hn. rewrite calculateWeight_value by assumption.
    now apply HN.
Qed.

Lemma calculateWeight_spec_witness :
  (forall n, 0 <= n ->
     evalM (calculateWeight config n) ∅ == n / (n + 20) /\
     cache_for 20 (execM (calculateWeight config n) ∅)) /\
  evalM (calculateWeight config 0) ∅ == 0 /\
  (forall n m, 0 <= n -> n < m ->
     evalM (calculateWeight config n) ∅
       < evalM (calculateWeight config m) ∅) /\
  (forall eps, 0 < eps -> exists N, forall n, N <= n ->
     1 - eps < evalM (calculateWeight config n) ∅ /\
     evalM (calculateWeight config n) ∅ < 1).
Proof.
  apply (calculateWeight_spec config ∅).
  - reflexivity.
  - apply cache_for_empty.
Defined.

(** ** The account-age factor *)

(** C6: the account-age factor is 1.5 up to and including 60 days and 1
    beyond; 59 and 60 days give 1.5, 61 days gives 1. *)
Theorem calculateAccountAgeFactor_step (accountAgeDays : Q) :
  (accountAgeDays <= 60 ->
   calculateAccountAgeFactor config accountAgeDays = 1.5) /\
  (60 < accountAgeDays ->
   calculateAccountAgeFactor config accountAgeDays = 1) /\
  calculateAccountAgeFactor config 59 = 1.5 /\
  calculateAccountAgeFactor config 60 = 1.5 /\
  calculateAccountAgeFactor config 61 = 1.
Proof.
  unfold calculateAccountAgeFactor; simpl.
  repeat split; intros; try reflexivity.
  - now rewrite Qle_bool_intro.
  - now rewrite Qle_bool_elim.
Qed.

Lemma calculateAccountAgeFactor_step_witness :
  calculateAccountAgeFactor config 45 = 1.5 /\
  calculateAccountAgeFactor config 400 = 1.
Proof.
  split.
  - apply (proj1 (calculateAccountAgeFactor_step 45)). vm_compute. discriminate.
  - apply (proj1 (proj2 (calculateAccountAgeFactor_step 400))). reflexivity.
Defined.

(** ** The risk level *)

Lemma inject_Z_le (a b : Z) : inject_Z a <= inject_Z b <-> (a <= b)%Z.
Proof. now rewrite <- Zle_Qle. Qed.

Lemma inject_Z_lt (a b : Z) : inject_Z a < inject_Z b <-> (a < b)%Z.
Proof. now rewrite <- Zlt_Qlt. Qed.

(** C7: on the integers 0..100, [getRiskLevel] is LOW up to 30, MODERATE
    on 31..50, HIGH on 51..70 and VERY_HIGH on 71..100; it is a function
    of the score (and the configuration) alone. *)
Theorem getRiskLevel_tiers (z : Z) :
  ((0 <= z <= 30)%Z ->
   getRiskLevel config (inject_Z z) = LOW (RISK_LEVELS config)) /\
  ((31 <= z <= 50)%Z ->
   getRiskLevel config (inject_Z z) = MODERATE (RISK_LEVELS config)) /\
  ((51 <= z <= 70)%Z ->
   getRiskLevel config (inject_Z z) = HIGH (RISK_LEVELS config)) /\
  ((71 <= z <= 100)%Z ->
   getRiskLevel config (inject_Z z) = VERY_HIGH (RISK_LEVELS config)) /\
  getRiskLevel config 30 = LOW (RISK_LEVELS config) /\
  getRiskLevel config 31 = MODERATE (RISK_LEVELS config) /\
  getRiskLevel config 50 = MODERATE (RISK_LEVELS config) /\
  getRiskLevel config 51 = HIGH (RISK_LEVELS config) /\
  getRiskLevel config 70 = HIGH (RISK_LEVELS config) /\
  getRiskLevel config 71 = VERY_HIGH (RISK_LEVELS config).
Proof.
  assert (L : forall a b : Z, (a <= b)%Z ->
                Qle_bool (inject_Z a) (b # 1) = true).
  { intros a b H. apply Qle_bool_intro. now apply inject_Z_le. }
  assert (G : forall a b : Z, (b < a)%Z ->
                Qle_bool (inject_Z a) (b # 1) = false).
  { intros a b H. apply Qle_bool_elim. now apply inject_Z_lt. }
  unfold getRiskLevel; simpl.
  repeat split; try reflexivity; intros H.
  - rewrite (L z 30%Z) by lia. reflexivity.
  - rewrite (G z 30%Z), (L z 50%Z) by lia. reflexivity.
  - rewrite (G z 30%Z), (G z 50%Z), (L z 70%Z) by lia. reflexivity.
  - rewrite (G z 30%Z), (G z 50%Z), (G z 70%Z) by lia. reflexivity.
Qed.

Lemma getRiskLevel_tiers_witness :
  getRiskLevel config 12 = LOW (RISK_LEVELS config) /\
  getRiskLevel config 42 = MODERATE (RISK_LEVELS config) /\
  getRiskLevel config 64 = HIGH (RISK_LEVELS config) /\
  getRiskLevel config 100 = VERY_HIGH (RISK_LEVELS config).
Proof.
  refine (conj _ (conj _ (conj _ _))).
  - apply (proj1 (getRiskLevel_tiers 12)). lia.
  - apply (proj1 (proj2 (getRiskLevel_tiers 42))). lia.
  - apply (proj1 (proj2 (proj2 (getRiskLevel_tiers 64)))). lia.
  - apply (proj1 (proj2 (proj2 (proj2 (getRiskLevel_tiers 100))))). lia.
Defined.

(** ** Running the scoring functions on a consistent cache *)

Lemma evalM_bind {A B} (m : M A) (k : A -> M B) (cache : WeightCache) :
  evalM (bind m k) cache = evalM (k (evalM m cache)) (execM m cache).
Proof. unfold evalM, execM, bind. now destruct (m cache). Qed.

Lemma execM_bind {A B} (m : M A) (k : A -> M B) (cache : WeightCache) :
  execM (bind m k) cache = execM (k (evalM m cache)) (execM m cache).
Proof. unfold evalM, execM, bind. now destruct (m cache). Qed.

Lemma returns_ret {A} (K : Q) (a : A) (P : A -> Prop) :
  P a -> returns K (ret a) P.
Proof. intros Ha cache Hc. now split. Qed.

Lemma returns_bind {A B} (K : Q) (m : M A) (k : A -> M B)
    (P : A -> Prop) (R : B -> Prop) :
  returns K m P -> (forall a, P a -> returns K (k a) R) ->
  returns K (bind m k) R.
Proof.
  intros Hm Hk cache Hc. rewrite evalM_bind, execM_bind.
  destruct (Hm cache Hc) as [Ha Hc']. now apply Hk.
Qed.

Lemma returns_weaken {A} (K : Q) (m : M A) (P R : A -> Prop) :
  returns K m P -> (forall a, P a -> R a) -> returns K m R.
Proof.
  intros Hm HPR cache Hc. destruct (Hm cache Hc). split; auto.
Qed.

Lemma calculateWeight_returns (cfg : Config) (n : Q) :
  returns (WEIGHTING_K (THRESHOLDS cfg)) (calculateWeight cfg n)
          (fun w => w == weight (WEIGHTING_K (THRESHOLDS cfg)) n).
Proof.
  intros cache Hc. split.
  - now apply calculateWeight_value.
  - now apply calculateWeight_cache.
Qed.

(** ** Linear ramps *)

Lemma ramp_left (a b lo hi : Q) : ~ a == b -> ramp a b lo hi a == lo.
Proof. intros Hab. unfold ramp. field. lra. Qed.

Lemma ramp_right (a b lo hi : Q) : ~ a == b -> ramp a b lo hi b == hi.
Proof. intros Hab. unfold ramp. field. lra. Qed.

Lemma ramp_bounds (a b lo hi x : Q) :
  a < b -> lo <= hi -> a <= x <= b ->
  lo <= ramp a b lo hi x <= hi.
Proof.
  intros Hab Hlh Hx. unfold ramp.
  assert (H0 : 0 <= (x - a) / (b - a)) by (apply Qle_shift_div_l; lra).
  assert (H1 : (x - a) / (b - a) <= 1) by (apply Qle_shift_div_r; lra).
  nra.
Qed.

Lemma ramp_increasing (a b lo hi x y : Q) :
  a < b -> lo < hi -> x < y -> ramp a b lo hi x < ramp a b lo hi y.
Proof.
  intros Hab Hlh Hxy. unfold ramp.
  assert (H : (x - a) / (b - a) < (y - a) / (b - a)).
  { apply Qlt_shift_div_l; [lra|].
    assert (E : (x - a) / (b - a) * (b - a) == x - a) by (field; lra).
    lra. }
  nra.
Qed.

(** ** The win-rate sub-score *)

Lemma winRateBaseScore_spec (winRate : Q) :
  winRateBaseScore config winRate == winRateRaw_spec winRate.
Proof.
  unfold winRateBaseScore, winRateRaw_spec, ramp; simpl.
  repeat case_Q; try lra; field.
Qed.

Lemma winRateRaw_spec_nonneg (winRate : Q) : 0 <= winRateRaw_spec winRate.
Proof.
  unfold winRateRaw_spec.
  repeat case_Q; try lra.
  - apply (ramp_bounds 0.5 0.6 0 50); lra.
  - assert (H := ramp_bounds 0.6 0.7 50 100 winRate). lra.
  - assert (0 <= (winRate - 0.7) / 0.1) by (apply Qle_shift_div_l; lra).
    lra.
Qed.

Lemma calculateWinRateScore_returns (winRate totalGames : Q) :
  returns 20 (calculateWinRateScore config winRate totalGames)
          (fun r => r == winRateScore_spec 20 winRate totalGames).
Proof.
  unfold calculateWinRateScore, winRateScore_spec; simpl.
  case_Q.
  - apply returns_ret. unfold winRateRaw_spec.
    rewrite Qle_bool_intro by exact E. ring.
  - eapply returns_bind; [apply (calculateWeight_returns config)|].
    intros w Hw. apply returns_ret. simpl in Hw.
    now rewrite Hw, winRateBaseScore_spec.
Qed.

Lemma winRateBaseScore_unbounded (B : Q) :
  exists winRate, B < winRateBaseScore config winRate.
Proof.
  exists (1 + Qabs B). rewrite winRateBaseScore_spec.
  assert (HB : B <= Qabs B) by apply Qle_Qabs.
  assert (H0 : 0 <= Qabs B) by apply Qabs_nonneg.
  unfold winRateRaw_spec. repeat case_Q; try lra.
  assert (Hlin : (1 + Qabs B - 0.7) / 0.1 * 100 == 1000 * (0.3 + Qabs B))
    by field.
  lra.
Qed.

(** C2: the win-rate sub-score is 0 up to a win rate of 0.5, the ramp
    from 0 to 50 on (0.5, 0.6], the ramp from 50 to 100 on (0.6, 0.7] and
    [100 + ((winRate - 0.7) / 0.1) * 100] beyond, each multiplied by the
    confidence weight of [totalGames]; the raw score is unbounded above. *)
Theorem calculateWinRateScore_piecewise (winRate totalGames : Q)
    (cache : WeightCache) (Hcache : cache_for 20 cache) :
  (winRate <= 0.5 ->
   evalM (calculateWinRateScore config winRate totalGames) cache = 0) /\
  (0.5 < winRate <= 0.6 ->
   evalM (calculateWinRateScore config winRate totalGames) cache
     == ramp 0.5 0.6 0 50 winRate * weight 20 totalGames) /\
  (0.6 < winRate <= 0.7 ->
   evalM (calculateWinRateScore config winRate totalGames) cache
     == ramp 0.6 0.7 50 100 winRate * weight 20 totalGames) /\
  (0.7 < winRate ->
   evalM (calculateWinRateScore config winRate totalGames) cache
     == (100 + ((winRate - 0.7) / 0.1) * 100) * weight 20 totalGames) /\
  (0.5 < winRate ->
   evalM (calculateWinRateScore config winRate totalGames) cache
     == winRateBaseScore config winRate * weight 20 totalGames) /\
  (forall B, exists w, B < winRateBaseScore config w).
Proof.
  destruct (calculateWinRateScore_returns winRate totalGames cache Hcache)
    as [Hr _].
  unfold winRateScore_spec in Hr.
  refine (conj _ (conj _ (conj _ (conj _ (conj _ _))))).
  - intros H. unfold calculateWinRateScore; simpl.
    now rewrite Qle_bool_intro.
  - intros H. rewrite Hr. unfold winRateRaw_spec.
    rewrite Qle_bool_elim, Qle_bool_intro by lra. reflexivity.
  - intros H. rewrite Hr. unfold winRateRaw_spec.
    rewrite !Qle_bool_elim, Qle_bool_intro by lra. reflexivity.
  - intros H. rewrite Hr. unfold winRateRaw_spec.
    rewrite !Qle_bool_elim by lra. reflexivity.
  - intros H. rewrite Hr. now rewrite winRateBaseScore_spec.
  - exact winRateBaseScore_unbounded.
Qed.

Lemma calculateWinRateScore_piecewise_witness :
  (0.8 <= 0.5 ->
   evalM (calculateWinRateScore config 0.8 20) ∅ = 0) /\
  (0.5 < 0.8 <= 0.6 ->
   evalM (calculateWinRateScore config 0.8 20) ∅
     == ramp 0.5 0.6 0 50 0.8 * weight 20 20) /\
  (0.6 < 0.8 <= 0.7 ->
   evalM (calculateWinRateScore config 0.8 20) ∅
     == ramp 0.6 0.7 50 100 0.8 * weight 20 20) /\
  (0.7 < 0.8 ->
   evalM (calculateWinRateScore config 0.8 20) ∅
     == (100 + ((0.8 - 0.7) / 0.1) * 100) * weight 20 20) /\
  (0.5 < 0.8 ->
   evalM (calculateWinRateScore config 0.8 20) ∅
     == winRateBaseScore config 0.8 * weight 20 20) /\
  (forall B, exists w, B < winRateBaseScore config w).
Proof.
  exact (calculateWinRateScore_piecewise 0.8 20 ∅ (cache_for_empty 20)).
Defined.

(** The scenario of the specification: a win rate of 80% over 20 games
    has raw score 200, weight 1/2 and sub-score 100. *)
Example calculateWinRateScore_scenario :
  evalM (calculateWinRateScore config 0.8 20) ∅ == 100.
Proof. vm_compute. reflexivity. Qed.

(** ** The high-accuracy sub-score *)

Lemma Qfloor_unique (x : Q) (k : Z) :
  inject_Z k <= x -> x < inject_Z (k + 1) -> Qfloor x = k.
Proof.
  intros Hlo Hhi.
  assert (H1 := Qfloor_le x). assert (H2 := Qlt_floor x).
  assert (L1 : inject_Z k < inject_Z (Qfloor x + 1)) by lra.
  assert (L2 : inject_Z (Qfloor x) < inject_Z (k + 1)) by lra.
  rewrite <- Zlt_Qlt in L1. rewrite <- Zlt_Qlt in L2. lia.
Qed.

Lemma accuracyBaseScore_spec (pct : Q) :
  10 < pct -> accuracyBaseScore config pct == accuracyRaw_spec pct.
Proof.
  intros Hp. unfold accuracyBaseScore, accuracyRaw_spec, ramp, Math_floor.
  simpl. repeat case_Q; try lra; field.
Qed.

Lemma accuracyBaseScore_step (k : Z) (pct : Q) :
  30 < pct ->
  30 + 5 * inject_Z k <= pct -> pct < 30 + 5 * inject_Z (k + 1) ->
  accuracyBaseScore config pct == 100 + 50 * inject_Z k.
Proof.
  intros Hp Hlo Hhi. unfold accuracyBaseScore, Math_floor; read_config.
  rewrite Qltb_intro by exact Hp.
  rewrite (Qfloor_unique ((pct - 30) / 5) k).
  - ring.
  - apply Qle_shift_div_l; lra.
  - apply Qlt_shift_div_r; lra.
Qed.

Lemma accuracyRaw_spec_nonneg (pct : Q) : 0 <= accuracyRaw_spec pct.
Proof.
  unfold accuracyRaw_spec.
  repeat case_Q; try lra.
  - apply (ramp_bounds 10 20 0 50); lra.
  - assert (H := ramp_bounds 20 30 50 100 pct). lra.
  - assert (H : inject_Z 0 <= inject_Z (Qfloor ((pct - 30) / 5))).
    { apply inject_Z_le, Qfloor_resp_le with (x := 0).
      apply Qle_shift_div_l; lra. }
    change (inject_Z 0) with 0 in H. lra.
Qed.

Lemma accuracyBaseScore_unbounded (B : Q) :
  exists pct, B < accuracyBaseScore config pct.
Proof.
  set (k := Z.max 0 (Qceiling B)).
  assert (Hk : (0 <= k)%Z) by lia.
  assert (HB : B <= inject_Z k).
  { apply Qle_trans with (inject_Z (Qceiling B)); [apply Qle_ceiling|].
    apply inject_Z_le. lia. }
  apply inject_Z_le in Hk. change (inject_Z 0) with 0 in Hk.
  assert (E1 : inject_Z (k + 1) == inject_Z k + 1)
    by (rewrite inject_Z_plus; reflexivity).
  assert (E2 : inject_Z (k + 1 + 1) == inject_Z k + 2)
    by (rewrite !inject_Z_plus; simpl; ring).
  exists (30 + 5 * inject_Z (k + 1)).
  rewrite (accuracyBaseScore_step (k + 1)); lra.
Qed.

Lemma calculateHighAccuracyScore_returns (accuracyData : Accuracy)
    (playerRating : Q) :
  returns 20 (calculateHighAccuracyScore config accuracyData playerRating)
          (fun r => ar_score r == accuracyScore_spec 20 accuracyData).
Proof.
  unfold calculateHighAccuracyScore, accuracyScore_spec; read_config.
  destruct (highAccuracyPercentage accuracyData) as [pct|];
    cbn [isNaN js_leb].
  - destruct (Qeq_bool (gamesWithAccuracy accuracyData) 0); cbn [orb].
    + now apply returns_ret.
    + case_Q.
      * apply returns_ret; simpl. unfold accuracyRaw_spec.
        rewrite Qle_bool_intro by exact E. ring.
      * eapply returns_bind; [apply (calculateWeight_returns config)|].
        intros w Hw. apply returns_ret. simpl in *.
        now rewrite Hw, accuracyBaseScore_spec.
  - rewrite orb_true_r. now apply returns_ret.
Qed.

(** C3: the high-accuracy sub-score is 0 with reason "no_accuracy_data"
    without a sample or without a percentage, 0 with reason
    "below_threshold" up to 10 percent; above, the raw score is the ramp
    from 0 to 50 on (10, 20], the ramp from 50 to 100 on (20, 30] and
    [100 + floor((pct - 30) / 5) * 50] beyond 30, constant on each step of
    five points and unbounded above; the sub-score is the raw score times
    the confidence weight of the sample. *)
Theorem calculateHighAccuracyScore_piecewise (accuracyData : Accuracy)
    (playerRating : Q) (cache : WeightCache) (Hcache : cache_for 20 cache) :
  (gamesWithAccuracy accuracyData == 0 \/
   highAccuracyPercentage accuracyData = NaN ->
   evalM (calculateHighAccuracyScore config accuracyData playerRating) cache
     = {| ar_score := 0;
          ar_debug := {| baseScore := 0; sampleWeight := 0;
                         reason := Some "no_accuracy_data" |} |}) /\
  (forall pct,
     ~ gamesWithAccuracy accuracyData == 0 ->
     highAccuracyPercentage accuracyData = Num pct ->
     pct <= 10 ->
     evalM (calculateHighAccuracyScore config accuracyData playerRating) cache
       = {| ar_score := 0;
            ar_debug := {| baseScore := 0; sampleWeight := 0;
                           reason := Some "below_threshold" |} |}) /\
  (forall pct,
     ~ gamesWithAccuracy accuracyData == 0 ->
     highAccuracyPercentage accuracyData = Num pct ->
     10 < pct ->
     let r :=
       evalM (calculateHighAccuracyScore config accuracyData playerRating)
             cache in
     baseScore (ar_debug r) = accuracyBaseScore config pct /\
     sampleWeight (ar_debug r)
       == weight 20 (gamesWithAccuracy accuracyData) /\
     ar_score r == baseScore (ar_debug r) *
                   weight 20 (gamesWithAccuracy accuracyData) /\
     reason (ar_debug r) = None) /\
  (forall pct, 10 < pct <= 20 ->
     accuracyBaseScore config pct == ramp 10 20 0 50 pct) /\
  (forall pct, 20 < pct <= 30 ->
     accuracyBaseScore config pct == ramp 20 30 50 100 pct) /\
  (forall pct, 30 < pct ->
     accuracyBaseScore config pct
       == 100 + inject_Z (Qfloor ((pct - 30) / 5)) * 50) /\
  (forall (k : Z) pct, 30 < pct ->
     30 + 5 * inject_Z k <= pct -> pct < 30 + 5 * inject_Z (k + 1) ->
     accuracyBaseScore config pct == 100 + 50 * inject_Z k) /\
  (forall B, exists pct, B < accuracyBaseScore config pct).
Proof.
  refine (conj _ (conj _ (conj _ (conj _ (conj _ (conj _ (conj _ _))))))).
  - intros [H|H]; unfold calculateHighAccuracyScore.
    + apply Qeq_bool_iff in H. now rewrite H.
    + rewrite H. cbn [isNaN]. now rewrite orb_true_r.
  - intros pct Hg Hp Hle. unfold calculateHighAccuracyScore. rewrite Hp.
    destruct (Qeq_bool (gamesWithAccuracy accuracyData) 0) eqn:E.
    { now apply Qeq_bool_iff in E. }
    read_config. cbn [isNaN js_leb orb]. now rewrite Qle_bool_intro.
  - intros pct Hg Hp Hlt r.
    assert (Er : r =
      let w := evalM (calculateWeight config
                        (gamesWithAccuracy accuracyData)) cache in
      {| ar_score := accuracyBaseScore config pct * w;
         ar_debug := {| baseScore := accuracyBaseScore config pct;
                        sampleWeight := w; reason := None |} |}).
    { subst r. unfold calculateHighAccuracyScore. rewrite Hp.
      destruct (Qeq_bool (gamesWithAccuracy accuracyData) 0) eqn:E.
      { now apply Qeq_bool_iff in E. }
      read_config. cbn [isNaN js_leb orb].
      rewrite Qle_bool_elim by exact Hlt.
      now rewrite evalM_bind. }
    rewrite Er; simpl.
    assert (Hw := calculateWeight_value config
                    (gamesWithAccuracy accuracyData) cache Hcache).
    simpl in Hw. repeat split; try assumption. now rewrite Hw.
  - intros pct H. rewrite accuracyBaseScore_spec by lra.
    unfold accuracyRaw_spec.
    rewrite Qle_bool_elim, Qle_bool_intro by lra. reflexivity.
  - intros pct H. rewrite accuracyBaseScore_spec by lra.
    unfold accuracyRaw_spec.
    rewrite !Qle_bool_elim, Qle_bool_intro by lra. reflexivity.
  - intros pct H. rewrite accuracyBaseScore_spec by lra.
    unfold accuracyRaw_spec.
    rewrite !Qle_bool_elim by lra. reflexivity.
  - exact accuracyBaseScore_step.
  - exact accuracyBaseScore_unbounded.
Qed.

Lemma calculateHighAccuracyScore_piecewise_witness :
  evalM (calculateHighAccuracyScore config
           {| gamesWithAccuracy := 0; highAccuracyGames := 0;
              highAccuracyPercentage := Num 0 |} 1500) ∅
    = {| ar_score := 0;
         ar_debug := {| baseScore := 0; sampleWeight := 0;
                        reason := Some "no_accuracy_data" |} |}.
Proof.
  apply (proj1 (calculateHighAccuracyScore_piecewise
                  {| gamesWithAccuracy := 0; highAccuracyGames := 0;
                     highAccuracyPercentage := Num 0 |}
                  1500 ∅ (cache_for_empty 20))).
  left. reflexivity.
Defined.

(** Half of ten games at high accuracy: raw score 300 (four steps of
    five points above 30), weight 1/3. *)
Example calculateHighAccuracyScore_steps :
  let r := evalM (calculateHighAccuracyScore config
                    {| gamesWithAccuracy := 10; highAccuracyGames := 5;
                       highAccuracyPercentage := Num 50 |} 1500) ∅ in
  baseScore (ar_debug r) == 300 /\ ar_score r == 100.
Proof. vm_compute. split; reflexivity. Qed.

(** C10: the high-accuracy sub-score, its debug record and the cache it
    leaves do not depend on the [playerRating] argument; the rating
    enters upstream, where the normalizer classifies a game as high
    accuracy from 80 percent below a rating of 1500 and from 90 percent
    otherwise (so 85 percent counts at 1200 and not at 1800). *)
Theorem calculateHighAccuracyScore_ignores_rating (cfg : Config)
    (accuracyData : Accuracy) (rating1 rating2 : Q) (cache : WeightCache) :
  calculateHighAccuracyScore cfg accuracyData rating1 cache
    = calculateHighAccuracyScore cfg accuracyData rating2 cache /\
  (forall game : Metrics.GameRecord,
     Metrics.isHighAccuracyGame config game =
       match Metrics.game_accuracy game with
       | Some a =>
           if Qltb (Metrics.playerRating game) 1500
           then Qle_bool 80 a else Qle_bool 90 a
       | None => false
       end) /\
  Metrics.isHighAccuracyGame config
    {| Metrics.result := Metrics.win; Metrics.timeClass := "blitz";
       Metrics.playerRating := 1200; Metrics.game_accuracy := Some 85;
       Metrics.rated := true |} = true /\
  Metrics.isHighAccuracyGame config
    {| Metrics.result := Metrics.win; Metrics.timeClass := "blitz";
       Metrics.playerRating := 1800; Metrics.game_accuracy := Some 85;
       Metrics.rated := true |} = false.
Proof.
  split; [reflexivity|]. split; [|split; reflexivity].
  intros game. unfold Metrics.isHighAccuracyGame. read_config.
  destruct (Metrics.game_accuracy game); [|reflexivity].
  now destruct (Qltb (Metrics.playerRating game) 1500).
Qed.

(** ** The per-format score *)

Lemma calculateFormatRiskScore_returns (formatMetrics : FormatStats)
    (debug : bool) :
  returns 20 (calculateFormatRiskScore config formatMetrics debug)
          (fun r => fr_score r == weightedSum_spec 20 formatMetrics).
Proof.
  unfold calculateFormatRiskScore.
  eapply returns_bind; [apply calculateWinRateScore_returns|].
  intros o Ho.
  eapply returns_bind; [apply calculateWinRateScore_returns|].
  intros r Hr.
  eapply returns_bind; [apply calculateHighAccuracyScore_returns|].
  intros a Ha. cbv beta in *.
  assert (E : OVERALL_WINRATE (WEIGHTS config) * o +
              RECENT_WINRATE (WEIGHTS config) * r +
              HIGH_ACCURACY (WEIGHTS config) * ar_score a
              == weightedSum_spec 20 formatMetrics).
  { unfold weightedSum_spec. rewrite Ho, Hr, Ha. reflexivity. }
  destruct debug; apply returns_ret; exact E.
Qed.

Lemma formatScoreEntry_returns (accountAgeFactor : Q) (debug : bool)
    (format : string) (formatMetrics : FormatStats) :
  returns 20 (formatScoreEntry config accountAgeFactor debug format
                               formatMetrics)
          (fun e => RiskScore.format e = format /\
                    score e == Qmin 100 (accountAgeFactor *
                                         weightedSum_spec 20 formatMetrics)).
Proof.
  unfold formatScoreEntry.
  eapply returns_bind; [apply calculateFormatRiskScore_returns|].
  intros r Hr. apply returns_ret. cbn [RiskScore.format score].
  split; [reflexivity|]. unfold Math_min. now rewrite Hr.
Qed.

Lemma winRateScore_spec_nonneg (winRate totalGames : Q) :
  0 <= totalGames -> 0 <= winRateScore_spec 20 winRate totalGames.
Proof.
  intros Hn. unfold winRateScore_spec.
  apply Qmult_le_0_compat.
  - apply winRateRaw_spec_nonneg.
  - apply weight_nonneg; lra.
Qed.

Lemma accuracyScore_spec_nonneg (accuracyData : Accuracy) :
  0 <= gamesWithAccuracy accuracyData ->
  0 <= accuracyScore_spec 20 accuracyData.
Proof.
  intros Hn. unfold accuracyScore_spec.
  destruct (highAccuracyPercentage accuracyData); [|lra].
  destruct (Qeq_bool (gamesWithAccuracy accuracyData) 0); [lra|].
  apply Qmult_le_0_compat.
  - apply accuracyRaw_spec_nonneg.
  - apply weight_nonneg; lra.
Qed.

Lemma weightedSum_spec_nonneg (formatMetrics : FormatStats) :
  validFormatStats formatMetrics -> 0 <= weightedSum_spec 20 formatMetrics.
Proof.
  intros [_ _ (Hw & Hl & Hd) Ht (Hr & _) (Hh & Hg) _].
  unfold weightedSum_spec.
  assert (H1 := winRateScore_spec_nonneg
                  (overallWinrate formatMetrics / 100)
                  (gc_total (gamesCounts formatMetrics))).
  assert (H2 := winRateScore_spec_nonneg
                  (rg_winrate (recentGames formatMetrics) / 100)
                  (rg_total (recentGames formatMetrics)) Hr).
  assert (H3 := accuracyScore_spec_nonneg (accuracy formatMetrics)).
  lra.
Qed.

Lemma calculateAccountAgeFactor_pos (accountAgeDays : Q) :
  0 < calculateAccountAgeFactor config accountAgeDays.
Proof.
  unfold calculateAccountAgeFactor; read_config.
  destruct (Qle_bool accountAgeDays 60); reflexivity.
Qed.

(** C1: for a valid FormatStats the per-format score is
    [min(100, accountAgeFactor * weightedSum)], where [weightedSum] is
    0.35 times the overall win-rate sub-score plus 0.35 times the recent
    win-rate sub-score plus 0.30 times the high-accuracy sub-score and is
    itself not capped; the score lies between 0 and 100. *)
Theorem formatScoreEntry_capped (accountAgeDays : Q) (debug : bool)
    (format : string) (formatMetrics : FormatStats) (cache : WeightCache)
    (Hvalid : validFormatStats formatMetrics)
    (Hcache : cache_for 20 cache) :
  fr_score (evalM (calculateFormatRiskScore config formatMetrics debug)
                  cache)
    == 0.35 * winRateScore_spec 20 (overallWinrate formatMetrics / 100)
                (gc_total (gamesCounts formatMetrics)) +
       0.35 * winRateScore_spec 20
                (rg_winrate (recentGames formatMetrics) / 100)
                (rg_total (recentGames formatMetrics)) +
       0.30 * accuracyScore_spec 20 (accuracy formatMetrics) /\
  score (evalM (formatScoreEntry config
                  (calculateAccountAgeFactor config accountAgeDays)
                  debug format formatMetrics) cache)
    == Qmin 100
         (calculateAccountAgeFactor config accountAgeDays *
          fr_score (evalM (calculateFormatRiskScore config formatMetrics
                             debug) cache)) /\
  0 <= score (evalM (formatScoreEntry config
                       (calculateAccountAgeFactor config accountAgeDays)
                       debug format formatMetrics) cache) <= 100.
Proof.
  destruct (calculateFormatRiskScore_returns formatMetrics debug cache Hcache)
    as [Hsum _].
  destruct (formatScoreEntry_returns
              (calculateAccountAgeFactor config accountAgeDays) debug format
              formatMetrics cache Hcache) as [[_ Hscore] _].
  split; [exact Hsum|]. split.
  - rewrite Hscore, Hsum. reflexivity.
  - rewrite Hscore. split.
    + apply Q.min_glb; [lra|].
      apply Qmult_le_0_compat.
      * apply Qlt_le_weak, calculateAccountAgeFactor_pos.
      * now apply weightedSum_spec_nonneg.
    + apply Q.le_min_l.
Qed.

Lemma scenario_format_valid : validFormatStats scenario_format.
Proof.
  constructor; cbn; unfold is_integer; repeat split;
    try reflexivity; try (vm_compute; discriminate).
Qed.

Lemma formatScoreEntry_capped_witness :
  0 <= score (evalM (formatScoreEntry config
                       (calculateAccountAgeFactor config 30)
                       true "chess_blitz" scenario_format) ∅) <= 100.
Proof.
  exact (proj2 (proj2 (formatScoreEntry_capped 30 true "chess_blitz"
                         scenario_format ∅ scenario_format_valid
                         (cache_for_empty 20)))).
Defined.

(** The scenario of the specification: weighted sum 70, times 1.5 is 105
    before the cap and 100 after it. *)
Example formatScoreEntry_scenario :
  let e := evalM (formatScoreEntry config
                    (calculateAccountAgeFactor config 30)
                    true "chess_blitz" scenario_format) ∅ in
  match factors e with
  | Some f =>
      calc_weightedSum (calculation f) == 70 /\
      beforeCap (calculation f) == 105 /\
      afterCap (calculation f) == 100
  | None => False
  end /\ score e == 100.
Proof. vm_compute. repeat split; reflexivity. Qed.

(** The weighted sum itself is not capped: every game won and every game
    at high accuracy gives a weighted sum above 100. *)
Example weightedSum_exceeds_100 :
  let fm := {|
    currentRating := 1500;
    overallWinrate := 100;
    gamesCounts := {| gc_total := 980; gc_wins := 980; gc_losses := 0;
                      gc_draws := 0 |};
    recentGames := {| rg_total := 20; rg_wins := 20; rg_losses := 0;
                      rg_draws := 0; rg_winrate := 100 |};
    accuracy := {| gamesWithAccuracy := 20; highAccuracyGames := 20;
                   highAccuracyPercentage := Num 100 |} |} in
  100 < fr_score (evalM (calculateFormatRiskScore config fm false) ∅) /\
  score (evalM (formatScoreEntry config 1 false "chess_blitz" fm) ∅)
    == 100.
Proof. vm_compute. split; reflexivity. Qed.

(** ** Sorting by descending score *)

Lemma insertByScore_perm (x : FormatScore) (l : list FormatScore) :
  Permutation (insertByScore x l) (x :: l).
Proof.
  induction l as [|y l IH]; simpl; [reflexivity|].
  destruct (Qle_bool (score y) (score x)); [reflexivity|].
  rewrite IH. apply perm_swap.
Qed.

Lemma sortByScore_perm (l : list FormatScore) :
  Permutation (sortByScore l) l.
Proof.
  induction l as [|x l IH]; simpl; [reflexivity|].
  rewrite insertByScore_perm. now constructor.
Qed.

Lemma sortByScore_length (l : list FormatScore) :
  length (sortByScore l) = length l.
Proof. apply Permutation_length, sortByScore_perm. Qed.

Lemma insertByScore_sorted (x : FormatScore) (l : list FormatScore) :
  StronglySorted score_ge l -> StronglySorted score_ge (insertByScore x l).
Proof.
  induction 1 as [|y l Hl IH Hy]; simpl.
  - repeat constructor.
  - case_Q.
    + constructor; [now constructor|].
      constructor; [exact E|].
      eapply Forall_impl; [exact Hy|].
      intros z Hz. unfold score_ge in *. lra.
    + constructor; [exact IH|].
      eapply Permutation_Forall;
        [symmetry; apply insertByScore_perm|].
      constructor; [|exact Hy]. unfold score_ge. lra.
Qed.

Lemma sortByScore_sorted (l : list FormatScore) :
  StronglySorted score_ge (sortByScore l).
Proof.
  induction l as [|x l IH]; simpl; [constructor|].
  now apply insertByScore_sorted.
Qed.

(** Stability: entries of equal score keep their original order. *)
Lemma insertByScore_with_score (q : Q) (x : FormatScore)
    (l : list FormatScore) :
  with_score q (insertByScore x l) = with_score q (x :: l).
Proof.
  unfold with_score.
  induction l as [|y l IH]; simpl; [reflexivity|].
  case_Q; [reflexivity|]. simpl in *. rewrite IH.
  destruct (Qeq_bool (score x) q) eqn:Ex;
    destruct (Qeq_bool (score y) q) eqn:Ey; try reflexivity.
  apply Qeq_bool_iff in Ex, Ey. lra.
Qed.

Lemma sortByScore_stable (q : Q) (l : list FormatScore) :
  with_score q (sortByScore l) = with_score q l.
Proof.
  induction l as [|x l IH]; simpl; [reflexivity|].
  rewrite insertByScore_with_score. unfold with_score in *; simpl.
  now rewrite IH.
Qed.

(** ** The selector *)

Lemma eligible_In (entry : string * FormatStats)
    (entries : list (string * FormatStats)) :
  In entry (eligible config entries) <->
  In entry entries /\ 5 <= rg_total (recentGames (snd entry)).
Proof.
  unfold eligible. rewrite filter_In. read_config.
  split; intros [H1 H2]; split; try assumption.
  - apply negb_true_iff in H2. now apply Qltb_false.
  - apply negb_true_iff. now apply Qltb_elim.
Qed.

Lemma collectFormatScores_returns (accountAgeFactor : Q) (debug : bool)
    (entries : list (string * FormatStats)) :
  returns 20 (collectFormatScores config accountAgeFactor debug entries)
          (fun l => Forall2 (scored_as accountAgeFactor) l
                            (eligible config entries)).
Proof.
  induction entries as [|[format fm] rest IH]; simpl.
  - apply returns_ret. constructor.
  - destruct (Qltb (rg_total (recentGames fm)) 5); simpl.
    + exact IH.
    + eapply returns_bind; [apply formatScoreEntry_returns|].
      intros e He.
      eapply returns_bind; [exact IH|].
      intros l Hl. apply returns_ret. now constructor.
Qed.

Lemma Math_round_nearest (x : Q) :
  x - 0.5 < Math_round x /\ Math_round x <= x + 0.5.
Proof.
  unfold Math_round.
  assert (H1 := Qfloor_le (x + 0.5)). assert (H2 := Qlt_floor (x + 0.5)).
  rewrite inject_Z_plus in H2. change (inject_Z 1) with 1 in H2.
  split; lra.
Qed.

Lemma Math_round_integer (x : Q) : is_integer (Math_round x).
Proof. unfold is_integer, Math_round. now rewrite Qfloor_Z. Qed.

(** The selector in any arithmetic. *)

Lemma eligible_at_least (cfg : Config) (entry : string * FormatStats)
    (entries : list (string * FormatStats)) :
  MIN_GAMES (THRESHOLDS cfg) == 5 ->
  In entry (eligible cfg entries) <->
  In entry entries /\ 5 <= rg_total (recentGames (snd entry)).
Proof.
  intros Hmin. unfold eligible. rewrite filter_In.
  split; intros [H1 H2]; split; try assumption.
  - apply negb_true_iff in H2. apply Qltb_false in H2. now rewrite <- Hmin.
  - apply negb_true_iff. apply Qltb_elim. now rewrite Hmin.
Qed.

Lemma collectFormatScores_pushed (A : Arithmetic) (cfg : Config)
    (accountAgeFactor : Q) (debug : bool)
    (entries : list (string * FormatStats)) (cache : WeightCache) :
  Forall2 (pushed_for A cfg accountAgeFactor debug)
    (evalM (WithArithmetic.collectFormatScores A cfg accountAgeFactor debug
              entries) cache)
    (eligible cfg entries).
Proof.
  revert cache. induction entries as [|[format fm] rest IH]; intros cache.
  - constructor.
  - cbn [WithArithmetic.collectFormatScores eligible List.filter snd].
    fold (eligible cfg rest).
    destruct (Qltb (rg_total (recentGames fm)) (MIN_GAMES (THRESHOLDS cfg)));
      cbn [negb].
    + apply IH.
    + rewrite evalM_bind, evalM_bind. constructor; [|apply IH].
      split; [|now exists cache].
      unfold WithArithmetic.formatScoreEntry. now rewrite evalM_bind.
Qed.

(** With the arithmetic of the rationals the functions are those of
    [RiskScore]. *)
Lemma collectFormatScores_exact (cfg : Config) (accountAgeFactor : Q)
    (debug : bool) (entries : list (string * FormatStats))
    (cache : WeightCache) :
  WithArithmetic.collectFormatScores Number.exact cfg accountAgeFactor debug
    entries cache
  = collectFormatScores cfg accountAgeFactor debug entries cache.
Proof.
  revert cache. induction entries as [|[format fm] rest IH]; intros cache.
  - reflexivity.
  - cbn [WithArithmetic.collectFormatScores collectFormatScores].
    destruct (Qltb (rg_total (recentGames fm)) (MIN_GAMES (THRESHOLDS cfg)));
      [apply IH|].
    unfold bind.
    change (WithArithmetic.formatScoreEntry Number.exact cfg accountAgeFactor
              debug format fm cache)
      with (formatScoreEntry cfg accountAgeFactor debug format fm cache).
    destruct (formatScoreEntry cfg accountAgeFactor debug format fm cache)
      as [entry cache'].
    now rewrite IH.
Qed.

Lemma calculateRiskScore_exact (cfg : Config) (now : string)
    (metrics : PlayerMetrics) (debug : bool) (cache : WeightCache) :
  WithArithmetic.calculateRiskScore Number.exact cfg now metrics debug cache
  = calculateRiskScore cfg now metrics debug cache.
Proof.
  unfold WithArithmetic.calculateRiskScore, calculateRiskScore, bind.
  now rewrite collectFormatScores_exact.
Qed.

(** C5: formats with fewer than 5 recent games are left out; with no
    format left the result is the "no_rated_games" sentinel with score 0
    and no format; otherwise [maxScore] is the head, rounded to the
    nearest integer, and [otherFormats] the tail of the eligible entries
    ranked by descending score, entries of equal score keeping the order
    of the input.  The scores are the numbers that the engine computed
    for the formats, whatever its arithmetic [A] rounds: the selector
    rounds and ranks them as they are. *)
Theorem calculateRiskScore_selects (A : Arithmetic) (cfg : Config)
    (now : string) (metrics : PlayerMetrics)
    (debug : bool) (cache : WeightCache)
    (formatScores : list FormatScore) (res : RiskScoreResult)
    (Hmin : MIN_GAMES (THRESHOLDS cfg) == 5)
    (HformatScores :
       formatScores =
       evalM (WithArithmetic.collectFormatScores A cfg
                (calculateAccountAgeFactor cfg (accountAge metrics))
                debug (formats metrics)) cache)
    (Hres : res = evalM (WithArithmetic.calculateRiskScore A cfg now metrics
                           debug) cache) :
  (forall entry,
     In entry (eligible cfg (formats metrics)) <->
     In entry (formats metrics) /\
     5 <= rg_total (recentGames (snd entry))) /\
  Forall2 (pushed_for A cfg
             (calculateAccountAgeFactor cfg (accountAge metrics)) debug)
          formatScores (eligible cfg (formats metrics)) /\
  (eligible cfg (formats metrics) = [] ->
   maxScore res = {| value := 0; ms_format := None; ms_factors := None;
                     ms_reason := Some "no_rated_games" |} /\
   otherFormats res = []) /\
  (eligible cfg (formats metrics) <> [] ->
   exists highest,
     maxScore res = {| value := Math_round (score highest);
                       ms_format := Some (format highest);
                       ms_factors := factors highest;
                       ms_reason := None |} /\
     is_integer (value (maxScore res)) /\
     score highest - 0.5 < value (maxScore res) <= score highest + 0.5 /\
     Permutation (highest :: otherFormats res) formatScores /\
     StronglySorted score_ge (highest :: otherFormats res) /\
     (forall q, with_score q (highest :: otherFormats res)
                = with_score q formatScores)).
Proof.
  assert (Hall := collectFormatScores_pushed A cfg
                    (calculateAccountAgeFactor cfg (accountAge metrics))
                    debug (formats metrics) cache).
  rewrite <- HformatScores in Hall.
  assert (Eres : res =
    evalM (match formatScores with
           | [] =>
               ret {| maxScore := {| value := 0; ms_format := None;
                                     ms_factors := None;
                                     ms_reason := Some "no_rated_games" |};
                      otherFormats := [];
                      accountAgeScore :=
                        calculateAccountAgeFactor cfg (accountAge metrics);
                      accountAgeDays := accountAge metrics;
                      username := pm_username metrics;
                      timestamp := now |}
           | first :: _ =>
               let sorted := sortByScore formatScores in
               let highest := hd first sorted in
               ret {| maxScore := {| value := Math_round (score highest);
                                     ms_format := Some (format highest);
                                     ms_factors := factors highest;
                                     ms_reason := None |};
                      otherFormats := tl sorted;
                      accountAgeScore :=
                        calculateAccountAgeFactor cfg (accountAge metrics);
                      accountAgeDays := accountAge metrics;
                      username := pm_username metrics;
                      timestamp := now |}
           end)
          (execM (WithArithmetic.collectFormatScores A cfg
                    (calculateAccountAgeFactor cfg (accountAge metrics))
                    debug (formats metrics)) cache)).
  { rewrite Hres, HformatScores.
    unfold WithArithmetic.calculateRiskScore.
    now rewrite evalM_bind. }
  clear Hres HformatScores.
  split; [intros entry; now apply eligible_at_least|].
  split; [exact Hall|]. split.
  - intros Hnil. rewrite Hnil in Hall. inversion Hall; subst formatScores.
    now rewrite Eres.
  - intros Hne.
    destruct formatScores as [|first rest].
    { inversion Hall as [Hnil|]. congruence. }
    assert (Hperm := sortByScore_perm (first :: rest)).
    assert (Hsorted := sortByScore_sorted (first :: rest)).
    assert (Hstable := fun q => sortByScore_stable q (first :: rest)).
    destruct (sortByScore (first :: rest)) as [|highest others] eqn:Esort.
    { apply Permutation_nil in Hperm. discriminate. }
    exists highest. rewrite Eres. cbn.
    split; [reflexivity|]. split; [apply Math_round_integer|].
    split; [apply Math_round_nearest|].
    repeat split; assumption.
Qed.

(** In the arithmetic of doubles, on the constants of config.js. *)
Lemma calculateRiskScore_selects_witness :
  Forall2 (pushed_for Binary64.arithmetic Binary64.config
             (calculateAccountAgeFactor Binary64.config
                (accountAge close_metrics)) false)
    (evalM (WithArithmetic.collectFormatScores Binary64.arithmetic
              Binary64.config
              (calculateAccountAgeFactor Binary64.config
                 (accountAge close_metrics))
              false (formats close_metrics)) ∅)
    (eligible Binary64.config (formats close_metrics)).
Proof.
  exact (proj1 (proj2
    (calculateRiskScore_selects Binary64.arithmetic Binary64.config
       "2024-01-01T00:00:00.000Z" close_metrics false ∅ _ _
       (Qeq_refl 5) eq_refl eq_refl))).
Defined.

(** It is the double that is rounded.  The weighted sum of
    [half_point_metrics] is 30.5 in the rationals, and the headline
    would be 31, a MODERATE risk; in doubles the sum is
    30.499999999999996, one unit in the last place below 30.5, and the
    headline is 30, a LOW risk. *)
Example calculateRiskScore_rounds_the_double :
  let res := evalM (WithArithmetic.calculateRiskScore Binary64.arithmetic
                      Binary64.config "2024-01-01T00:00:00.000Z"
                      half_point_metrics true) ∅ in
  let ideal := evalM (calculateRiskScore config "2024-01-01T00:00:00.000Z"
                        half_point_metrics true) ∅ in
  match ms_factors (maxScore res), ms_factors (maxScore ideal) with
  | Some f, Some g =>
      afterCap (calculation f) == 30.5 - (1 # 2 ^ 48) /\
      afterCap (calculation g) == 30.5
  | _, _ => False
  end /\
  value (maxScore res) == 30 /\
  rl_label (getRiskLevel Binary64.config (value (maxScore res)))
    = "Low Risk" /\
  value (maxScore ideal) == 31 /\
  rl_label (getRiskLevel config (value (maxScore ideal))) = "Moderate Risk".
Proof. vm_compute. repeat split; reflexivity. Qed.

(** It is the doubles that are ranked.  The two scores of
    [close_metrics] are both 28 in the rationals, where rapid, met
    first, would be the headline; in doubles bullet scores
    28.000000000000004 against the 28 of rapid, and is the headline. *)
Example calculateRiskScore_ranks_the_doubles :
  let res := evalM (WithArithmetic.calculateRiskScore Binary64.arithmetic
                      Binary64.config "2024-01-01T00:00:00.000Z"
                      close_metrics false) ∅ in
  let ideal := evalM (calculateRiskScore config "2024-01-01T00:00:00.000Z"
                        close_metrics false) ∅ in
  ms_format (maxScore res) = Some "chess_bullet" /\
  List.map format (otherFormats res) = ["chess_rapid"] /\
  List.map score (otherFormats res) = [28] /\
  value (maxScore res) == 28 /\
  List.map score
    (evalM (WithArithmetic.collectFormatScores Binary64.arithmetic
              Binary64.config 1 false (formats close_metrics)) ∅)
    = [28; 28 + (1 # 2 ^ 48)]%list /\
  ms_format (maxScore ideal) = Some "chess_rapid" /\
  List.map format (otherFormats ideal) = ["chess_bullet"].
Proof. vm_compute. repeat split; reflexivity. Qed.

(** The scenario of the specification ends with the headline score 100,
    a VERY_HIGH risk. *)
Example calculateRiskScore_scenario :
  let res := evalM (calculateRiskScore config "2024-01-01T00:00:00.000Z"
                      scenario_metrics true) ∅ in
  value (maxScore res) = 100 /\
  ms_format (maxScore res) = Some "chess_blitz" /\
  otherFormats res = [] /\
  getRiskLevel config (value (maxScore res))
    = VERY_HIGH (RISK_LEVELS config).
Proof. vm_compute. repeat split; reflexivity. Qed.

(** With three recent games in every format the result is the sentinel,
    whatever the other values. *)
Example calculateRiskScore_few_games :
  let res := evalM (calculateRiskScore config "2024-01-01T00:00:00.000Z"
                      few_games_metrics true) ∅ in
  maxScore res = {| value := 0; ms_format := None; ms_factors := None;
                    ms_reason := Some "no_rated_games" |} /\
  otherFormats res = [].
Proof. vm_compute. split; reflexivity. Qed.

(** On a tie the format met first is the headline. *)
Example calculateRiskScore_tie :
  let res := evalM (calculateRiskScore config "2024-01-01T00:00:00.000Z"
                      tie_metrics false) ∅ in
  ms_format (maxScore res) = Some "chess_rapid" /\
  List.map format (otherFormats res) = ["chess_bullet"].
Proof. vm_compute. split; reflexivity. Qed.

(** ** Validation of metrics *)

Import Metrics.

Lemma validateFormat_complete (fm : FormatStats) :
  validFormatStats fm -> validateFormat fm = true.
Proof.
  intros [_ (Ho1 & Ho2) _ Ht _ (_ & Hg) Hp].
  unfold validateFormat.
  rewrite (Qltb_elim _ _ Ho1), (Qltb_elim _ _ Ho2). cbn [orb].
  apply Qeq_bool_iff in Ht. rewrite Ht. cbn [negb].
  rewrite (Qltb_elim _ _ Hg).
  destruct (highAccuracyPercentage (accuracy fm)) as [q|]; [|contradiction].
  destruct Hp as [Hp1 Hp2]. cbn [js_ltb js_gtb].
  now rewrite (Qltb_elim _ _ Hp1), (Qltb_elim _ _ Hp2).
Qed.

(** Metrics of the data model with a positive account age pass. *)
Lemma validateMetrics_complete (metrics : PlayerMetrics) :
  validPlayerMetrics metrics -> 0 < accountAge metrics ->
  validateMetrics metrics = true.
Proof.
  intros [_ Hne Hall] Hage. unfold validateMetrics.
  destruct (Qeq_bool (accountAge metrics) 0) eqn:E0.
  { apply Qeq_bool_iff in E0. lra. }
  rewrite Qltb_elim by lra. cbn [orb].
  destruct (formats metrics) as [|entry rest] eqn:Ef; [congruence|].
  cbn [length Nat.eqb]. apply forallb_forall. intros e He.
  apply validateFormat_complete.
  rewrite Forall_forall in Hall. apply Hall. now apply list_elem_of_In.
Qed.

Lemma validateMetrics_negative_age (metrics : PlayerMetrics) :
  accountAge metrics < 0 -> validateMetrics metrics = false.
Proof.
  intros Hage. unfold validateMetrics.
  rewrite (Qltb_intro _ _ Hage). now rewrite orb_true_r.
Qed.

Lemma validateMetrics_no_format (metrics : PlayerMetrics) :
  formats metrics = [] -> validateMetrics metrics = false.
Proof.
  intros Hf. unfold validateMetrics. rewrite Hf.
  now destruct (_ || _).
Qed.

Lemma validateMetrics_bad_format (metrics : PlayerMetrics)
    (name : string) (fm : FormatStats) :
  In (name, fm) (formats metrics) -> validateFormat fm = false ->
  validateMetrics metrics = false.
Proof.
  intros Hin Hfm. unfold validateMetrics.
  destruct (_ || _); [reflexivity|].
  destruct (Nat.eqb _ _); [reflexivity|].
  destruct (forallb _ _) eqn:E; [|reflexivity].
  rewrite forallb_forall in E. specialize (E _ Hin). simpl in E. congruence.
Qed.

(** The invariant violations that a format is rejected for. *)
Lemma validateFormat_rejects (fm : FormatStats) :
  (overallWinrate fm < 0 \/ 100 < overallWinrate fm \/
   ~ gc_total (gamesCounts fm)
       == gc_wins (gamesCounts fm) + gc_losses (gamesCounts fm) +
          gc_draws (gamesCounts fm) \/
   gamesWithAccuracy (accuracy fm) < highAccuracyGames (accuracy fm) \/
   (exists q, highAccuracyPercentage (accuracy fm) = Num q /\
              (q < 0 \/ 100 < q))) ->
  validateFormat fm = false.
Proof.
  unfold validateFormat.
  intros [H|[H|[H|[H|(q & Hq & H)]]]].
  - now rewrite (Qltb_intro _ _ H).
  - rewrite (Qltb_intro _ _ H). now rewrite orb_true_r.
  - destruct (_ || _); [reflexivity|].
    destruct (Qeq_bool _ _) eqn:E; [|reflexivity].
    now apply Qeq_bool_iff in E.
  - destruct (_ || _); [reflexivity|].
    destruct (negb _); [reflexivity|].
    now rewrite (Qltb_intro _ _ H).
  - destruct (_ || _); [reflexivity|].
    destruct (negb _); [reflexivity|].
    destruct (Qltb _ _); [reflexivity|].
    rewrite Hq. cbn [js_ltb js_gtb].
    destruct H as [H|H]; rewrite (Qltb_intro _ _ H);
      [reflexivity | now rewrite orb_true_r].
Qed.

Lemma new_account_metrics_valid : validPlayerMetrics new_account_metrics.
Proof.
  constructor.
  - split; [reflexivity | discriminate].
  - discriminate.
  - repeat constructor; apply scenario_format_valid.
Qed.

(** C8: an account created today has an age of 0 days, which the data
    model allows, yet [validateMetrics] rejects its metrics: the test
    [!metrics.accountAge] is true of 0. *)
Theorem validateMetrics_rejects_age_0 :
  validPlayerMetrics new_account_metrics /\
  validateMetrics new_account_metrics = false /\
  (forall metrics, accountAge metrics == 0 ->
     validateMetrics metrics = false).
Proof.
  split; [exact new_account_metrics_valid|]. split; [reflexivity|].
  intros metrics H0. unfold validateMetrics.
  apply Qeq_bool_iff in H0. now rewrite H0.
Qed.

(** ** The opponent history *)

Import Background.

Section History.

Variable opponentData : OpponentData.
Variable opponentHistory : list HistoryEntry.

Let key := toLowerCase (username (od_result opponentData)).

Lemma historyKey_entry : historyKey (historyEntryOf opponentData) = key.
Proof. reflexivity. Qed.

(** A repeat analysis: the entry is replaced where it stands. *)
Lemma addToHistory_present :
  In key (List.map historyKey opponentHistory) ->
  exists i,
    List.map historyKey opponentHistory !! i = Some key /\
    addToHistory opponentData opponentHistory
      = <[i := historyEntryOf opponentData]> opponentHistory /\
    List.map historyKey (addToHistory opponentData opponentHistory)
      = List.map historyKey opponentHistory.
Proof.
  intros Hin. unfold addToHistory.
  destruct (list_find _ opponentHistory) as [[i e]|] eqn:Efind.
  - apply list_find_Some in Efind as (Hi & He & _).
    assert (Hk : List.map historyKey opponentHistory !! i = Some key).
    { change (List.map historyKey opponentHistory)
        with (historyKey <$> opponentHistory).
      rewrite list_lookup_fmap, Hi. simpl. f_equal. exact He. }
    exists i. split; [exact Hk|]. split; [reflexivity|].
    change (List.map historyKey) with (fmap (M := list) historyKey) in *.
    rewrite list_fmap_insert, historyKey_entry.
    now apply list_insert_id.
  - apply list_find_None in Efind. rewrite Forall_forall in Efind.
    apply in_map_iff in Hin as (e & He & Hin).
    apply list_elem_of_In in Hin. now apply Efind in Hin.
Qed.

(** A new username: the entry goes to the front and the list is cut to
    its first 50 entries. *)
Lemma addToHistory_absent :
  ~ In key (List.map historyKey opponentHistory) ->
  addToHistory opponentData opponentHistory
    = take 50 (historyEntryOf opponentData :: opponentHistory).
Proof.
  intros Hnin. unfold addToHistory.
  destruct (list_find _ opponentHistory) as [[i e]|] eqn:Efind.
  - apply list_find_Some in Efind as (Hi & He & _).
    exfalso. apply Hnin. apply in_map_iff. exists e. split; [exact He|].
    apply list_elem_of_In. eapply list_elem_of_lookup_2. exact Hi.
  - destruct (50 <? _)%nat eqn:E; [reflexivity|].
    apply Nat.ltb_ge in E. symmetry. now apply take_ge.
Qed.

Lemma addToHistory_length :
  (length opponentHistory <= 50)%nat ->
  (length (addToHistory opponentData opponentHistory) <= 50)%nat.
Proof.
  intros Hlen.
  destruct (in_dec string_dec key (List.map historyKey opponentHistory))
    as [Hin|Hnin].
  - destruct (addToHistory_present Hin) as (i & _ & -> & _).
    now rewrite length_insert.
  - rewrite (addToHistory_absent Hnin), length_take. lia.
Qed.

Lemma addToHistory_NoDup :
  NoDup (List.map historyKey opponentHistory) ->
  NoDup (List.map historyKey (addToHistory opponentData opponentHistory)).
Proof.
  intros Hnd.
  destruct (in_dec string_dec key (List.map historyKey opponentHistory))
    as [Hin|Hnin].
  - destruct (addToHistory_present Hin) as (i & _ & _ & ->). exact Hnd.
  - rewrite (addToHistory_absent Hnin).
    change (List.map historyKey) with (fmap (M := list) historyKey) in *.
    rewrite fmap_take.
    eapply sublist_NoDup; [|apply sublist_take].
    rewrite fmap_cons. apply NoDup_cons. split; [|exact Hnd].
    rewrite list_elem_of_In. exact Hnin.
Qed.

End History.

Lemma reachable_invariant (history : list HistoryEntry) :
  reachable history ->
  (length history <= 50)%nat /\ NoDup (List.map historyKey history).
Proof.
  induction 1 as [|opponentData h Hh [IHlen IHnd]].
  - split; [simpl; lia | constructor].
  - split.
    + now apply addToHistory_length.
    + now apply addToHistory_NoDup.
Qed.

(** C9 (as stated): entries are not ordered most recently updated first.
    After analysing alice, then bob, then Alice again, the entry of the
    last call is second, behind bob's. *)
Lemma addToHistory_update_not_first :
  let first := analysis "alice" 40 "2024-01-01T10:00:00.000Z" in
  let second := analysis "bob" 55 "2024-01-01T11:00:00.000Z" in
  let third := analysis "Alice" 72 "2024-01-01T12:00:00.000Z" in
  let history := addToHistory third (addToHistory second
                   (addToHistory first [])) in
  history = [historyEntryOf second; historyEntryOf third] /\
  ~ latest_first third history.
Proof.
  vm_compute. split; [reflexivity | discriminate].
Qed.

(** C9 (amended): after every call the history holds at most 50 entries
    with pairwise distinct lower-cased usernames; a repeat analysis of a
    username replaces its single entry where it stands, leaving length
    and order as they were; the entry of a new username is placed first,
    in front of the earlier entries in their order, and the list is cut
    to its first 50 entries. *)
Theorem addToHistory_upsert (opponentData : OpponentData)
    (opponentHistory : list HistoryEntry)
    (Hreach : reachable opponentHistory) :
  (length (addToHistory opponentData opponentHistory) <= 50)%nat /\
  NoDup (List.map historyKey (addToHistory opponentData opponentHistory)) /\
  (In (toLowerCase (username (od_result opponentData)))
      (List.map historyKey opponentHistory) ->
   exists i,
     List.map historyKey opponentHistory !! i
       = Some (toLowerCase (username (od_result opponentData))) /\
     addToHistory opponentData opponentHistory
       = <[i := historyEntryOf opponentData]> opponentHistory /\
     List.map historyKey (addToHistory opponentData opponentHistory)
       = List.map historyKey opponentHistory) /\
  (~ In (toLowerCase (username (od_result opponentData)))
        (List.map historyKey opponentHistory) ->
   addToHistory opponentData opponentHistory
     = take 50 (historyEntryOf opponentData :: opponentHistory)).
Proof.
  destruct (reachable_invariant _ Hreach) as [Hlen Hnd].
  split; [now apply addToHistory_length|].
  split; [now apply addToHistory_NoDup|].
  split.
  - apply addToHistory_present.
  - apply addToHistory_absent.
Qed.

Lemma addToHistory_upsert_witness :
  (length (addToHistory (analysis "Alice" 72 "2024-01-01T12:00:00.000Z")
             (addToHistory (analysis "alice" 40 "2024-01-01T10:00:00.000Z")
                [])) <= 50)%nat.
Proof.
  exact (proj1 (addToHistory_upsert
                  (analysis "Alice" 72 "2024-01-01T12:00:00.000Z")
                  (addToHistory
                     (analysis "alice" 40 "2024-01-01T10:00:00.000Z") [])
                  (reachable_add _ _ reachable_empty))).
Defined.

(** * Further properties *)

(** ** The normalizer *)

Section NormalizerFacts.

Import Metrics Normalizer.

Lemma array_length_nil {A} : array_length (@nil A) = 0.
Proof. reflexivity. Qed.

Lemma array_length_cons {A} (x : A) (l : list A) :
  array_length (x :: l) == array_length l + 1.
Proof.
  unfold array_length. cbn [length].
  rewrite Nat2Z.inj_succ, <- Z.add_1_r, inject_Z_plus. reflexivity.
Qed.

Lemma array_length_nonneg {A} (l : list A) : 0 <= array_length l.
Proof.
  unfold array_length. change 0 with (inject_Z 0).
  rewrite <- Zle_Qle. lia.
Qed.

Lemma array_length_filter_le {A} (f : A -> bool) (l : list A) :
  array_length (List.filter f l) <= array_length l.
Proof.
  unfold array_length. rewrite <- Zle_Qle.
  apply Nat2Z.inj_le, List.filter_length_le.
Qed.

Lemma array_length_pos {A} (x : A) (l : list A) : 0 < array_length (x :: l).
Proof.
  rewrite array_length_cons. assert (H := array_length_nonneg l). lra.
Qed.

(** The counters after the [reduce] over the games. *)
Lemma countResult_fold (games : list GameRecord) (acc : ResultCounts) :
  rc_wins (fold_left countResult games acc)
    == rc_wins acc + array_length (List.filter (has_result win) games) /\
  rc_losses (fold_left countResult games acc)
    == rc_losses acc + array_length (List.filter (has_result loss) games) /\
  rc_draws (fold_left countResult games acc)
    == rc_draws acc + array_length (List.filter (has_result draw) games).
Proof.
  revert acc. induction games as [|g games IH]; intros acc; cbn [fold_left].
  - cbn [List.filter]. rewrite !array_length_nil.
    refine (conj _ (conj _ _)); lra.
  - destruct (IH (countResult acc g)) as (Hw & Hl & Hd).
    rewrite Hw, Hl, Hd. unfold countResult. cbn [List.filter].
    unfold has_result.
    destruct (result g); cbn [rc_wins rc_losses rc_draws];
      rewrite ?array_length_cons; refine (conj _ (conj _ _)); lra.
Qed.

Lemma has_result_partition (games : list GameRecord) :
  array_length (List.filter (has_result win) games) +
  array_length (List.filter (has_result loss) games) +
  array_length (List.filter (has_result draw) games)
    == array_length games.
Proof.
  induction games as [|g games IH]; [reflexivity|].
  cbn [List.filter]. unfold has_result in *.
  destruct (result g); rewrite !array_length_cons; lra.
Qed.

Lemma calculateWinrate_range (record : ResultCounts) :
  0 <= rc_wins record -> 0 <= rc_losses record -> 0 <= rc_draws record ->
  0 <= calculateWinrate record <= 100.
Proof.
  intros Hwins Hlosses Hdraws. unfold calculateWinrate.
  set (total := rc_wins record + rc_losses record + rc_draws record).
  assert (Hwt : rc_wins record <= total) by (unfold total; lra).
  case_Q; [|lra].
  assert (H0 : 0 <= rc_wins record / total)
    by (apply Qle_shift_div_l; lra).
  assert (H1 : rc_wins record / total <= 1)
    by (apply Qle_shift_div_r; lra).
  lra.
Qed.

(** X1: for non-negative counters the win rate is a percentage between 0
    and 100; it is 0 without games and otherwise [wins / total * 100]. *)
Theorem calculateWinrate_bounds (record : ResultCounts)
    (Hwins : 0 <= rc_wins record) (Hlosses : 0 <= rc_losses record)
    (Hdraws : 0 <= rc_draws record) :
  0 <= calculateWinrate record <= 100 /\
  (rc_wins record + rc_losses record + rc_draws record == 0 ->
   calculateWinrate record = 0) /\
  (0 < rc_wins record + rc_losses record + rc_draws record ->
   calculateWinrate record *
     (rc_wins record + rc_losses record + rc_draws record)
   == 100 * rc_wins record).
Proof.
  unfold calculateWinrate.
  set (total := rc_wins record + rc_losses record + rc_draws record).
  assert (Hwt : rc_wins record <= total) by (unfold total; lra).
  destruct (Qltb 0 total) eqn:E.
  - apply Qltb_true in E.
    assert (H0 : 0 <= rc_wins record / total)
      by (apply Qle_shift_div_l; lra).
    assert (H1 : rc_wins record / total <= 1)
      by (apply Qle_shift_div_r; lra).
    split; [lra|]. split; [intros H; lra|].
    intros _. field. lra.
  - apply Qltb_false in E.
    split; [lra|]. split; [reflexivity|]. intros H. lra.
Qed.

Lemma calculateWinrate_bounds_witness :
  0 <= calculateWinrate {| rc_wins := 16; rc_losses := 4; rc_draws := 0 |}
    <= 100.
Proof.
  apply (calculateWinrate_bounds
           {| rc_wins := 16; rc_losses := 4; rc_draws := 0 |});
    vm_compute; discriminate.
Defined.

Lemma calculateAccountAge_floor (now joinedTimestamp : Q) :
  exists k : Z,
    calculateAccountAge now joinedTimestamp = inject_Z k /\
    inject_Z k * 86400000 <= now - joinedTimestamp * 1000 /\
    now - joinedTimestamp * 1000 < (inject_Z k + 1) * 86400000.
Proof.
  unfold calculateAccountAge, Math_floor.
  set (x := (now - joinedTimestamp * 1000) / (1000 * 60 * 60 * 24)).
  assert (Ex : now - joinedTimestamp * 1000 == x * 86400000)
    by (unfold x; field).
  assert (H1 := Qfloor_le x). assert (H2 := Qlt_floor x).
  rewrite inject_Z_plus in H2. change (inject_Z 1) with 1 in H2.
  exists (Qfloor x). split; [reflexivity|]. split; lra.
Qed.

(** X2: the account age is a whole number of days, the number of full
    days elapsed since the account was created; it is not negative when
    the creation date is not in the future, and 0 during the first day. *)
Theorem calculateAccountAge_days (now joinedTimestamp : Q) :
  is_integer (calculateAccountAge now joinedTimestamp) /\
  calculateAccountAge now joinedTimestamp * 86400000
    <= now - joinedTimestamp * 1000 /\
  now - joinedTimestamp * 1000
    < (calculateAccountAge now joinedTimestamp + 1) * 86400000 /\
  (joinedTimestamp * 1000 <= now ->
   0 <= calculateAccountAge now joinedTimestamp) /\
  (joinedTimestamp * 1000 <= now ->
   now - joinedTimestamp * 1000 < 86400000 ->
   calculateAccountAge now joinedTimestamp == 0).
Proof.
  unfold calculateAccountAge, Math_floor.
  set (x := (now - joinedTimestamp * 1000) / (1000 * 60 * 60 * 24)).
  assert (Ex : now - joinedTimestamp * 1000 == x * 86400000)
    by (unfold x; field).
  assert (H1 := Qfloor_le x). assert (H2 := Qlt_floor x).
  rewrite inject_Z_plus in H2. change (inject_Z 1) with 1 in H2.
  split; [unfold is_integer; now rewrite Qfloor_Z|].
  split; [lra|]. split; [lra|]. split.
  - intros Hpast.
    assert (H0 : (0 <= Qfloor x)%Z).
    { change 0%Z with (Qfloor 0). apply Qfloor_resp_le. lra. }
    rewrite Zle_Qle in H0. exact H0.
  - intros Hpast Hday. rewrite (Qfloor_unique x 0); [reflexivity| |].
    + change (inject_Z 0) with 0. lra.
    + change (inject_Z (0 + 1)) with 1. lra.
Qed.

Lemma calculateAccountAge_days_witness :
  0 <= calculateAccountAge 1700000000000 1600000000.
Proof.
  apply (proj1 (proj2 (proj2 (proj2
           (calculateAccountAge_days 1700000000000 1600000000))))).
  vm_compute. discriminate.
Defined.

Section FormatMetrics.

Variable cfg : Config.
Variable ratedOnly : bool.
Variable stats : RawStats.
Variable games : list GameRecord.

Let counted := countedGames ratedOnly (rs_timeClass stats) games.
Let fm := calculateFormatMetrics cfg ratedOnly stats games.

Lemma formatMetrics_recent :
  rg_wins (recentGames fm)
    == array_length (List.filter (has_result win) counted) /\
  rg_losses (recentGames fm)
    == array_length (List.filter (has_result loss) counted) /\
  rg_draws (recentGames fm)
    == array_length (List.filter (has_result draw) counted) /\
  rg_total (recentGames fm) == array_length counted.
Proof.
  destruct (countResult_fold counted
              {| rc_wins := 0; rc_losses := 0; rc_draws := 0 |})
    as (Hw & Hl & Hd).
  cbn [rc_wins rc_losses rc_draws] in Hw, Hl, Hd.
  assert (Hp := has_result_partition counted).
  subst fm. unfold calculateFormatMetrics.
  cbn [recentGames rg_wins rg_losses rg_draws rg_total].
  fold (countedGames ratedOnly (rs_timeClass stats) games). fold counted.
  refine (conj _ (conj _ (conj _ _))); lra.
Qed.

Lemma formatMetrics_accuracy :
  gamesWithAccuracy (accuracy fm)
    == array_length (List.filter has_accuracy counted) /\
  highAccuracyGames (accuracy fm)
    == array_length (List.filter (isHighAccuracyGame cfg)
                       (List.filter has_accuracy counted)) /\
  is_percentage (highAccuracyPercentage (accuracy fm)).
Proof.
  subst fm. unfold calculateFormatMetrics. cbn [accuracy].
  fold (countedGames ratedOnly (rs_timeClass stats) games). fold counted.
  fold has_accuracy.
  destruct (List.filter has_accuracy counted) as [|g withAccuracy] eqn:E.
  - cbn [gamesWithAccuracy highAccuracyGames highAccuracyPercentage
         is_percentage List.filter].
    refine (conj _ (conj _ _)); [reflexivity | reflexivity | lra].
  - cbn [gamesWithAccuracy highAccuracyGames highAccuracyPercentage
         is_percentage].
    split; [reflexivity|]. split; [reflexivity|].
    assert (Hpos := array_length_pos g withAccuracy).
    assert (Hle := array_length_filter_le (isHighAccuracyGame cfg)
                     (g :: withAccuracy)).
    assert (H0 := array_length_nonneg
                    (List.filter (isHighAccuracyGame cfg)
                       (g :: withAccuracy))).
    set (h := array_length (List.filter (isHighAccuracyGame cfg)
                              (g :: withAccuracy))) in *.
    set (n := array_length (g :: withAccuracy)) in *.
    assert (H1 : 0 <= h / n) by (apply Qle_shift_div_l; lra).
    assert (H2 : h / n <= 1) by (apply Qle_shift_div_r; lra).
    lra.
Qed.

End FormatMetrics.

(** X3: the recent-game counters of a format count the games of its time
    class (the rated ones only under [RATED_ONLY]): wins, losses and
    draws separately, their sum as the total; the accuracy sample counts
    those with an accuracy and is never larger than the total. *)
Theorem calculateFormatMetrics_counts (cfg : Config) (ratedOnly : bool)
    (stats : RawStats) (games : list GameRecord) :
  rg_wins (recentGames (calculateFormatMetrics cfg ratedOnly stats games))
    == array_length
         (List.filter (has_result win)
            (countedGames ratedOnly (rs_timeClass stats) games)) /\
  rg_losses (recentGames (calculateFormatMetrics cfg ratedOnly stats games))
    == array_length
         (List.filter (has_result loss)
            (countedGames ratedOnly (rs_timeClass stats) games)) /\
  rg_draws (recentGames (calculateFormatMetrics cfg ratedOnly stats games))
    == array_length
         (List.filter (has_result draw)
            (countedGames ratedOnly (rs_timeClass stats) games)) /\
  rg_total (recentGames (calculateFormatMetrics cfg ratedOnly stats games))
    == array_length (countedGames ratedOnly (rs_timeClass stats) games) /\
  gamesWithAccuracy
    (accuracy (calculateFormatMetrics cfg ratedOnly stats games))
    == array_length
         (List.filter has_accuracy
            (countedGames ratedOnly (rs_timeClass stats) games)) /\
  gamesWithAccuracy
    (accuracy (calculateFormatMetrics cfg ratedOnly stats games))
    <= rg_total
         (recentGames (calculateFormatMetrics cfg ratedOnly stats games)).
Proof.
  destruct (formatMetrics_recent cfg ratedOnly stats games)
    as (Hw & Hl & Hd & Ht).
  destruct (formatMetrics_accuracy cfg ratedOnly stats games)
    as (Hg & _ & _).
  refine (conj Hw (conj Hl (conj Hd (conj Ht (conj Hg _))))).
  rewrite Hg, Ht. apply array_length_filter_le.
Qed.

Lemma calculateFormatMetrics_invariants (cfg : Config) (ratedOnly : bool)
    (stats : RawStats) (games : list GameRecord) :
  0 <= rs_wins stats -> 0 <= rs_losses stats -> 0 <= rs_draws stats ->
  let fm := calculateFormatMetrics cfg ratedOnly stats games in
  0 <= overallWinrate fm <= 100 /\
  (0 <= gc_wins (gamesCounts fm) /\ 0 <= gc_losses (gamesCounts fm) /\
   0 <= gc_draws (gamesCounts fm)) /\
  gc_total (gamesCounts fm)
    = gc_wins (gamesCounts fm) + gc_losses (gamesCounts fm) +
      gc_draws (gamesCounts fm) /\
  (0 <= rg_total (recentGames fm) /\
   0 <= rg_winrate (recentGames fm) <= 100) /\
  0 <= highAccuracyGames (accuracy fm) <= gamesWithAccuracy (accuracy fm) /\
  is_percentage (highAccuracyPercentage (accuracy fm)).
Proof.
  intros Hw Hl Hd fm.
  destruct (formatMetrics_recent cfg ratedOnly stats games)
    as (Rw & Rl & Rd & Rt).
  destruct (formatMetrics_accuracy cfg ratedOnly stats games)
    as (Ag & Ah & Ap).
  fold fm in Rw, Rl, Rd, Rt, Ag, Ah, Ap.
  split; [now apply calculateWinrate_range|].
  split; [now repeat split|]. split; [reflexivity|]. split.
  - split.
    + rewrite Rt. apply array_length_nonneg.
    + apply calculateWinrate_range; cbn [rc_wins rc_losses rc_draws].
      * change (0 <= rg_wins (recentGames fm)). rewrite Rw.
        apply array_length_nonneg.
      * change (0 <= rg_losses (recentGames fm)). rewrite Rl.
        apply array_length_nonneg.
      * change (0 <= rg_draws (recentGames fm)). rewrite Rd.
        apply array_length_nonneg.
  - split; [|exact Ap]. rewrite Ah, Ag. split.
    + apply array_length_nonneg.
    + apply array_length_filter_le.
Qed.

(** X4: whatever the recent games, the metrics built for a format with a
    whole non-negative rating and non-negative lifetime counters satisfy
    the invariants of FormatStats. *)
Theorem calculateFormatMetrics_valid (cfg : Config) (ratedOnly : bool)
    (stats : RawStats) (games : list GameRecord)
    (Hrating : is_integer (rs_rating stats) /\ 0 <= rs_rating stats)
    (Hwins : 0 <= rs_wins stats) (Hlosses : 0 <= rs_losses stats)
    (Hdraws : 0 <= rs_draws stats) :
  validFormatStats (calculateFormatMetrics cfg ratedOnly stats games).
Proof.
  destruct (calculateFormatMetrics_invariants cfg ratedOnly stats games
              Hwins Hlosses Hdraws) as (Ho & Hc & Ht & Hr & Ha & Hp).
  constructor; try assumption.
  now rewrite Ht.
Qed.

Lemma calculateFormatMetrics_valid_witness :
  validFormatStats
    (calculateFormatMetrics config true
       {| rs_timeClass := "blitz"; rs_rating := 1500; rs_wins := 16;
          rs_losses := 4; rs_draws := 0 |}
       [{| result := win; timeClass := "blitz"; playerRating := 1500;
           game_accuracy := Some 91; rated := true |}]).
Proof.
  apply calculateFormatMetrics_valid.
  - split; [reflexivity | vm_compute; discriminate].
  - vm_compute; discriminate.
  - vm_compute; discriminate.
  - vm_compute; discriminate.
Defined.

Lemma validateFormat_calculateFormatMetrics (cfg : Config)
    (ratedOnly : bool) (stats : RawStats) (games : list GameRecord) :
  0 <= rs_wins stats -> 0 <= rs_losses stats -> 0 <= rs_draws stats ->
  validateFormat (calculateFormatMetrics cfg ratedOnly stats games) = true.
Proof.
  intros Hw Hl Hd.
  destruct (calculateFormatMetrics_invariants cfg ratedOnly stats games
              Hw Hl Hd) as ((Ho1 & Ho2) & _ & Ht & _ & (_ & Ha) & Hp).
  unfold validateFormat.
  rewrite (Qltb_elim _ _ Ho1), (Qltb_elim _ _ Ho2). cbn [orb].
  rewrite Ht at 1.
  rewrite (proj2 (Qeq_bool_iff _ _) (Qeq_refl _)). cbn [negb].
  rewrite (Qltb_elim _ _ Ha).
  destruct (highAccuracyPercentage _) as [q|]; [|contradiction].
  destruct Hp as [Hp1 Hp2]. cbn [js_ltb js_gtb].
  now rewrite (Qltb_elim _ _ Hp1), (Qltb_elim _ _ Hp2).
Qed.

Lemma calculatePlayerMetrics_formats (cfg : Config) (ratedOnly : bool)
    (now : Q) (nowIso : string) (playerData : PlayerData)
    (format : string) (fm : FormatStats) :
  In (format, fm)
     (formats (calculatePlayerMetrics cfg ratedOnly now nowIso playerData))
  <->
  exists entry,
    In format GAME_FORMATS /\
    stats playerData !! format = Some entry /\
    fm = calculateFormatMetrics cfg ratedOnly
           {| rs_timeClass := replace "chess_" "" format;
              rs_rating := se_rating entry;
              rs_wins := se_wins entry;
              rs_losses := se_losses entry;
              rs_draws := se_draws entry |}
           (pd_recentGames playerData).
Proof.
  unfold calculatePlayerMetrics. cbn [formats].
  rewrite <- list_elem_of_In, list_elem_of_omap. split.
  - intros (f & Hf & Hsome).
    destruct (stats playerData !! f) as [entry|] eqn:E; [|discriminate].
    injection Hsome as <- <-. exists entry.
    split; [now apply list_elem_of_In|]. now split.
  - intros (entry & Hf & Hs & ->). exists format.
    split; [now apply list_elem_of_In|]. now rewrite Hs.
Qed.

(** X5: the metrics built for a player whose lifetime counters are not
    negative pass [validateMetrics] exactly when the account is at least
    one full day old and the statistics hold one of the three formats. *)
Theorem calculatePlayerMetrics_validates (cfg : Config) (ratedOnly : bool)
    (now : Q) (nowIso : string) (playerData : PlayerData)
    (Hstats : forall format entry,
       stats playerData !! format = Some entry ->
       0 <= se_wins entry /\ 0 <= se_losses entry /\ 0 <= se_draws entry) :
  validateMetrics
    (calculatePlayerMetrics cfg ratedOnly now nowIso playerData) = true
  <->
  86400000 <= now - joined (profile playerData) * 1000 /\
  exists format,
    In format GAME_FORMATS /\ is_Some (stats playerData !! format).
Proof.
  destruct (calculateAccountAge_floor now (joined (profile playerData)))
    as (k & Ek & Hlo & Hhi).
  assert (Hall : forallb (fun entry => validateFormat (snd entry))
                   (formats (calculatePlayerMetrics cfg ratedOnly now nowIso
                               playerData)) = true).
  { apply forallb_forall. intros [format fm] Hin.
    apply calculatePlayerMetrics_formats in Hin as (entry & _ & Hs & ->).
    destruct (Hstats _ _ Hs) as (Hw & Hl & Hd).
    now apply validateFormat_calculateFormatMetrics. }
  unfold validateMetrics. rewrite Hall.
  change (accountAge (calculatePlayerMetrics cfg ratedOnly now nowIso
                        playerData))
    with (calculateAccountAge now (joined (profile playerData))).
  rewrite Ek.
  assert (Hformats :
    formats (calculatePlayerMetrics cfg ratedOnly now nowIso playerData)
      <> [] <->
    exists format,
      In format GAME_FORMATS /\ is_Some (stats playerData !! format)).
  { split.
    - destruct (formats _) as [|[format fm] rest] eqn:E; [congruence|].
      intros _.
      assert (Hin : In (format, fm)
                (formats (calculatePlayerMetrics cfg ratedOnly now nowIso
                            playerData))) by (rewrite E; now left).
      apply calculatePlayerMetrics_formats in Hin as (entry & Hf & Hs & _).
      exists format. split; [exact Hf|]. now exists entry.
    - intros (format & Hf & [entry Hs]) Hnil.
      assert (Hin : In (format,
                        calculateFormatMetrics cfg ratedOnly
                          {| rs_timeClass := replace "chess_" "" format;
                             rs_rating := se_rating entry;
                             rs_wins := se_wins entry;
                             rs_losses := se_losses entry;
                             rs_draws := se_draws entry |}
                          (pd_recentGames playerData))
                (formats (calculatePlayerMetrics cfg ratedOnly now nowIso
                            playerData))).
      { apply calculatePlayerMetrics_formats. now exists entry. }
      rewrite Hnil in Hin. contradiction. }
  split.
  - intros Hv.
    destruct (Qeq_bool (inject_Z k) 0) eqn:E0; [discriminate|].
    destruct (Qltb (inject_Z k) 0) eqn:E1; [discriminate|].
    cbn [orb] in Hv. apply Qltb_false in E1.
    assert (Hk : (1 <= k)%Z).
    { change 0 with (inject_Z 0) in E1. rewrite <- Zle_Qle in E1.
      assert (k <> 0%Z); [|lia].
      intros ->. discriminate. }
    rewrite Zle_Qle in Hk. change (inject_Z 1) with 1 in Hk.
    split; [lra|]. apply Hformats.
    destruct (formats _); [discriminate|congruence].
  - intros [Hday Hsome].
    assert (Hk : (0 < k)%Z).
    { assert (H : inject_Z 0 < inject_Z k + 1)
        by (change (inject_Z 0) with 0; lra).
      change 1 with (inject_Z 1) in H.
      rewrite <- inject_Z_plus, <- Zlt_Qlt in H. 
      assert (Hne : k <> 0%Z); [|lia].
      intros ->. change (inject_Z 0) with 0 in Hhi. lra. }
    rewrite Zlt_Qlt in Hk. change (inject_Z 0) with 0 in Hk.
    destruct (Qeq_bool (inject_Z k) 0) eqn:E0.
    { apply Qeq_bool_iff in E0. lra. }
    rewrite Qltb_elim by lra. cbn [orb].
    apply Hformats in Hsome.
    destruct (formats _); [congruence|reflexivity].
Qed.

End NormalizerFacts.

Lemma sample_player_counters (format : string)
    (entry : Normalizer.StatsEntry) :
  Normalizer.stats sample_player !! format = Some entry ->
  0 <= Normalizer.se_wins entry /\ 0 <= Normalizer.se_losses entry /\
  0 <= Normalizer.se_draws entry.
Proof.
  unfold sample_player. cbn [Normalizer.stats]. intros H.
  apply lookup_singleton_Some in H as [_ <-].
  cbn. repeat split; discriminate.
Qed.

Lemma calculatePlayerMetrics_validates_witness :
  Metrics.validateMetrics
    (Normalizer.calculatePlayerMetrics config true 1700000000000
       "2023-11-14T22:13:20.000Z" sample_player) = true
  <->
  86400000 <= 1700000000000 - 1600000000 * 1000 /\
  exists format,
    In format Normalizer.GAME_FORMATS /\
    is_Some (Normalizer.stats sample_player !! format).
Proof.
  exact (calculatePlayerMetrics_validates config true 1700000000000
           "2023-11-14T22:13:20.000Z" sample_player sample_player_counters).
Defined.

(** ** Monotonicity of the scores *)

Lemma winRateRaw_spec_monotone (w1 w2 : Q) :
  w1 <= w2 -> winRateRaw_spec w1 <= winRateRaw_spec w2.
Proof.
  intros Hw.
  assert (R1 : forall w, ramp 0.5 0.6 0 50 w == 500 * (w - 0.5))
    by (intros w; unfold ramp; field).
  assert (R2 : forall w, ramp 0.6 0.7 50 100 w == 50 + 500 * (w - 0.6))
    by (intros w; unfold ramp; field).
  assert (R3 : forall w, (w - 0.7) / 0.1 * 100 == 1000 * (w - 0.7))
    by (intros w; field).
  unfold winRateRaw_spec.
  repeat case_Q; rewrite ?R1, ?R2, ?R3; lra.
Qed.

Lemma accuracyRaw_spec_monotone (p1 p2 : Q) :
  p1 <= p2 -> accuracyRaw_spec p1 <= accuracyRaw_spec p2.
Proof.
  intros Hp.
  assert (R1 : forall p, ramp 10 20 0 50 p == 5 * (p - 10))
    by (intros p; unfold ramp; field).
  assert (R2 : forall p, ramp 20 30 50 100 p == 50 + 5 * (p - 20))
    by (intros p; unfold ramp; field).
  assert (F0 : forall p, 30 < p -> 0 <= inject_Z (Qfloor ((p - 30) / 5))).
  { intros p H. change 0 with (inject_Z (Qfloor 0)).
    rewrite <- Zle_Qle. apply Qfloor_resp_le.
    apply Qle_shift_div_l; lra. }
  assert (Fm : 30 < p1 ->
               inject_Z (Qfloor ((p1 - 30) / 5))
                 <= inject_Z (Qfloor ((p2 - 30) / 5))).
  { intros H. rewrite <- Zle_Qle. apply Qfloor_resp_le.
    apply Qle_shift_div_l; [lra|].
    assert (Hmul : (p1 - 30) / 5 * 5 == p1 - 30) by field. lra. }
  unfold accuracyRaw_spec.
  repeat case_Q; rewrite ?R1, ?R2; try lra;
    try (assert (H2 := F0 p2 ltac:(lra)));
    try (assert (H1 := Fm ltac:(lra))); lra.
Qed.

(** X6: from one and the same cache, the win-rate sub-score never
    decreases when the win rate rises, nor when the number of games
    rises. *)
Theorem calculateWinRateScore_monotone (cache : WeightCache)
    (winRate1 winRate2 totalGames1 totalGames2 : Q)
    (Hcache : cache_for 20 cache)
    (Hrate : winRate1 <= winRate2)
    (Hgames : 0 <= totalGames1 <= totalGames2) :
  evalM (calculateWinRateScore config winRate1 totalGames1) cache
    <= evalM (calculateWinRateScore config winRate2 totalGames2) cache.
Proof.
  destruct (calculateWinRateScore_returns winRate1 totalGames1 cache Hcache)
    as [H1 _].
  destruct (calculateWinRateScore_returns winRate2 totalGames2 cache Hcache)
    as [H2 _].
  rewrite H1, H2. unfold winRateScore_spec.
  assert (Hr := winRateRaw_spec_monotone _ _ Hrate).
  assert (Hr0 := winRateRaw_spec_nonneg winRate1).
  assert (Hw0 : 0 <= weight 20 totalGames1)
    by (apply weight_nonneg; lra).
  assert (Hw : weight 20 totalGames1 <= weight 20 totalGames2).
  { destruct Hgames as [H0 Hle].
    destruct (Qlt_le_dec totalGames1 totalGames2) as [Hlt|Hge].
    - apply Qlt_le_weak, weight_increasing; lra.
    - assert (E : totalGames1 == totalGames2) by lra.
      unfold weight. rewrite E. lra. }
  nra.
Qed.

Lemma calculateWinRateScore_monotone_witness :
  evalM (calculateWinRateScore config 0.55 10) ∅
    <= evalM (calculateWinRateScore config 0.65 30) ∅.
Proof.
  apply (calculateWinRateScore_monotone ∅ 0.55 0.65 10 30).
  - apply cache_for_empty.
  - vm_compute. discriminate.
  - split; vm_compute; discriminate.
Defined.

(** X7: for one accuracy sample size, not negative, and from one and
    the same cache, the high-accuracy sub-score never decreases when the
    percentage of high-accuracy games rises. *)
Theorem calculateHighAccuracyScore_monotone (cache : WeightCache)
    (sample highGames1 highGames2 pct1 pct2 rating : Q)
    (Hcache : cache_for 20 cache)
    (Hsample : 0 <= sample)
    (Hpct : pct1 <= pct2) :
  ar_score (evalM (calculateHighAccuracyScore config
                     {| gamesWithAccuracy := sample;
                        highAccuracyGames := highGames1;
                        highAccuracyPercentage := Num pct1 |} rating) cache)
    <= ar_score (evalM (calculateHighAccuracyScore config
                          {| gamesWithAccuracy := sample;
                             highAccuracyGames := highGames2;
                             highAccuracyPercentage := Num pct2 |} rating)
                       cache).
Proof.
  destruct (calculateHighAccuracyScore_returns
              {| gamesWithAccuracy := sample; highAccuracyGames := highGames1;
                 highAccuracyPercentage := Num pct1 |} rating cache Hcache)
    as [H1 _].
  destruct (calculateHighAccuracyScore_returns
              {| gamesWithAccuracy := sample; highAccuracyGames := highGames2;
                 highAccuracyPercentage := Num pct2 |} rating cache Hcache)
    as [H2 _].
  rewrite H1, H2. unfold accuracyScore_spec.
  cbn [highAccuracyPercentage gamesWithAccuracy].
  destruct (Qeq_bool sample 0); [lra|].
  assert (Hr := accuracyRaw_spec_monotone _ _ Hpct).
  assert (Hw0 : 0 <= weight 20 sample) by (apply weight_nonneg; lra).
  nra.
Qed.

Lemma calculateHighAccuracyScore_monotone_witness :
  ar_score (evalM (calculateHighAccuracyScore config
                     {| gamesWithAccuracy := 10; highAccuracyGames := 2;
                        highAccuracyPercentage := Num 20 |} 1500) ∅)
    <= ar_score (evalM (calculateHighAccuracyScore config
                          {| gamesWithAccuracy := 10; highAccuracyGames := 4;
                             highAccuracyPercentage := Num 40 |} 1500) ∅).
Proof.
  apply (calculateHighAccuracyScore_monotone ∅ 10 2 4 20 40 1500).
  - apply cache_for_empty.
  - vm_compute. discriminate.
  - vm_compute. discriminate.
Defined.

(** ** The classifier beyond the integers 0..100 *)

(** X8: a higher score never gets a lower tier; scores up to 30, the
    negative ones included, are LOW and scores above 70, those above 100
    included, are VERY_HIGH; the range of the tier of a whole score
    between 0 and 100 contains that score. *)
Theorem getRiskLevel_ordered (score1 score2 : Q) (z : Z)
    (Hscores : score1 <= score2) (Hz : (0 <= z <= 100)%Z) :
  rl_max (getRiskLevel config score1) <= rl_max (getRiskLevel config score2) /\
  rl_min (getRiskLevel config score1) <= rl_min (getRiskLevel config score2) /\
  (score2 <= 30 -> getRiskLevel config score1 = LOW (RISK_LEVELS config)) /\
  (70 < score1 ->
   getRiskLevel config score2 = VERY_HIGH (RISK_LEVELS config)) /\
  rl_min (getRiskLevel config (inject_Z z)) <= inject_Z z
    <= rl_max (getRiskLevel config (inject_Z z)).
Proof.
  assert (Hint : forall k : Z, inject_Z z <= inject_Z k \/
                               inject_Z (k + 1) <= inject_Z z).
  { intros k. rewrite <- !Zle_Qle. lia. }
  destruct (Hint 30%Z) as [H30|H30], (Hint 50%Z) as [H50|H50],
    (Hint 70%Z) as [H70|H70];
    change (inject_Z 30) with 30 in *; change (inject_Z 50) with 50 in *;
    change (inject_Z 70) with 70 in *;
    change (inject_Z (30 + 1)) with 31 in *;
    change (inject_Z (50 + 1)) with 51 in *;
    change (inject_Z (70 + 1)) with 71 in *;
    assert (H0 : 0 <= inject_Z z)
      by (change 0 with (inject_Z 0); rewrite <- Zle_Qle; lia);
    assert (H100 : inject_Z z <= 100)
      by (change 100 with (inject_Z 100); rewrite <- Zle_Qle; lia);
    unfold getRiskLevel; read_config;
    repeat case_Q;
    cbn [rl_max rl_min];
    refine (conj _ (conj _ (conj _ (conj _ (conj _ _)))));
    try lra; intros; try reflexivity; lra.
Qed.

Lemma getRiskLevel_ordered_witness :
  rl_max (getRiskLevel config 30.5) <= rl_max (getRiskLevel config 140).
Proof.
  apply (getRiskLevel_ordered 30.5 140 42).
  - vm_compute. discriminate.
  - lia.
Defined.

(** ** The account-age multiplier *)

Lemma calculateAccountAgeFactor_antitone (age1 age2 : Q) :
  age1 <= age2 ->
  calculateAccountAgeFactor config age2
    <= calculateAccountAgeFactor config age1.
Proof.
  intros H. unfold calculateAccountAgeFactor; read_config.
  repeat case_Q; lra.
Qed.

(** X9: with the same valid statistics and the same cache, the score of
    a format never is lower for the younger of two accounts. *)
Theorem formatScoreEntry_younger_account (age1 age2 : Q) (debug : bool)
    (format : string) (formatMetrics : FormatStats) (cache : WeightCache)
    (Hvalid : validFormatStats formatMetrics)
    (Hcache : cache_for 20 cache)
    (Hage : age1 <= age2) :
  score (evalM (formatScoreEntry config
                  (calculateAccountAgeFactor config age2)
                  debug format formatMetrics) cache)
    <= score (evalM (formatScoreEntry config
                       (calculateAccountAgeFactor config age1)
                       debug format formatMetrics) cache).
Proof.
  destruct (formatScoreEntry_returns
              (calculateAccountAgeFactor config age1) debug format
              formatMetrics cache Hcache) as [[_ H1] _].
  destruct (formatScoreEntry_returns
              (calculateAccountAgeFactor config age2) debug format
              formatMetrics cache Hcache) as [[_ H2] _].
  rewrite H1, H2. apply Q.min_le_compat_l.
  assert (Hf := calculateAccountAgeFactor_antitone _ _ Hage).
  assert (Hs := weightedSum_spec_nonneg _ Hvalid).
  nra.
Qed.

Lemma formatScoreEntry_younger_account_witness :
  score (evalM (formatScoreEntry config
                  (calculateAccountAgeFactor config 400)
                  true "chess_blitz" scenario_format) ∅)
    <= score (evalM (formatScoreEntry config
                       (calculateAccountAgeFactor config 30)
                       true "chess_blitz" scenario_format) ∅).
Proof.
  apply (formatScoreEntry_younger_account 30 400 true "chess_blitz"
           scenario_format ∅ scenario_format_valid (cache_for_empty 20)).
  vm_compute. discriminate.
Defined.

(** ** The result of the selector *)

Lemma calculateRiskScore_ranked (cfg : Config) (now : string)
    (metrics : PlayerMetrics) (debug : bool) (cache : WeightCache) :
  let formatScores :=
    evalM (collectFormatScores cfg
             (calculateAccountAgeFactor cfg (accountAge metrics))
             debug (formats metrics)) cache in
  let res := evalM (calculateRiskScore cfg now metrics debug) cache in
  execM (calculateRiskScore cfg now metrics debug) cache
    = execM (collectFormatScores cfg
               (calculateAccountAgeFactor cfg (accountAge metrics))
               debug (formats metrics)) cache /\
  ((formatScores = [] /\
    maxScore res = {| value := 0; ms_format := None; ms_factors := None;
                      ms_reason := Some "no_rated_games" |} /\
    otherFormats res = []) \/
   (exists highest,
      sortByScore formatScores = highest :: otherFormats res /\
      maxScore res = {| value := Math_round (score highest);
                        ms_format := Some (format highest);
                        ms_factors := factors highest;
                        ms_reason := None |})).
Proof.
  intros formatScores res. subst res.
  unfold calculateRiskScore. rewrite evalM_bind, execM_bind.
  fold formatScores.
  destruct formatScores as [|first rest] eqn:E.
  - split; [reflexivity|]. left. now repeat split.
  - split; [reflexivity|]. right.
    assert (Hperm := sortByScore_perm (first :: rest)).
    destruct (sortByScore (first :: rest)) as [|highest others] eqn:Esort.
    { apply Permutation_nil in Hperm. discriminate. }
    exists highest. unfold evalM, ret.
    cbn [fst maxScore otherFormats hd tl]. split; reflexivity.
Qed.

Lemma Math_round_range (x : Q) :
  0 <= x <= 100 -> 0 <= Math_round x <= 100.
Proof.
  intros [H0 H100]. unfold Math_round. split.
  - apply Qle_trans with (inject_Z (Qfloor 0)); [discriminate|].
    rewrite <- Zle_Qle. apply Qfloor_resp_le. lra.
  - apply Qle_trans with (inject_Z (Qfloor 100.5)); [|discriminate].
    rewrite <- Zle_Qle. apply Qfloor_resp_le. lra.
Qed.

Lemma collectFormatScores_range (accountAgeDays : Q) (debug : bool)
    (entries : list (string * FormatStats)) (cache : WeightCache) :
  Forall (fun entry => validFormatStats (snd entry)) entries ->
  cache_for 20 cache ->
  Forall (fun fs => 0 <= score fs <= 100)
         (evalM (collectFormatScores config
                   (calculateAccountAgeFactor config accountAgeDays)
                   debug entries) cache).
Proof.
  intros Hvalid Hcache.
  destruct (collectFormatScores_returns
              (calculateAccountAgeFactor config accountAgeDays) debug
              entries cache Hcache) as [Hall _].
  assert (Hel : Forall (fun entry => validFormatStats (snd entry))
                       (eligible config entries)).
  { rewrite Forall_forall in *. intros e He. apply Hvalid.
    apply list_elem_of_In. apply list_elem_of_In in He.
    now apply eligible_In in He. }
  revert Hel. induction Hall as [|fs e l l' [_ Hs] _ IH]; intros Hel.
  - constructor.
  - inversion Hel as [|? ? He Hel']; subst.
    constructor; [|now apply IH].
    rewrite Hs. split.
    + apply Q.min_glb; [lra|]. apply Qmult_le_0_compat.
      * apply Qlt_le_weak, calculateAccountAgeFactor_pos.
      * now apply weightedSum_spec_nonneg.
    + apply Q.le_min_l.
Qed.

(** X10: when every format of the metrics satisfies the invariants of
    FormatStats, the headline score is a whole number between 0 and 100,
    the domain of the classifier; the scores of the other formats lie
    between 0 and 100 and none exceeds the headline before rounding by
    more than a half. *)
Theorem calculateRiskScore_headline_range (now : string)
    (metrics : PlayerMetrics) (debug : bool) (cache : WeightCache)
    (Hvalid : Forall (fun entry => validFormatStats (snd entry))
                     (formats metrics))
    (Hcache : cache_for 20 cache) :
  is_integer
    (value (maxScore (evalM (calculateRiskScore config now metrics debug)
                            cache))) /\
  0 <= value (maxScore (evalM (calculateRiskScore config now metrics debug)
                              cache)) <= 100 /\
  Forall (fun fs =>
            0 <= score fs <= 100 /\
            score fs - 0.5 <
              value (maxScore (evalM (calculateRiskScore config now metrics
                                        debug) cache)))
         (otherFormats (evalM (calculateRiskScore config now metrics debug)
                              cache)).
Proof.
  assert (Hrange := collectFormatScores_range (accountAge metrics) debug
                      (formats metrics) cache Hvalid Hcache).
  destruct (calculateRiskScore_ranked config now metrics debug cache)
    as [_ [(_ & Hmax & Hothers)|(highest & Hsort & Hmax)]];
    rewrite Hmax; cbn [value].
  - rewrite Hothers. split; [reflexivity|]. split; [lra|]. constructor.
  - assert (Hall : Forall (fun fs => 0 <= score fs <= 100)
                          (highest :: otherFormats
                             (evalM (calculateRiskScore config now metrics
                                       debug) cache))).
    { rewrite <- Hsort. eapply Permutation_Forall; [|exact Hrange].
      symmetry. apply sortByScore_perm. }
    assert (Hsorted := sortByScore_sorted
              (evalM (collectFormatScores config
                        (calculateAccountAgeFactor config
                           (accountAge metrics))
                        debug (formats metrics)) cache)).
    rewrite Hsort in Hsorted.
    inversion Hall as [|? ? Hh Ho]; subst.
    inversion Hsorted as [|? ? _ Hge]; subst.
    split; [apply Math_round_integer|].
    split; [now apply Math_round_range|].
    destruct (Math_round_nearest (score highest)) as [Hnear _].
    rewrite Forall_forall in *. intros fs Hfs.
    specialize (Ho fs Hfs). specialize (Hge fs Hfs).
    unfold score_ge in Hge. split; [exact Ho|]. lra.
Qed.

Lemma calculateRiskScore_headline_range_witness :
  0 <= value (maxScore (evalM (calculateRiskScore config
                                 "2024-01-01T00:00:00.000Z" scenario_metrics
                                 true) ∅)) <= 100.
Proof.
  apply (calculateRiskScore_headline_range "2024-01-01T00:00:00.000Z"
           scenario_metrics true ∅).
  - constructor; [apply scenario_format_valid | constructor].
  - apply cache_for_empty.
Defined.

(** ** The debug flag *)

Lemma evalM_ret {A} (a : A) (cache : WeightCache) : evalM (ret a) cache = a.
Proof. reflexivity. Qed.

Lemma execM_ret {A} (a : A) (cache : WeightCache) :
  execM (ret a) cache = cache.
Proof. reflexivity. Qed.

Lemma calculateFormatRiskScore_debug (cfg : Config) (fm : FormatStats)
    (cache : WeightCache) :
  fr_score (evalM (calculateFormatRiskScore cfg fm true) cache)
    = fr_score (evalM (calculateFormatRiskScore cfg fm false) cache) /\
  execM (calculateFormatRiskScore cfg fm true) cache
    = execM (calculateFormatRiskScore cfg fm false) cache /\
  fr_debug (evalM (calculateFormatRiskScore cfg fm false) cache) = None.
Proof.
  unfold calculateFormatRiskScore, evalM, execM, bind.
  destruct (calculateWinRateScore cfg _ _ cache) as [o c1].
  destruct (calculateWinRateScore cfg _ _ c1) as [r c2].
  destruct (calculateHighAccuracyScore cfg _ _ c2) as [a c3].
  cbn. now repeat split.
Qed.

Lemma formatScoreEntry_debug (cfg : Config) (accountAgeFactor : Q)
    (format : string) (fm : FormatStats) (cache : WeightCache) :
  scoreOnly (evalM (formatScoreEntry cfg accountAgeFactor true format fm)
                   cache)
    = scoreOnly (evalM (formatScoreEntry cfg accountAgeFactor false format fm)
                       cache) /\
  execM (formatScoreEntry cfg accountAgeFactor true format fm) cache
    = execM (formatScoreEntry cfg accountAgeFactor false format fm) cache /\
  factors (evalM (formatScoreEntry cfg accountAgeFactor false format fm)
                 cache) = None.
Proof.
  destruct (calculateFormatRiskScore_debug cfg fm cache) as (Hs & Hc & Hd).
  unfold formatScoreEntry.
  rewrite !evalM_bind, !execM_bind, !evalM_ret, !execM_ret.
  unfold scoreOnly. cbn [RiskScore.format score factors].
  rewrite Hs, Hc, Hd. now repeat split.
Qed.

Lemma collectFormatScores_debug (cfg : Config) (accountAgeFactor : Q)
    (entries : list (string * FormatStats)) (cache : WeightCache) :
  List.map scoreOnly
    (evalM (collectFormatScores cfg accountAgeFactor true entries) cache)
    = List.map scoreOnly
        (evalM (collectFormatScores cfg accountAgeFactor false entries)
               cache) /\
  execM (collectFormatScores cfg accountAgeFactor true entries) cache
    = execM (collectFormatScores cfg accountAgeFactor false entries) cache /\
  Forall (fun fs => factors fs = None)
         (evalM (collectFormatScores cfg accountAgeFactor false entries)
                cache).
Proof.
  revert cache. induction entries as [|[format fm] rest IH]; intros cache.
  - cbn. repeat split. constructor.
  - cbn [collectFormatScores].
    destruct (Qltb (rg_total (recentGames fm)) (MIN_GAMES (THRESHOLDS cfg))).
    + apply IH.
    + rewrite !evalM_bind, !execM_bind, !evalM_ret, !execM_ret.
      destruct (formatScoreEntry_debug cfg accountAgeFactor format fm cache)
        as (Hs & Hc & Hf).
      rewrite Hc.
      destruct (IH (execM (formatScoreEntry cfg accountAgeFactor false
                             format fm) cache)) as (IHs & IHc & IHf).
      cbn [List.map]. rewrite Hs, IHs, IHc. repeat split. now constructor.
Qed.

Lemma insertByScore_scoreOnly (x1 x2 : FormatScore)
    (l1 l2 : list FormatScore) :
  scoreOnly x1 = scoreOnly x2 ->
  List.map scoreOnly l1 = List.map scoreOnly l2 ->
  List.map scoreOnly (insertByScore x1 l1)
    = List.map scoreOnly (insertByScore x2 l2).
Proof.
  intros Hx. revert l2.
  induction l1 as [|y1 l1 IH]; intros [|y2 l2] Hl; try discriminate;
    cbn [insertByScore List.map].
  - now rewrite Hx.
  - cbn [List.map] in Hl. injection Hl as Hyf Esy Hl.
    assert (Hy : scoreOnly y1 = scoreOnly y2)
      by (unfold scoreOnly; congruence).
    assert (Esx : score x1 = score x2) by exact (f_equal snd Hx).
    rewrite Esx, Esy.
    destruct (Qle_bool (score y2) (score x2)); cbn [List.map].
    + now rewrite Hx, Hy, Hl.
    + rewrite Hy. f_equal. now apply IH.
Qed.

Lemma sortByScore_scoreOnly (l1 l2 : list FormatScore) :
  List.map scoreOnly l1 = List.map scoreOnly l2 ->
  List.map scoreOnly (sortByScore l1) = List.map scoreOnly (sortByScore l2).
Proof.
  revert l2. induction l1 as [|x1 l1 IH]; intros [|x2 l2] Hl;
    try discriminate; [reflexivity|].
  cbn [List.map] in Hl. injection Hl as Hxf Hxs Hl.
  cbn [sortByScore foldr]. apply insertByScore_scoreOnly;
    [unfold scoreOnly; congruence|].
  now apply IH.
Qed.

(** X11: the debug flag only adds the explanations: with and without it
    the headline value and format, the ranking of the other formats with
    their scores, and the cache left behind are the same; without it no
    entry carries factors. *)
Theorem calculateRiskScore_debug_only_explains (cfg : Config) (now : string)
    (metrics : PlayerMetrics) (cache : WeightCache) :
  value (maxScore (evalM (calculateRiskScore cfg now metrics true) cache))
    = value (maxScore (evalM (calculateRiskScore cfg now metrics false)
                             cache)) /\
  ms_format (maxScore (evalM (calculateRiskScore cfg now metrics true)
                             cache))
    = ms_format (maxScore (evalM (calculateRiskScore cfg now metrics false)
                                 cache)) /\
  ms_reason (maxScore (evalM (calculateRiskScore cfg now metrics true)
                             cache))
    = ms_reason (maxScore (evalM (calculateRiskScore cfg now metrics false)
                                 cache)) /\
  List.map scoreOnly
    (otherFormats (evalM (calculateRiskScore cfg now metrics true) cache))
    = List.map scoreOnly
        (otherFormats (evalM (calculateRiskScore cfg now metrics false)
                             cache)) /\
  execM (calculateRiskScore cfg now metrics true) cache
    = execM (calculateRiskScore cfg now metrics false) cache /\
  ms_factors (maxScore (evalM (calculateRiskScore cfg now metrics false)
                              cache)) = None /\
  Forall (fun fs => factors fs = None)
         (otherFormats (evalM (calculateRiskScore cfg now metrics false)
                              cache)).
Proof.
  destruct (collectFormatScores_debug cfg
              (calculateAccountAgeFactor cfg (accountAge metrics))
              (formats metrics) cache) as (Hs & Hc & Hf).
  apply sortByScore_scoreOnly in Hs as Hsorted.
  assert (Hf' : Forall (fun fs => factors fs = None)
                  (sortByScore
                     (evalM (collectFormatScores cfg
                               (calculateAccountAgeFactor cfg
                                  (accountAge metrics))
                               false (formats metrics)) cache))).
  { eapply Permutation_Forall; [|exact Hf].
    symmetry. apply sortByScore_perm. }
  destruct (calculateRiskScore_ranked cfg now metrics true cache)
    as [Hc1 H1].
  destruct (calculateRiskScore_ranked cfg now metrics false cache)
    as [Hc0 H0].
  rewrite Hc1, Hc0.
  destruct H1 as [(E1 & M1 & O1)|(h1 & S1 & M1)];
    destruct H0 as [(E0 & M0 & O0)|(h0 & S0 & M0)];
    rewrite ?M1, ?M0, ?O1, ?O0; cbn [value ms_format ms_reason ms_factors].
  - repeat split; try assumption. constructor.
  - rewrite E1, S0 in Hsorted. discriminate.
  - rewrite E0, S1 in Hsorted. discriminate.
  - rewrite S1, S0 in Hsorted. cbn [List.map] in Hsorted.
    injection Hsorted as Hformat Hscore Ho. rewrite S0 in Hf'.
    inversion Hf' as [|? ? Hfh Hfo]; subst.
    rewrite Hformat, Hscore. now repeat split.
Qed.

(** ** Repeated runs *)

Lemma cache_stable_ret {A} (a : A) : cache_stable (ret a).
Proof. intros cache. split; [reflexivity|]. now intros cache' _. Qed.

Lemma cache_stable_bind {A B} (m : M A) (k : A -> M B) :
  cache_stable m -> (forall a, cache_stable (k a)) ->
  cache_stable (bind m k).
Proof.
  intros Hm Hk cache. rewrite evalM_bind, execM_bind.
  destruct (Hm cache) as [Hsub Hagain].
  destruct (Hk (evalM m cache) (execM m cache)) as [Hsub' Hagain'].
  split; [now transitivity (execM m cache)|].
  intros cache' Hlater. unfold bind.
  rewrite Hagain by (now transitivity
                       (execM (k (evalM m cache)) (execM m cache))).
  now apply Hagain'.
Qed.

Lemma cache_stable_calculateWeight (cfg : Config) (n : Q) :
  cache_stable (calculateWeight cfg n).
Proof.
  intros cache. unfold evalM, execM, calculateWeight.
  destruct (cache !! Q2Qc n) as [w|] eqn:E; cbn [fst snd].
  - split; [reflexivity|]. intros cache' Hlater.
    now rewrite (lookup_weaken _ _ _ _ E Hlater).
  - split; [now apply insert_subseteq|]. intros cache' Hlater.
    erewrite lookup_weaken; [reflexivity| |exact Hlater].
    apply lookup_insert_eq.
Qed.

Lemma cache_stable_calculateWinRateScore (cfg : Config)
    (winRate totalGames : Q) :
  cache_stable (calculateWinRateScore cfg winRate totalGames).
Proof.
  unfold calculateWinRateScore.
  destruct (Qle_bool _ _); [apply cache_stable_ret|].
  apply cache_stable_bind; [apply cache_stable_calculateWeight|].
  intros w. apply cache_stable_ret.
Qed.

Lemma cache_stable_calculateHighAccuracyScore (cfg : Config)
    (accuracyData : Accuracy) (playerRating : Q) :
  cache_stable (calculateHighAccuracyScore cfg accuracyData playerRating).
Proof.
  unfold calculateHighAccuracyScore.
  destruct (_ || _); [apply cache_stable_ret|].
  destruct (js_leb _ _); [apply cache_stable_ret|].
  destruct (highAccuracyPercentage accuracyData);
    [|apply cache_stable_ret].
  apply cache_stable_bind; [apply cache_stable_calculateWeight|].
  intros w. apply cache_stable_ret.
Qed.

Lemma cache_stable_calculateFormatRiskScore (cfg : Config)
    (fm : FormatStats) (debug : bool) :
  cache_stable (calculateFormatRiskScore cfg fm debug).
Proof.
  unfold calculateFormatRiskScore.
  apply cache_stable_bind; [apply cache_stable_calculateWinRateScore|].
  intros o.
  apply cache_stable_bind; [apply cache_stable_calculateWinRateScore|].
  intros r.
  apply cache_stable_bind; [apply cache_stable_calculateHighAccuracyScore|].
  intros a. destruct debug; apply cache_stable_ret.
Qed.

Lemma cache_stable_collectFormatScores (cfg : Config)
    (accountAgeFactor : Q) (debug : bool)
    (entries : list (string * FormatStats)) :
  cache_stable (collectFormatScores cfg accountAgeFactor debug entries).
Proof.
  induction entries as [|[format fm] rest IH]; cbn [collectFormatScores].
  - apply cache_stable_ret.
  - destruct (Qltb _ _); [exact IH|].
    apply cache_stable_bind.
    + unfold formatScoreEntry.
      apply cache_stable_bind;
        [apply cache_stable_calculateFormatRiskScore|].
      intros r. apply cache_stable_ret.
    + intros e. apply cache_stable_bind; [exact IH|].
      intros l. apply cache_stable_ret.
Qed.

Lemma cache_stable_calculateRiskScore (cfg : Config) (now : string)
    (metrics : PlayerMetrics) (debug : bool) :
  cache_stable (calculateRiskScore cfg now metrics debug).
Proof.
  unfold calculateRiskScore.
  apply cache_stable_bind; [apply cache_stable_collectFormatScores|].
  intros [|first rest]; apply cache_stable_ret.
Qed.

(** X12: the weight cache only grows during a run, and a later run on
    the same metrics, configuration and clock, from the cache the first
    run left or from any cache containing it, returns the very same
    result and leaves that cache as it is. *)
Theorem calculateRiskScore_repeatable (cfg : Config) (now : string)
    (metrics : PlayerMetrics) (debug : bool) (cache cache' : WeightCache)
    (Hlater : execM (calculateRiskScore cfg now metrics debug) cache
                ⊆ cache') :
  cache ⊆ execM (calculateRiskScore cfg now metrics debug) cache /\
  calculateRiskScore cfg now metrics debug cache'
    = (evalM (calculateRiskScore cfg now metrics debug) cache, cache').
Proof.
  destruct (cache_stable_calculateRiskScore cfg now metrics debug cache)
    as [Hsub Hagain].
  split; [exact Hsub | now apply Hagain].
Qed.

Lemma calculateRiskScore_repeatable_witness :
  calculateRiskScore config "2024-01-01T00:00:00.000Z" scenario_metrics true
    (execM (calculateRiskScore config "2024-01-01T00:00:00.000Z"
              scenario_metrics true) ∅)
  = (evalM (calculateRiskScore config "2024-01-01T00:00:00.000Z"
              scenario_metrics true) ∅,
     execM (calculateRiskScore config "2024-01-01T00:00:00.000Z"
              scenario_metrics true) ∅).
Proof.
  apply (calculateRiskScore_repeatable config "2024-01-01T00:00:00.000Z"
           scenario_metrics true ∅).
  reflexivity.
Defined.

(** ** The popup *)

Section PopupFacts.

Import Popup.

(** X13: the CSS class chosen by the popup names the tier that
    [getRiskLevel] returns under the constants of config.js. *)
Theorem getRiskClass_getRiskLevel (score : Q) :
  (getRiskLevel config score = LOW (RISK_LEVELS config) /\
   getRiskClass score = "low") \/
  (getRiskLevel config score = MODERATE (RISK_LEVELS config) /\
   getRiskClass score = "moderate") \/
  (getRiskLevel config score = HIGH (RISK_LEVELS config) /\
   getRiskClass score = "high") \/
  (getRiskLevel config score = VERY_HIGH (RISK_LEVELS config) /\
   getRiskClass score = "very-high").
Proof.
  unfold getRiskLevel, getRiskClass; read_config.
  destruct (Qle_bool score 30); [now left|].
  destruct (Qle_bool score 50); [now right; left|].
  destruct (Qle_bool score 70); [now right; right; left|].
  now right; right; right.
Qed.

Lemma substring_all (s : string) :
  String.substring 0 (String.length s) s = s.
Proof. induction s as [|c s IH]; cbn; [reflexivity | now rewrite IH]. Qed.

Lemma replace_unfold (pattern replacement s : string) :
  replace pattern replacement s =
  if String.prefix pattern s
  then (replacement ++
        String.substring (String.length pattern)
                         (String.length s - String.length pattern) s)%string
  else match s with
       | EmptyString => EmptyString
       | String c s' => String c (replace pattern replacement s')
       end.
Proof. now destruct s. Qed.

Lemma prefix_append (p s : string) : String.prefix p (p ++ s)%string = true.
Proof.
  induction p as [|a p IH]; [now destruct s|].
  change (String.prefix (String a p) (String a p ++ s)%string)
    with (if ascii_dec a a then String.prefix p (p ++ s)%string else false).
  destruct (ascii_dec a a); [exact IH | contradiction].
Qed.

Lemma substring_append (p s : string) :
  String.substring (String.length p)
    (String.length (p ++ s)%string - String.length p) (p ++ s)%string = s.
Proof.
  induction p as [|a p IH].
  - change (String.substring 0 (String.length s - 0) s = s).
    rewrite Nat.sub_0_r. apply substring_all.
  - exact IH.
Qed.

(** Replacing a prefix. *)
Lemma replace_prefix (p r s : string) :
  replace p r (p ++ s)%string = (r ++ s)%string.
Proof.
  rewrite replace_unfold, prefix_append. now rewrite substring_append.
Qed.

(** X14: a format name with the prefix "chess_" is shown without it and
    with its first letter in upper case; no format and the empty name are
    shown as "Unknown"; the three formats of the extension are shown as
    Rapid, Bullet and Blitz. *)
Theorem formatName_capitalises (name : string) :
  formatName (Some ("chess_" ++ name)%string)
    = (toUpperCase (charAt0 name) ++ slice1 name)%string /\
  formatName None = "Unknown" /\
  formatName (Some "") = "Unknown" /\
  List.map (fun format => formatName (Some format)) Normalizer.GAME_FORMATS
    = ["Rapid"; "Bullet"; "Blitz"].
Proof.
  split; [|now repeat split].
  change (formatName (Some ("chess_" ++ name)%string))
    with (toUpperCase (charAt0 (replace "chess_" "" ("chess_" ++ name))) ++
          slice1 (replace "chess_" "" ("chess_" ++ name)))%string.
  now rewrite replace_prefix.
Qed.

(** X15: for a score between 0 and 100 the dash offset of the gauge lies
    between 0 and its path length 126, is 126 at score 0 and 0 at score
    100, and shrinks when the score grows. *)
Theorem updateGauge_offset (score1 score2 : Q) (color : string)
    (Hrange : 0 <= score1 <= 100) (Hless : score1 < score2) :
  0 <= fst (updateGauge score1 color) <= 126 /\
  fst (updateGauge score2 color) < fst (updateGauge score1 color) /\
  fst (updateGauge 0 color) == 126 /\
  fst (updateGauge 100 color) == 0 /\
  snd (updateGauge score1 color) = color.
Proof.
  unfold updateGauge. cbn [fst snd].
  assert (E : forall s, s / 100 * 126 == 1.26 * s) by (intros s; field).
  rewrite !E. repeat split; try lra; reflexivity.
Qed.

Lemma updateGauge_offset_witness :
  0 <= fst (updateGauge 40 "#FFC107") <= 126.
Proof.
  apply (updateGauge_offset 40 70 "#FFC107").
  - split; vm_compute; discriminate.
  - reflexivity.
Defined.

End PopupFacts.

(** ** The analysis cache *)

Section AnalysisFacts.

Import Analysis.


(** X16: an analysis stored for a username is returned, for that
    username in any letter case, as long as no more than five minutes
    have passed, and the lookup leaves the cache as it is. *)
Theorem getCachedAnalysis_fresh (stored now : Z) (username username' : string)
    (data : OpponentData) (cache : AnalysisCache)
    (Hname : toLowerCase username' = toLowerCase username)
    (Hfresh : (now - stored <= ANALYSIS_CACHE_TTL_MS)%Z) :
  getCachedAnalysis now username'
    (setCachedAnalysis stored username data cache)
  = (Some data, setCachedAnalysis stored username data cache).
Proof.
  unfold getCachedAnalysis, setCachedAnalysis. rewrite Hname.
  rewrite lookup_insert_eq. cbn [ce_timestamp ce_data].
  destruct (Z.ltb_spec ANALYSIS_CACHE_TTL_MS (now - stored)); [lia|].
  reflexivity.
Qed.

Lemma getCachedAnalysis_fresh_witness :
  getCachedAnalysis 1700000200000 "Alice"
    (setCachedAnalysis 1700000000000 "alice"
       (analysis "alice" 40 "2023-11-14T22:13:20.000Z") ∅)
  = (Some (analysis "alice" 40 "2023-11-14T22:13:20.000Z"),
     setCachedAnalysis 1700000000000 "alice"
       (analysis "alice" 40 "2023-11-14T22:13:20.000Z") ∅).
Proof.
  apply getCachedAnalysis_fresh.
  - reflexivity.
  - vm_compute. discriminate.
Defined.

(** X17: more than five minutes after it was stored an analysis is no
    longer returned, and the lookup removes it: the cache then is the
    cache without any entry for that username, the others untouched. *)
Theorem getCachedAnalysis_expired (stored now : Z)
    (username username' : string) (data : OpponentData)
    (cache : AnalysisCache)
    (Hname : toLowerCase username' = toLowerCase username)
    (Hold : (ANALYSIS_CACHE_TTL_MS < now - stored)%Z) :
  getCachedAnalysis now username'
    (setCachedAnalysis stored username data cache)
  = (None, delete (toLowerCase username) cache) /\
  (forall later,
     fst (getCachedAnalysis later username
            (delete (toLowerCase username) cache)) = None) /\
  (forall other,
     toLowerCase other <> toLowerCase username ->
     delete (toLowerCase username) cache !! toLowerCase other
       = cache !! toLowerCase other).
Proof.
  unfold getCachedAnalysis, setCachedAnalysis. rewrite Hname.
  rewrite lookup_insert_eq. cbn [ce_timestamp ce_data].
  destruct (Z.ltb_spec ANALYSIS_CACHE_TTL_MS (now - stored)); [|lia].
  rewrite delete_insert_eq. split; [reflexivity|]. split.
  - intros later. now rewrite lookup_delete_eq.
  - intros other Hne. now rewrite lookup_delete_ne.
Qed.

Lemma getCachedAnalysis_expired_witness :
  getCachedAnalysis 1700000300001 "Alice"
    (setCachedAnalysis 1700000000000 "alice"
       (analysis "alice" 40 "2023-11-14T22:13:20.000Z") ∅)
  = (None, delete (toLowerCase "alice") ∅).
Proof.
  apply getCachedAnalysis_expired.
  - reflexivity.
  - reflexivity.
Defined.

Lemma getCachedAnalysis_hit (now : Z) (username : string)
    (cache : AnalysisCache) (data : OpponentData) :
  fst (getCachedAnalysis now username cache) = Some data ->
  getCachedAnalysis now username cache = (Some data, cache).
Proof.
  unfold getCachedAnalysis.
  destruct (cache !! toLowerCase username) as [entry|]; [|discriminate].
  destruct (_ <? _)%Z; [discriminate|].
  cbn [fst]. now intros [= ->].
Qed.

(** X18: while a fresh analysis of the username is cached,
    [analyzeOpponent] answers with it whatever the remote data would be,
    and changes neither the history nor the cache. *)
Theorem analyzeOpponent_cached (cfg : Config) (now nowStored : Z)
    (nowIso : string) (upstream : string + RiskScoreResult)
    (browser : Browser) (username : string) (st : State)
    (cached : OpponentData)
    (Hname : username <> "")
    (Hhit : fst (getCachedAnalysis now username (analysisCache st))
              = Some cached) :
  fst (analyzeOpponent cfg now nowStored nowIso upstream browser username st)
    = Analysed cached /\
  opponentHistory
    (snd (analyzeOpponent cfg now nowStored nowIso upstream browser
            username st))
    = opponentHistory st /\
  analysisCache
    (snd (analyzeOpponent cfg now nowStored nowIso upstream browser
            username st))
    = analysisCache st /\
  currentOpponentData
    (snd (analyzeOpponent cfg now nowStored nowIso upstream browser
            username st))
    = Some cached.
Proof.
  apply getCachedAnalysis_hit in Hhit.
  unfold analyzeOpponent. rewrite Hhit.
  destruct username; [congruence|]. now repeat split.
Qed.

Lemma analyzeOpponent_cached_witness :
  opponentHistory
    (snd (analyzeOpponent config 1700000100000 1700000102000
            "2023-11-14T22:15:02.000Z" (inl "Failed to fetch player profile")
            full_storage "Alice" after_alice))
    = opponentHistory after_alice.
Proof.
  apply (analyzeOpponent_cached config 1700000100000 1700000102000
           "2023-11-14T22:15:02.000Z" (inl "Failed to fetch player profile")
           full_storage "Alice" after_alice
           (analysis "alice" 40 "2023-11-14T22:13:22.000Z")).
  - discriminate.
  - vm_compute. reflexivity.
Defined.








Lemma step_reachable (cfg : Config) (st : State) (ev : Event) :
  reachable (opponentHistory st) ->
  reachable (opponentHistory (step cfg st ev)).
Proof.
  intros Hreach.
  destruct ev as [now nowStored nowIso upstream browser username|].
  - unfold step, analyzeOpponent.
    destruct username as [|c username]; [exact Hreach|].
    destruct (getCachedAnalysis now _ (analysisCache st))
      as [[cached|] cache]; [exact Hreach|].
    destruct (badgeLoading browser); [|exact Hreach].
    destruct upstream as [m|result]; [exact Hreach|].
    destruct (badgeScore browser); [|exact Hreach].
    destruct (storageSet browser); cbn [snd opponentHistory];
      now constructor.
  - cbn. constructor.
Qed.

Lemma run_reachable (cfg : Config) (events : list Event) :
  reachable (opponentHistory (run cfg events)).
Proof.
  unfold run.
  assert (H : reachable (opponentHistory initial)) by constructor.
  revert H. generalize initial.
  induction events as [|ev events IH]; intros st Hst; cbn [fold_left].
  - exact Hst.
  - apply IH. now apply step_reachable.
Qed.

(** X21: whatever opponents are analysed and whenever the history is
    cleared, with cache hits, failures and successes in any order, the
    history never holds more than 50 entries nor two entries for the
    same username in any letter case. *)
Theorem run_history_bounded (cfg : Config) (events : list Event) :
  (length (opponentHistory (run cfg events)) <= 50)%nat /\
  NoDup (List.map historyKey (opponentHistory (run cfg events))).
Proof. apply reachable_invariant, run_reachable. Qed.

End AnalysisFacts.

(** ** Fetching with retries *)

Section FetchFacts.

Import Utils.

Variable fetch : nat -> FetchOutcome.
Variable baseDelay : Z.

Lemma fetchFrom_retry (attempt remaining : nat) :
  failsRetryably (fetch attempt) = true ->
  fetchFrom fetch baseDelay attempt (S remaining)
  = slept (baseDelay * 2 ^ Z.of_nat attempt)%Z
          (fetchFrom fetch baseDelay (S attempt) remaining).
Proof.
  intros H. cbn [fetchFrom]. unfold failsRetryably in H.
  destruct (fetch attempt) as [status|message].
  - now rewrite H.
  - cbn [retryable]. now rewrite H.
Qed.

Lemma fetchFrom_last (attempt : nat) :
  failsRetryably (fetch attempt) = true ->
  fetchFrom fetch baseDelay attempt 0
  = {| outcome := inl (errorOf (fetch attempt)); delays := [] |}.
Proof.
  intros H. cbn [fetchFrom]. unfold failsRetryably in H.
  destruct (fetch attempt) as [status|message].
  - now rewrite H.
  - cbn [retryable]. now rewrite H.
Qed.

Lemma fetchFrom_decisive (attempt remaining : nat) :
  failsRetryably (fetch attempt) = false ->
  fetchFrom fetch baseDelay attempt remaining
  = {| outcome := decisive (fetch attempt); delays := [] |}.
Proof.
  intros H. unfold failsRetryably in H.
  destruct remaining; cbn [fetchFrom];
    destruct (fetch attempt) as [status|message];
    cbn [retryable]; now rewrite H.
Qed.

Lemma fetchFrom_first_decisive (k attempt remaining : nat) :
  (k <= remaining)%nat ->
  (forall i, (i < k)%nat -> failsRetryably (fetch (attempt + i)) = true) ->
  failsRetryably (fetch (attempt + k)) = false ->
  fetchFrom fetch baseDelay attempt remaining
  = {| outcome := decisive (fetch (attempt + k));
       delays := backoff baseDelay attempt k |}.
Proof.
  revert attempt remaining.
  induction k as [|k IH]; intros attempt remaining Hk Hfail Hdec.
  - rewrite Nat.add_0_r in *. now apply fetchFrom_decisive.
  - destruct remaining as [|remaining]; [lia|].
    rewrite fetchFrom_retry
      by (specialize (Hfail 0%nat); rewrite Nat.add_0_r in Hfail;
          apply Hfail; lia).
    rewrite (IH (S attempt) remaining).
    + unfold slept, backoff. cbn [outcome delays seq List.map].
      now rewrite Nat.add_succ_r.
    + lia.
    + intros i Hi. specialize (Hfail (S i)).
      rewrite Nat.add_succ_r in Hfail. apply Hfail. lia.
    + now rewrite Nat.add_succ_r in Hdec.
Qed.

Lemma fetchFrom_exhausted (remaining attempt : nat) :
  (forall i, (i <= remaining)%nat ->
             failsRetryably (fetch (attempt + i)) = true) ->
  fetchFrom fetch baseDelay attempt remaining
  = {| outcome := inl (errorOf (fetch (attempt + remaining)));
       delays := backoff baseDelay attempt remaining |}.
Proof.
  revert attempt.
  induction remaining as [|remaining IH]; intros attempt Hfail.
  - rewrite Nat.add_0_r. apply fetchFrom_last.
    specialize (Hfail 0%nat). rewrite Nat.add_0_r in Hfail.
    apply Hfail. lia.
  - rewrite fetchFrom_retry
      by (specialize (Hfail 0%nat); rewrite Nat.add_0_r in Hfail;
          apply Hfail; lia).
    rewrite (IH (S attempt)).
    + unfold slept, backoff. cbn [outcome delays seq List.map].
      now rewrite Nat.add_succ_r.
    + intros i Hi. specialize (Hfail (S i)).
      rewrite Nat.add_succ_r in Hfail. apply Hfail. lia.
Qed.

Lemma fetchFrom_schedule (remaining attempt : nat) :
  (length (delays (fetchFrom fetch baseDelay attempt remaining))
     <= remaining)%nat /\
  delays (fetchFrom fetch baseDelay attempt remaining)
    = backoff baseDelay attempt
        (length (delays (fetchFrom fetch baseDelay attempt remaining))) /\
  (forall i,
     (i < length (delays (fetchFrom fetch baseDelay attempt remaining)))%nat ->
     failsRetryably (fetch (attempt + i)) = true).
Proof.
  revert attempt.
  induction remaining as [|remaining IH]; intros attempt.
  - destruct (failsRetryably (fetch attempt)) eqn:E.
    + rewrite fetchFrom_last by exact E. cbn. repeat split; [lia|].
      intros i Hi. lia.
    + rewrite fetchFrom_decisive by exact E. cbn. repeat split; [lia|].
      intros i Hi. lia.
  - destruct (failsRetryably (fetch attempt)) eqn:E.
    + rewrite fetchFrom_retry by exact E.
      destruct (IH (S attempt)) as (Hlen & Hdel & Hfail).
      unfold slept. cbn [delays length].
      split; [lia|]. split.
      * unfold backoff. cbn [seq List.map]. f_equal. exact Hdel.
      * intros [|i] Hi; [now rewrite Nat.add_0_r|].
        rewrite Nat.add_succ_r. apply Hfail. lia.
    + rewrite fetchFrom_decisive by exact E. cbn. repeat split; [lia|].
      intros i Hi. lia.
Qed.

Lemma total_backoff (k : nat) :
  total (backoff baseDelay 0 k) = (baseDelay * (2 ^ Z.of_nat k - 1))%Z.
Proof.
  unfold backoff. induction k as [|k IH].
  - cbn. lia.
  - rewrite seq_S, List.map_app. unfold total in *.
    rewrite fold_right_app. cbn [List.map fold_right Nat.add].
    assert (G : forall (l : list Z) (z : Z),
              fold_right Z.add z l = (fold_right Z.add 0 l + z)%Z).
    { induction l as [|a l IHl]; intros z; cbn [fold_right]; [lia|].
      rewrite IHl. lia. }
    rewrite G, IH, Nat2Z.inj_succ, Z.pow_succ_r by lia. lia.
Qed.

End FetchFacts.

(** X22: [fetchWithRetry] sleeps at most [maxRetries] times, so calls
    [fetch] at most [maxRetries + 1] times; the delays are [baseDelay],
    twice that, four times that and so on; and each attempt before the
    last one failed in a way that is tried again. *)
Theorem fetchWithRetry_schedule (fetch : nat -> Utils.FetchOutcome)
    (maxRetries : nat) (baseDelay : Z) :
  (length (Utils.delays (Utils.fetchWithRetry fetch maxRetries baseDelay))
     <= maxRetries)%nat /\
  Utils.delays (Utils.fetchWithRetry fetch maxRetries baseDelay)
    = backoff baseDelay 0
        (length (Utils.delays
                   (Utils.fetchWithRetry fetch maxRetries baseDelay))) /\
  (forall i,
     (i < length (Utils.delays
                    (Utils.fetchWithRetry fetch maxRetries baseDelay)))%nat ->
     failsRetryably (fetch i) = true).
Proof. apply (fetchFrom_schedule fetch baseDelay maxRetries 0). Qed.

(** X23: the first attempt, among those allowed, that does not fail in a
    way that is tried again decides: its response is returned whatever
    its status below 500 other than 429 (a 404 as well), or its error is
    thrown on; no later attempt is made. *)
Theorem fetchWithRetry_first_decisive (fetch : nat -> Utils.FetchOutcome)
    (maxRetries : nat) (baseDelay : Z) (k : nat)
    (Hk : (k <= maxRetries)%nat)
    (Hfail : forall i, (i < k)%nat -> failsRetryably (fetch i) = true)
    (Hdecisive : failsRetryably (fetch k) = false) :
  Utils.fetchWithRetry fetch maxRetries baseDelay
  = {| Utils.outcome := decisive (fetch k);
       Utils.delays := backoff baseDelay 0 k |}.
Proof.
  unfold Utils.fetchWithRetry.
  rewrite (fetchFrom_first_decisive fetch baseDelay k 0 maxRetries Hk).
  - reflexivity.
  - exact Hfail.
  - exact Hdecisive.
Qed.

Lemma fetchWithRetry_first_decisive_witness :
  Utils.fetchWithRetry
    (fun i => match i with
              | O => Utils.Responds 503
              | 1%nat => Utils.Rejects "TypeError: Failed to fetch"
              | _ => Utils.Responds 404
              end) 3 1000
  = {| Utils.outcome := inr 404%Z; Utils.delays := [1000; 2000]%Z |}.
Proof.
  apply (fetchWithRetry_first_decisive
           (fun i => match i with
                     | O => Utils.Responds 503
                     | 1%nat => Utils.Rejects "TypeError: Failed to fetch"
                     | _ => Utils.Responds 404
                     end) 3 1000 2).
  - lia.
  - intros [|[|i]] Hi; [reflexivity | reflexivity | lia].
  - reflexivity.
Defined.

(** X24: when every allowed attempt fails in a way that is tried again,
    the error of the last attempt is thrown, after [maxRetries] delays
    that add up to [baseDelay * (2 ^ maxRetries - 1)]. *)
Theorem fetchWithRetry_exhausted (fetch : nat -> Utils.FetchOutcome)
    (maxRetries : nat) (baseDelay : Z)
    (Hfail : forall i, (i <= maxRetries)%nat ->
                       failsRetryably (fetch i) = true) :
  Utils.fetchWithRetry fetch maxRetries baseDelay
  = {| Utils.outcome := inl (errorOf (fetch maxRetries));
       Utils.delays := backoff baseDelay 0 maxRetries |} /\
  total (Utils.delays (Utils.fetchWithRetry fetch maxRetries baseDelay))
    = (baseDelay * (2 ^ Z.of_nat maxRetries - 1))%Z.
Proof.
  assert (E := fetchFrom_exhausted fetch baseDelay maxRetries 0 Hfail).
  unfold Utils.fetchWithRetry. rewrite E. cbn [Utils.delays Nat.add].
  split; [reflexivity | apply total_backoff].
Qed.

Lemma fetchWithRetry_exhausted_witness :
  total (Utils.delays
           (Utils.fetchWithRetry (fun _ => Utils.Responds 429) 3 1000))
    = 7000%Z.
Proof.
  apply (fetchWithRetry_exhausted (fun _ => Utils.Responds 429) 3 1000).
  intros i Hi. reflexivity.
Defined.

(** ** The recent games *)

Section RecentGamesFacts.

Import Utils.

Lemma recentGamesOf_In (ratedOnly : bool) (username : string)
    (games : list RawGame) (g : RecentGame) :
  In g (recentGamesOf ratedOnly username games) ->
  exists raw,
    In raw games /\ keepGame ratedOnly raw = true /\
    toRecentGame username raw = Some g.
Proof.
  unfold recentGamesOf. rewrite <- list_elem_of_In, list_elem_of_omap.
  intros (raw & Hraw & Hg). exists raw.
  apply list_elem_of_In, filter_In in Hraw as [Hin Hkeep]. now repeat split.
Qed.

Lemma omap_length_le {A B} (f : A -> option B) (l : list A) :
  (length (omap f l) <= length l)%nat.
Proof.
  induction l as [|a l IH]; cbn; [lia|].
  destruct (f a); cbn; lia.
Qed.

Lemma toRecentGame_fields (username : string) (raw : RawGame)
    (g : RecentGame) :
  toRecentGame username raw = Some g ->
  Metrics.timeClass (game g) = time_class raw /\
  Metrics.rated (game g) = raw_rated raw.
Proof.
  unfold toRecentGame.
  destruct (lookupResult GAME_RESULTS _); [|discriminate].
  intros [= <-]. now split.
Qed.

(** X25: every game that [fetchRecentGames] keeps is a game of chess of
    the time class rapid, bullet or blitz, rated when only rated games
    are wanted, and seen from the side of White exactly when White's
    username is the player's in any letter case; no game is added. *)
Theorem recentGamesOf_kept (ratedOnly : bool) (username : string)
    (games : list RawGame) :
  Forall (fun g =>
            In (Metrics.timeClass (game g)) ["rapid"; "bullet"; "blitz"] /\
            (ratedOnly = true -> Metrics.rated (game g) = true) /\
            exists raw,
              In raw games /\ rules raw = "chess" /\
              (playerColor g = White <->
               toLowerCase (rp_username (white raw))
                 = toLowerCase username))
         (recentGamesOf ratedOnly username games) /\
  (length (recentGamesOf ratedOnly username games) <= length games)%nat.
Proof.
  split.
  - apply Forall_forall. intros g Hg.
    apply list_elem_of_In, recentGamesOf_In in Hg
      as (raw & Hin & Hkeep & Hg).
    destruct (toRecentGame_fields _ _ _ Hg) as [Htc Hrated].
    unfold keepGame in Hkeep.
    apply andb_true_iff in Hkeep as [Hkeep Hr].
    apply andb_true_iff in Hkeep as [Hrules Hclass].
    split; [|split].
    + rewrite Htc. apply existsb_exists in Hclass as (tc & Htc' & Heq).
      apply String.eqb_eq in Heq. now rewrite Heq.
    + intros ->. now rewrite Hrated.
    + exists raw. split; [exact Hin|].
      split; [now apply String.eqb_eq|].
      revert Hg. unfold toRecentGame.
      destruct (String.eqb_spec
                  (toLowerCase (rp_username (white raw)))
                  (toLowerCase username)) as [Heq|Hne];
        destruct (lookupResult GAME_RESULTS _); try discriminate;
        intros [= <-]; cbn [playerColor]; split; congruence.
  - unfold recentGamesOf.
    etransitivity; [apply omap_length_le|]. apply List.filter_length_le.
Qed.

Lemma countedGames_rated (timeClass : string)
    (games : list Metrics.GameRecord) :
  Forall (fun g => Metrics.rated g = true) games ->
  countedGames true timeClass games = countedGames false timeClass games.
Proof.
  intros Hall. unfold countedGames. apply filter_ext_in.
  intros g Hg. rewrite Forall_forall in Hall.
  apply list_elem_of_In in Hg. now rewrite (Hall g Hg).
Qed.

(** X26: on the games that [fetchRecentGames] keeps under a setting of
    [RATED_ONLY], the rated filter of [calculateFormatMetrics] under the
    same setting removes nothing more: the metrics are those computed
    without that filter. *)
Theorem calculateFormatMetrics_recentGamesOf (cfg : Config)
    (ratedOnly : bool) (username : string) (games : list RawGame)
    (stats : Metrics.RawStats) :
  Metrics.calculateFormatMetrics cfg ratedOnly stats
    (List.map game (recentGamesOf ratedOnly username games))
  = Metrics.calculateFormatMetrics cfg false stats
      (List.map game (recentGamesOf ratedOnly username games)).
Proof.
  destruct ratedOnly; [|reflexivity].
  assert (Hall : Forall (fun g => Metrics.rated g = true)
                   (List.map game (recentGamesOf true username games))).
  { apply Forall_forall. intros g Hg.
    apply list_elem_of_In, in_map_iff in Hg as (rg & <- & Hrg).
    apply recentGamesOf_In in Hrg as (raw & _ & Hkeep & Hrg).
    destruct (toRecentGame_fields _ _ _ Hrg) as [_ ->].
    unfold keepGame in Hkeep. now apply andb_true_iff in Hkeep as [_ ->]. }
  assert (E := countedGames_rated (Metrics.rs_timeClass stats) _ Hall).
  unfold countedGames in E. unfold Metrics.calculateFormatMetrics.
  now rewrite E.
Qed.

(** The sample archive, seen by alice with only rated games wanted: the
    rated blitz win with White stays, the unrated game goes. *)
Example recentGamesOf_sample :
  List.map (fun g => (playerColor g, Metrics.result (game g),
                      Metrics.game_accuracy (game g)))
           (recentGamesOf true "alice" sample_archive)
  = [(White, Metrics.win, Some 91.5)] /\
  length (recentGamesOf false "alice" sample_archive) = 2%nat.
Proof. vm_compute. split; reflexivity. Qed.

End RecentGamesFacts.

(** ** The content script *)

Section ContentFacts.

Import Content.

Lemma analysed_checks (events : list PageEvent)
    (lastOpponent : option string) :
  Forall is_check events ->
  adjacent_distinct (analysed events lastOpponent) /\
  (forall x, head (analysed events lastOpponent) = Some x ->
             Some x <> lastOpponent).
Proof.
  intros Hall. revert lastOpponent.
  induction Hall as [|ev events Hev _ IH]; intros lastOpponent.
  - split; [|discriminate].
    intros i x y Hx. cbn [analysed] in Hx. now rewrite lookup_nil in Hx.
  - destruct ev as [extracted|]; [|contradiction].
    cbn [analysed]. unfold checkForOpponent.
    destruct extracted as [[|c u]|]; try apply IH.
    destruct (decide (Some (String c u) = lastOpponent)) as [Heq|Hne];
      [apply IH|].
    destruct (IH (Some (String c u))) as [IHd IHh].
    split.
    + intros [|i] x y Hx Hy.
      * cbn in Hx. injection Hx as <-.
        change ((String c u :: analysed events (Some (String c u))) !! 1%nat)
          with (analysed events (Some (String c u)) !! 0%nat) in Hy.
        rewrite <- head_lookup in Hy. specialize (IHh y Hy). congruence.
      * exact (IHd i x y Hx Hy).
    + cbn. intros x [= <-]. exact Hne.
Qed.

Lemma analysed_nonempty (events : list PageEvent)
    (lastOpponent : option string) :
  Forall (fun username => username <> "") (analysed events lastOpponent).
Proof.
  revert lastOpponent.
  induction events as [|[extracted|] events IH]; intros lastOpponent;
    cbn [analysed]; [constructor| |apply IH].
  unfold checkForOpponent.
  destruct extracted as [[|c u]|]; try apply IH.
  destruct (decide _); [apply IH|]. constructor; [discriminate | apply IH].
Qed.

(** X27: over any sequence of checks without a change of URL, no
    username is sent for analysis twice in a row, nor is the first one
    sent the last opponent already known; the empty username is never
    sent; and right after a change of URL the username found is sent
    again, even if it is the one analysed before. *)
Theorem analysed_once (events : list PageEvent)
    (lastOpponent : option string) (c : ascii) (username : string)
    (Hchecks : Forall is_check events) :
  adjacent_distinct (analysed events lastOpponent) /\
  (forall x, head (analysed events lastOpponent) = Some x ->
             Some x <> lastOpponent) /\
  Forall (fun username => username <> "") (analysed events lastOpponent) /\
  analysed (UrlChange :: Check (Some (String c username)) :: events)
           lastOpponent
    = String c username :: analysed events (Some (String c username)).
Proof.
  destruct (analysed_checks events lastOpponent Hchecks) as [Hd Hh].
  split; [exact Hd|]. split; [exact Hh|].
  split; [apply analysed_nonempty | reflexivity].
Qed.

Lemma analysed_once_witness :
  adjacent_distinct
    (analysed [Check (Some "bob"); Check (Some "bob"); Check None;
               Check (Some "bob"); Check (Some "carol")] None).
Proof.
  apply (analysed_once _ None "b" "ob").
  repeat constructor.
Defined.

End ContentFacts.

(** ** Looking an opponent up in the history *)

(** X28: after [addToHistory] the first entry found for the username of
    the analysis, in any letter case, is the entry just written, whether
    it was added or replaced and whether or not the list was full. *)
Theorem addToHistory_lookup (opponentData : OpponentData)
    (opponentHistory : list HistoryEntry) :
  exists i,
    list_find (fun h => toLowerCase (he_username h)
                        = toLowerCase (username (od_result opponentData)))
              (addToHistory opponentData opponentHistory)
    = Some (i, historyEntryOf opponentData).
Proof.
  unfold addToHistory.
  destruct (list_find _ opponentHistory) as [[i e]|] eqn:Efind.
  - exists i. apply list_find_Some in Efind as (Hi & He & Hbefore).
    apply list_find_Some. split; [|split].
    + apply list_lookup_insert_eq. now apply lookup_lt_Some in Hi.
    + reflexivity.
    + intros j y Hj Hlt. rewrite list_lookup_insert_ne in Hj by lia.
      now apply (Hbefore j).
  - exists 0%nat. apply list_find_Some.
    destruct (50 <? _)%nat; (split; [reflexivity|]);
      (split; [reflexivity|]); intros j y _ Hlt; lia.
Qed.

(** ** From the player data to the result *)

Lemma collectFormatScores_none (cfg : Config) (accountAgeFactor : Q)
    (debug : bool) (entries : list (string * FormatStats))
    (cache : WeightCache) :
  Forall (fun entry => rg_total (recentGames (snd entry))
                       < MIN_GAMES (THRESHOLDS cfg)) entries ->
  collectFormatScores cfg accountAgeFactor debug entries cache = ([], cache).
Proof.
  induction 1 as [|[format fm] rest Hfew _ IH]; [reflexivity|].
  cbn [collectFormatScores]. cbn [snd] in Hfew.
  now rewrite (Qltb_intro _ _ Hfew).
Qed.

(** X29: for a player with fewer than five recent games in all, the
    result computed from the player data is the "no_rated_games"
    sentinel with score 0, whatever the lifetime statistics and the
    account age, and the weight cache is not touched. *)
Theorem calculateRiskScore_few_recent_games (ratedOnly debug : bool)
    (now : Q) (nowIso : string) (playerData : Normalizer.PlayerData)
    (cache : WeightCache)
    (Hfew : (length (Normalizer.pd_recentGames playerData) < 5)%nat) :
  maxScore
    (evalM (calculateRiskScore config nowIso
              (Normalizer.calculatePlayerMetrics config ratedOnly now nowIso
                 playerData) debug) cache)
    = {| value := 0; ms_format := None; ms_factors := None;
         ms_reason := Some "no_rated_games" |} /\
  otherFormats
    (evalM (calculateRiskScore config nowIso
              (Normalizer.calculatePlayerMetrics config ratedOnly now nowIso
                 playerData) debug) cache) = [] /\
  execM (calculateRiskScore config nowIso
           (Normalizer.calculatePlayerMetrics config ratedOnly now nowIso
              playerData) debug) cache = cache.
Proof.
  assert (Hall : Forall (fun entry => rg_total (recentGames (snd entry))
                                      < MIN_GAMES (THRESHOLDS config))
                   (formats (Normalizer.calculatePlayerMetrics config
                               ratedOnly now nowIso playerData))).
  { apply Forall_forall. intros [format fm] Hin.
    apply list_elem_of_In, calculatePlayerMetrics_formats in Hin
      as (entry & _ & _ & ->).
    cbn [snd]. read_config.
    destruct (formatMetrics_recent config ratedOnly
                {| Metrics.rs_timeClass := replace "chess_" "" format;
                   Metrics.rs_rating := Normalizer.se_rating entry;
                   Metrics.rs_wins := Normalizer.se_wins entry;
                   Metrics.rs_losses := Normalizer.se_losses entry;
                   Metrics.rs_draws := Normalizer.se_draws entry |}
                (Normalizer.pd_recentGames playerData))
      as (_ & _ & _ & Ht).
    rewrite Ht.
    apply Qle_lt_trans
      with (Metrics.array_length (Normalizer.pd_recentGames playerData)).
    - apply array_length_filter_le.
    - unfold Metrics.array_length. change 5 with (inject_Z 5).
      rewrite <- Zlt_Qlt. lia. }
  unfold calculateRiskScore, evalM, execM, bind.
  rewrite (collectFormatScores_none _ _ _ _ _ Hall).
  now repeat split.
Qed.

Lemma calculateRiskScore_few_recent_games_witness :
  maxScore
    (evalM (calculateRiskScore config "2023-11-14T22:13:20.000Z"
              (Normalizer.calculatePlayerMetrics config true 1700000000000
                 "2023-11-14T22:13:20.000Z" sample_player) true) ∅)
    = {| value := 0; ms_format := None; ms_factors := None;
         ms_reason := Some "no_rated_games" |}.
Proof.
  apply (calculateRiskScore_few_recent_games true true 1700000000000
           "2023-11-14T22:13:20.000Z" sample_player ∅).
  cbn. lia.
Defined.
